(** * pypacker: the layered packet engine, UDP and Radiotap

    A shallow embedding of [pypacker/pypacker.py], [pypacker/pypacker_meta.py],
    [pypacker/triggerlist.py], [pypacker/layer4/udp.py] and
    [pypacker/layer12/radiotap.py].

    Python objects are modelled by explicit state passing: a method of a
    packet is a function from the packet's state to the new state and either
    the returned value or the raised exception.  Byte strings are lists of
    [Byte.byte]; Python integers are [Z]; the global handler dictionary
    [Packet._handler] is a [gmap]. *)

From Stdlib Require Import ZArith Lia Strings.Byte Strings.Ascii Strings.String.
From stdpp Require Import gmap strings list.

Set Warnings "-register-all".
#[local] Open Scope Z_scope.

(** ** Byte strings and Python slicing *)

Abbreviation bytes := (list byte).

Definition byte_to_Z (b : byte) : Z := Z.of_N (Byte.to_N b).

(** The byte whose value is [z mod 256]. *)
Definition byte_of_Z (z : Z) : byte :=
  default x00 (Byte.of_N (Z.to_N (z mod 256))).

(** Python's [len(...)] as an integer. *)
Definition len {A} (l : list A) : Z := Z.of_nat (length l).

(** A slice bound is brought into [0 .. n] the way Python does it: a negative
    bound counts from the end. *)
Definition clamp_index (n i : Z) : Z :=
  if i <? 0 then Z.max (i + n) 0 else Z.min i n.

(** [l[lo:hi]], with [None] for an omitted bound. *)
Definition slice {A} (l : list A) (lo hi : option Z) : list A :=
  let n := len l in
  let a := match lo with Some i => clamp_index n i | None => 0 end in
  let b := match hi with Some j => clamp_index n j | None => n end in
  take (Z.to_nat (b - a)) (drop (Z.to_nat a) l).

(** ** Exceptions *)

Inductive exn :=
| AttributeError | TypeError | KeyError | IndexError | StructError
| UnicodeError | ValueError | RecursionError | GenericException.

#[global] Instance exn_eq_dec : EqDecision exn.
Proof. solve_decision. Defined.

Definition exn_eqb (a b : exn) : bool := if exn_eq_dec a b then true else false.

Inductive result (A : Type) :=
| Ok (a : A)
| Raise (e : exn).
Arguments Ok {A} a.
Arguments Raise {A} e.

(** [o is None]. *)
Definition is_None {A} (o : option A) : bool :=
  match o with None => true | Some _ => false end.

(** ** Header field values *)

(** A dissect callback of a trigger list; the only one in the modelled
    sources is [Radiotap._parse_flags]. *)
Inductive callback := CbParseFlags | CbOther (n : nat).

(** An instantiated [TriggerList] holding tuples [(mask, value)], the element
    type of [FlagTriggerList]. *)
Record TriggerList := mkTriggerList {
  _cached_result : option bytes;
  _dissect_callback : option callback;
  tl_items : list (Z * bytes)
}.

(** What a header field's shadowed attribute can hold: an [int], a [bytes],
    [None], the not yet instantiated trigger list [[bts, callback]] (a plain
    Python list), or a [TriggerList] instance. *)
Inductive value :=
| VInt (z : Z)
| VBytes (b : bytes)
| VNone
| VCell (bts : bytes) (cb : option callback)
| VTrig (tl : TriggerList).

(** ** The struct module: formats of the codes used by the sources *)

Inductive byte_order := BigEndian | LittleEndian.

(** [x] (pad byte), [B], [H], [I] and [<n>s]. *)
Inductive fmt_item := Fx | FB | FH | FI | Fs (n : nat).

Record Struct := mkStruct { st_order : byte_order; st_items : list fmt_item }.

Definition item_size (f : fmt_item) : nat :=
  match f with
  | Fx => 1 | FB => 1 | FH => 2 | FI => 4
  | Fs n => n
  end.

Definition Struct_size (st : Struct) : Z :=
  Z.of_nat (foldr (fun f acc => (item_size f + acc)%nat) O (st_items st)).

(** The [w] low bytes of [z], most significant first. *)
Fixpoint uint_be (w : nat) (z : Z) : bytes :=
  match w with
  | O => []
  | S w' => uint_be w' (z / 256) ++ [byte_of_Z z]
  end.

Definition in_byte_order (o : byte_order) (b : bytes) : bytes :=
  match o with BigEndian => b | LittleEndian => rev b end.

(** Packing an unsigned integer of [w] bytes; [None] is [struct.error]. *)
Definition encode_uint (o : byte_order) (w : nat) (z : Z) : option bytes :=
  if (0 <=? z) && (z <? 256 ^ Z.of_nat w)
  then Some (in_byte_order o (uint_be w z))
  else None.

Definition decode_uint (o : byte_order) (b : bytes) : Z :=
  fold_left (fun acc x => acc * 256 + byte_to_Z x) (in_byte_order o b) 0.

(** [<n>s]: the value is cut or padded with zero bytes to [n] bytes. *)
Definition pad_to (n : nat) (b : bytes) : bytes :=
  take n b ++ replicate (n - length b) x00.

Definition pack_one (o : byte_order) (f : fmt_item) (v : value) : option bytes :=
  match f, v with
  | FB, VInt z => encode_uint o 1 z
  | FH, VInt z => encode_uint o 2 z
  | FI, VInt z => encode_uint o 4 z
  | Fs n, VBytes b => Some (pad_to n b)
  | _, _ => None
  end.

(** [struct.pack]: [None] is [struct.error] (wrong number of arguments, an
    argument of the wrong type, an integer out of range). *)
Fixpoint pack_items (o : byte_order) (items : list fmt_item) (args : list value)
  : option bytes :=
  match items with
  | [] => match args with [] => Some [] | _ :: _ => None end
  | Fx :: items' =>
      match pack_items o items' args with
      | Some r => Some (x00 :: r)
      | None => None
      end
  | f :: items' =>
      match args with
      | [] => None
      | v :: args' =>
          match pack_one o f v, pack_items o items' args' with
          | Some b, Some r => Some (b ++ r)
          | _, _ => None
          end
      end
  end.

Definition Struct_pack (st : Struct) (args : list value) : option bytes :=
  pack_items (st_order st) (st_items st) args.

Fixpoint unpack_items (o : byte_order) (items : list fmt_item) (b : bytes)
  : list value :=
  match items with
  | [] => []
  | Fx :: items' => unpack_items o items' (drop 1 b)
  | Fs n :: items' => VBytes (take n b) :: unpack_items o items' (drop n b)
  | f :: items' =>
      VInt (decode_uint o (take (item_size f) b))
        :: unpack_items o items' (drop (item_size f) b)
  end.

(** [struct.unpack]: the buffer must have exactly the format's size. *)
Definition Struct_unpack (st : Struct) (b : bytes) : option (list value) :=
  if len b =? Struct_size st
  then Some (unpack_items (st_order st) (st_items st) b)
  else None.

(** ** Packets *)

(** One entry of [__hdr__] as the metaclass installs it on the class and as
    an instance then carries it: the shadowed attribute [_name], its
    [_name_active] and [_name_format], and the kind of property the
    metaclass generated for it ([is_field_type_simple], [is_field_static]). *)
Record field := mkField {
  f_name : string;
  f_value : value;
  f_active : bool;
  f_format : option fmt_item;
  f_simple : bool;
  f_static : bool
}.

(** What an upper layer reads of the object behind [_lower_layer]:
    [_header_changed] and the attributes [src] and [dst] ([None] when the
    lower layer's class has no such attribute). *)
Record LowerLayer := mkLowerLayer {
  ll_header_changed : bool;
  ll_src : option value;
  ll_dst : option value
}.

(** The state of one [Packet] object.  Classes are identified by their
    [__name__].  [_handler_attr] is the attribute that [_set_bodyhandler]
    installs with [setattr(self, self._bodytypename, hndl)]: its name and the
    handler object.  It stands for a new instance attribute; a handler whose
    lower-case class name is already taken on the object (by a property, a
    method or another attribute) is not described by it.  [_fcs] is the
    attribute that only [Radiotap] sets.
    [_header_format_order] is the byte order of [_header_format]. *)
Inductive Packet := mkPacket {
  _class_name : string;
  _fields : list field;
  _header_format : Struct;
  _header_len : Z;
  _header_cached : bytes;
  _header_changed : bool;
  _header_format_changed : bool;
  _body_changed : bool;
  _body_bytes : option bytes;
  _bodytypename : option string;
  _lazy_handler_data : option (string * string * bytes);
  _handler_attr : option (string * Packet);
  _lower_layer : option LowerLayer;
  _changelistener : list nat;
  _target_unpack_clz : option string;
  _unpacked : option bool;
  _dissect_error : bool;
  _fcs : option bytes
}.

(** Attribute assignment, one function per attribute. *)
Definition set_class_name (v : string) (p : Packet) : Packet :=
  match p with
  | mkPacket a0 a1 a2 a3 a4 a5 a6 a7 a8 a9 a10 a11 a12 a13 a14 a15 a16 a17 =>
      mkPacket v a1 a2 a3 a4 a5 a6 a7 a8 a9 a10 a11 a12 a13 a14 a15 a16 a17
  end.
Definition set_fields (v : list field) (p : Packet) : Packet :=
  match p with
  | mkPacket a0 a1 a2 a3 a4 a5 a6 a7 a8 a9 a10 a11 a12 a13 a14 a15 a16 a17 =>
      mkPacket a0 v a2 a3 a4 a5 a6 a7 a8 a9 a10 a11 a12 a13 a14 a15 a16 a17
  end.
Definition set_header_format (v : Struct) (p : Packet) : Packet :=
  match p with
  | mkPacket a0 a1 a2 a3 a4 a5 a6 a7 a8 a9 a10 a11 a12 a13 a14 a15 a16 a17 =>
      mkPacket a0 a1 v a3 a4 a5 a6 a7 a8 a9 a10 a11 a12 a13 a14 a15 a16 a17
  end.
Definition set_header_len (v : Z) (p : Packet) : Packet :=
  match p with
  | mkPacket a0 a1 a2 a3 a4 a5 a6 a7 a8 a9 a10 a11 a12 a13 a14 a15 a16 a17 =>
      mkPacket a0 a1 a2 v a4 a5 a6 a7 a8 a9 a10 a11 a12 a13 a14 a15 a16 a17
  end.
Definition set_header_cached (v : bytes) (p : Packet) : Packet :=
  match p with
  | mkPacket a0 a1 a2 a3 a4 a5 a6 a7 a8 a9 a10 a11 a12 a13 a14 a15 a16 a17 =>
      mkPacket a0 a1 a2 a3 v a5 a6 a7 a8 a9 a10 a11 a12 a13 a14 a15 a16 a17
  end.
Definition set_header_changed (v : bool) (p : Packet) : Packet :=
  match p with
  | mkPacket a0 a1 a2 a3 a4 a5 a6 a7 a8 a9 a10 a11 a12 a13 a14 a15 a16 a17 =>
      mkPacket a0 a1 a2 a3 a4 v a6 a7 a8 a9 a10 a11 a12 a13 a14 a15 a16 a17
  end.
Definition set_header_format_changed (v : bool) (p : Packet) : Packet :=
  match p with
  | mkPacket a0 a1 a2 a3 a4 a5 a6 a7 a8 a9 a10 a11 a12 a13 a14 a15 a16 a17 =>
      mkPacket a0 a1 a2 a3 a4 a5 v a7 a8 a9 a10 a11 a12 a13 a14 a15 a16 a17
  end.
Definition set_body_changed (v : bool) (p : Packet) : Packet :=
  match p with
  | mkPacket a0 a1 a2 a3 a4 a5 a6 a7 a8 a9 a10 a11 a12 a13 a14 a15 a16 a17 =>
      mkPacket a0 a1 a2 a3 a4 a5 a6 v a8 a9 a10 a11 a12 a13 a14 a15 a16 a17
  end.
Definition set_body_bytes (v : option bytes) (p : Packet) : Packet :=
  match p with
  | mkPacket a0 a1 a2 a3 a4 a5 a6 a7 a8 a9 a10 a11 a12 a13 a14 a15 a16 a17 =>
      mkPacket a0 a1 a2 a3 a4 a5 a6 a7 v a9 a10 a11 a12 a13 a14 a15 a16 a17
  end.
Definition set_bodytypename (v : option string) (p : Packet) : Packet :=
  match p with
  | mkPacket a0 a1 a2 a3 a4 a5 a6 a7 a8 a9 a10 a11 a12 a13 a14 a15 a16 a17 =>
      mkPacket a0 a1 a2 a3 a4 a5 a6 a7 a8 v a10 a11 a12 a13 a14 a15 a16 a17
  end.
Definition set_lazy_handler_data (v : option (string * string * bytes)) (p : Packet) : Packet :=
  match p with
  | mkPacket a0 a1 a2 a3 a4 a5 a6 a7 a8 a9 a10 a11 a12 a13 a14 a15 a16 a17 =>
      mkPacket a0 a1 a2 a3 a4 a5 a6 a7 a8 a9 v a11 a12 a13 a14 a15 a16 a17
  end.
Definition set_handler_attr (v : option (string * Packet)) (p : Packet) : Packet :=
  match p with
  | mkPacket a0 a1 a2 a3 a4 a5 a6 a7 a8 a9 a10 a11 a12 a13 a14 a15 a16 a17 =>
      mkPacket a0 a1 a2 a3 a4 a5 a6 a7 a8 a9 a10 v a12 a13 a14 a15 a16 a17
  end.
Definition set_lower_layer (v : option LowerLayer) (p : Packet) : Packet :=
  match p with
  | mkPacket a0 a1 a2 a3 a4 a5 a6 a7 a8 a9 a10 a11 a12 a13 a14 a15 a16 a17 =>
      mkPacket a0 a1 a2 a3 a4 a5 a6 a7 a8 a9 a10 a11 v a13 a14 a15 a16 a17
  end.
Definition set_changelistener (v : list nat) (p : Packet) : Packet :=
  match p with
  | mkPacket a0 a1 a2 a3 a4 a5 a6 a7 a8 a9 a10 a11 a12 a13 a14 a15 a16 a17 =>
      mkPacket a0 a1 a2 a3 a4 a5 a6 a7 a8 a9 a10 a11 a12 v a14 a15 a16 a17
  end.
Definition set_target_unpack_clz (v : option string) (p : Packet) : Packet :=
  match p with
  | mkPacket a0 a1 a2 a3 a4 a5 a6 a7 a8 a9 a10 a11 a12 a13 a14 a15 a16 a17 =>
      mkPacket a0 a1 a2 a3 a4 a5 a6 a7 a8 a9 a10 a11 a12 a13 v a15 a16 a17
  end.
Definition set_unpacked (v : option bool) (p : Packet) : Packet :=
  match p with
  | mkPacket a0 a1 a2 a3 a4 a5 a6 a7 a8 a9 a10 a11 a12 a13 a14 a15 a16 a17 =>
      mkPacket a0 a1 a2 a3 a4 a5 a6 a7 a8 a9 a10 a11 a12 a13 a14 v a16 a17
  end.
Definition set_dissect_error (v : bool) (p : Packet) : Packet :=
  match p with
  | mkPacket a0 a1 a2 a3 a4 a5 a6 a7 a8 a9 a10 a11 a12 a13 a14 a15 a16 a17 =>
      mkPacket a0 a1 a2 a3 a4 a5 a6 a7 a8 a9 a10 a11 a12 a13 a14 a15 v a17
  end.
Definition set_fcs (v : option bytes) (p : Packet) : Packet :=
  match p with
  | mkPacket a0 a1 a2 a3 a4 a5 a6 a7 a8 a9 a10 a11 a12 a13 a14 a15 a16 a17 =>
      mkPacket a0 a1 a2 a3 a4 a5 a6 a7 a8 a9 a10 a11 a12 a13 a14 a15 a16 v
  end.

(** ** The environment of a packet

    [handlers] is the class dictionary [Packet._handler]:
    [{class_name : {id : handler_class}}].  [construct clz buffer lower] is
    the call [clz(buffer, lower)] of a handler class found there; the upper
    layer classes are not part of the modelled sources, so the call is a
    parameter.  [run_listener cb p] is the effect on the packet [p] of
    calling the change listener [cb]. *)
Record Env := mkEnv {
  handlers : gmap string (gmap Z string);
  construct : string -> bytes -> Packet -> result Packet;
  run_listener : nat -> Packet -> Packet
}.

(** ** Methods as state transformers *)

Definition M (A : Type) : Type := Packet -> Packet * result A.

Definition ret {A} (a : A) : M A := fun p => (p, Ok a).
Definition raise {A} (e : exn) : M A := fun p => (p, Raise e).
Definition bind {A B} (m : M A) (k : A -> M B) : M B :=
  fun p =>
    match m p with
    | (p', Ok a) => k a p'
    | (p', Raise e) => (p', Raise e)
    end.
Definition modify (f : Packet -> Packet) : M unit := fun p => (f p, Ok tt).
Definition gets {A} (f : Packet -> A) : M A := fun p => (p, Ok (f p)).
(** [try: m except <the exceptions accepted by catches>: h]. *)
Definition try_except {A} (m : M A) (catches : exn -> bool) (h : M A) : M A :=
  fun p =>
    match m p with
    | (p', Ok a) => (p', Ok a)
    | (p', Raise e) => if catches e then h p' else (p', Raise e)
    end.

Declare Scope py_scope.
Delimit Scope py_scope with py.
Notation "x <- m ;; k" := (bind m (fun x => k))
  (at level 69, m at next level, right associativity) : py_scope.
Notation "m ;;; k" := (bind m (fun _ => k))
  (at level 69, right associativity) : py_scope.
#[local] Open Scope py_scope.

(** [str.lower()] on class names (ASCII). *)
Definition ascii_lower (c : ascii) : ascii :=
  let n := nat_of_ascii c in
  if ((65 <=? n) && (n <=? 90))%nat then ascii_of_nat (n + 32) else c.

Fixpoint lower (s : string) : string :=
  match s with
  | EmptyString => EmptyString
  | String c s' => String (ascii_lower c) (lower s')
  end.

(** *** triggerlist.py *)

(** [FlagTriggerList._pack]. *)
Definition FlagTriggerList_pack (tl : TriggerList) : bytes :=
  concat (map snd (tl_items tl)).

(** [TriggerList.bin]: the packed elements, cached in [_cached_result]. *)
Definition TriggerList_bin (tl : TriggerList) : TriggerList * bytes :=
  match _cached_result tl with
  | Some b => (tl, b)
  | None =>
      let b := FlagTriggerList_pack tl in
      ({| _cached_result := Some b;
          _dissect_callback := _dissect_callback tl;
          tl_items := tl_items tl |}, b)
  end.

(** *** pypacker.py: change tracking *)

Definition set_f_value (v : value) (f : field) : field :=
  {| f_name := f_name f; f_value := v; f_active := f_active f;
     f_format := f_format f; f_simple := f_simple f; f_static := f_static f |}.
Definition set_f_active (a : bool) (f : field) : field :=
  {| f_name := f_name f; f_value := f_value f; f_active := a;
     f_format := f_format f; f_simple := f_simple f; f_static := f_static f |}.
Definition set_f_format (fm : option fmt_item) (f : field) : field :=
  {| f_name := f_name f; f_value := f_value f; f_active := f_active f;
     f_format := fm; f_simple := f_simple f; f_static := f_static f |}.

(** [Packet._reset_changed]. *)
Definition _reset_changed (p : Packet) : Packet :=
  set_body_changed false (set_header_changed false p).

(** [Packet._update_header_format], the loop over [_header_field_names]:
    the format of every active field, in order.  A trigger list instance is
    asked for its [bin()], which fills its cache; an active field holding
    [None] has no [bin] ([AttributeError]). *)
Fixpoint header_format_items (fs : list field)
  : list field * result (list (option fmt_item)) :=
  match fs with
  | [] => ([], Ok [])
  | f :: rest =>
      if negb (f_active f) then
        let '(rest', r) := header_format_items rest in (f :: rest', r)
      else
        match f_value f with
        | VInt _ | VBytes _ =>
            let '(rest', r) := header_format_items rest in
            (f :: rest',
             match r with Ok l => Ok (f_format f :: l) | Raise e => Raise e end)
        | VCell bts _ =>
            let '(rest', r) := header_format_items rest in
            (f :: rest',
             match r with
             | Ok l => Ok (Some (Fs (length bts)) :: l)
             | Raise e => Raise e
             end)
        | VTrig tl =>
            let '(tl', b) := TriggerList_bin tl in
            let '(rest', r) := header_format_items rest in
            (set_f_value (VTrig tl') f :: rest',
             match r with
             | Ok l => Ok (Some (Fs (length b)) :: l)
             | Raise e => Raise e
             end)
        | VNone => (f :: rest, Raise AttributeError)
        end
  end.

(** ["".join(header_format)]: a [None] among the formats is a [TypeError]. *)
Fixpoint join_formats (l : list (option fmt_item)) : option (list fmt_item) :=
  match l with
  | [] => Some []
  | Some f :: l' =>
      match join_formats l' with Some r => Some (f :: r) | None => None end
  | None :: _ => None
  end.

(** [Packet._update_header_format]. *)
Definition _update_header_format : M unit := fun p =>
  let '(fs, r) := header_format_items (_fields p) in
  let p1 := set_fields fs p in
  match r with
  | Raise e => (p1, Raise e)
  | Ok l =>
      match join_formats l with
      | None => (p1, Raise TypeError)
      | Some items =>
          let st := mkStruct (st_order (_header_format p1)) items in
          (set_header_format_changed false
             (set_header_len (Struct_size st) (set_header_format st p1)), Ok tt)
      end
  end.

(** [Packet._unpack], the loop that assigns the unpacked values to the
    active fields that have a format. *)
Fixpoint unpack_fields (fs : list field) (vals : list value)
  : list field * result unit :=
  match fs with
  | [] => ([], Ok tt)
  | f :: rest =>
      if negb (is_None (f_format f)) && f_active f then
        match vals with
        | [] => (f :: rest, Raise IndexError)
        | v :: vals' =>
            let '(rest', r) := unpack_fields rest vals' in
            (set_f_value v f :: rest', r)
        end
      else
        let '(rest', r) := unpack_fields rest vals in (f :: rest', r)
  end.

(** [Packet._unpack]. *)
Definition _unpack : M unit :=
  modify (set_unpacked (Some true)) ;;;
  hfc <- gets _header_format_changed ;;
  (if hfc then _update_header_format else ret tt) ;;;
  fun p =>
    match Struct_unpack (_header_format p) (_header_cached p) with
    | None => (p, Raise GenericException)
    | Some header_unpacked =>
        let '(fs, r) := unpack_fields (_fields p) header_unpacked in
        (set_fields fs p, r)
    end.

(** [obj._unpacked is not None and not obj._unpacked]. *)
Definition unpacked_is_False (p : Packet) : bool :=
  match _unpacked p with Some false => true | _ => false end.

(** [if not self._unpacked]: both [None] and [False] are false. *)
Definition not_unpacked (p : Packet) : bool :=
  match _unpacked p with Some true => false | _ => true end.

(** [Packet._pack_header], the loop that collects the values to pack. *)
Fixpoint header_values (fs : list field) : list field * result (list value) :=
  match fs with
  | [] => ([], Ok [])
  | f :: rest =>
      if negb (f_active f) then
        let '(rest', r) := header_values rest in (f :: rest', r)
      else
        match f_value f with
        | VInt _ | VBytes _ =>
            let '(rest', r) := header_values rest in
            (f :: rest',
             match r with Ok l => Ok (f_value f :: l) | Raise e => Raise e end)
        | VCell bts _ =>
            let '(rest', r) := header_values rest in
            (f :: rest',
             match r with Ok l => Ok (VBytes bts :: l) | Raise e => Raise e end)
        | VTrig tl =>
            let '(tl', b) := TriggerList_bin tl in
            let '(rest', r) := header_values rest in
            (set_f_value (VTrig tl') f :: rest',
             match r with Ok l => Ok (VBytes b :: l) | Raise e => Raise e end)
        | VNone => (f :: rest, Raise AttributeError)
        end
  end.

(** [Packet._pack_header]: the header as a byte string, or [None] when the
    values cannot be packed. *)
Definition _pack_header : M (option bytes) := fun p =>
  if negb (_header_changed p) then (p, Ok (Some (_header_cached p)))
  else
    ((if not_unpacked p then _unpack
      else if _header_format_changed p then _update_header_format
      else ret tt) ;;;
     fun p1 =>
       let '(fs, r) := header_values (_fields p1) in
       let p2 := set_fields fs p1 in
       match r with
       | Raise e => (p2, Raise e)
       | Ok vals =>
           match Struct_pack (_header_format p2) vals with
           | Some b =>
               (set_header_changed false (set_header_cached b p2), Ok (Some b))
           | None => (p2, Ok None)
           end
       end) p.

(** The property [header_len]. *)
Definition _get_header_len : M Z :=
  fun p =>
    ((if _header_changed p && _header_format_changed p
      then _update_header_format else ret tt) ;;;
     gets _header_len) p.

(** *** pypacker_meta.py: the properties of simple header fields *)

Fixpoint find_field (name : string) (fs : list field) : option field :=
  match fs with
  | [] => None
  | f :: rest => if String.eqb (f_name f) name then Some f else find_field name rest
  end.

Fixpoint update_field (name : string) (g : field -> field) (fs : list field)
  : list field :=
  match fs with
  | [] => []
  | f :: rest =>
      if String.eqb (f_name f) name then g f :: rest
      else f :: update_field name g rest
  end.

(** Python's [len(value)] for the values a field can be given. *)
Definition py_len (v : value) : result Z :=
  match v with
  | VBytes b => Ok (len b)
  | VCell _ _ => Ok 2
  | VTrig tl => Ok (len (tl_items tl))
  | VInt _ | VNone => Raise TypeError
  end.

(** [self._target_unpack_clz is self.__class__]. *)
Definition target_is_own_class (p : Packet) : bool :=
  match _target_unpack_clz p with
  | Some c => String.eqb c (_class_name p)
  | None => false
  end.

(** [value is None]. *)
Definition is_VNone (v : value) : bool :=
  match v with VNone => true | _ => false end.

Section Engine.
Context (E : Env).

(** [Packet._notify_changelistener]: every listener is called; what a
    listener raises is caught and logged. *)
Definition _notify_changelistener (p : Packet) : Packet :=
  foldl (fun q cb => run_listener E cb q) p (_changelistener p).

(** [Packet._add_change_listener]. *)
Definition _add_change_listener (cb : nat) (p : Packet) : Packet :=
  set_changelistener (_changelistener p ++ [cb]) p.

(** [setfield_simple], the setter of the property of the simple field
    [varname].  A name that is no header field has no such property; the
    model answers [AttributeError]. *)
Definition setfield_simple (varname : string) (v : value) : M unit :=
  fun p =>
    match find_field varname (_fields p) with
    | None => (p, Raise AttributeError)
    | Some f0 =>
        ((if unpacked_is_False p then _unpack else ret tt) ;;;
         (fun p1 =>
            let active :=
              match find_field varname (_fields p1) with
              | Some f => f_active f
              | None => f_active f0
              end in
            let p2 :=
              if is_VNone v && active then
                set_header_format_changed true
                  (set_fields (update_field varname (set_f_active false) (_fields p1)) p1)
              else if negb (is_VNone v) && negb active then
                set_header_format_changed true
                  (set_fields (update_field varname (set_f_active true) (_fields p1)) p1)
              else p1 in
            (if negb (f_static f0) && negb (is_VNone v) then
               fun p3 =>
                 match py_len v with
                 | Raise e => (p3, Raise e)
                 | Ok n =>
                     (set_header_format_changed true
                        (set_fields
                           (update_field varname (set_f_format (Some (Fs (Z.to_nat n))))
                              (_fields p3)) p3), Ok tt)
                 end
             else ret tt) p2) ;;;
         modify (fun p4 =>
           set_fields (update_field varname (set_f_value v) (_fields p4)) p4) ;;;
         modify (set_header_changed true) ;;;
         modify _notify_changelistener) p
    end.

(** [getfield_simple], the getter of the property of a simple field. *)
Definition getfield_simple (varname : string) : M value :=
  fun p =>
    match find_field varname (_fields p) with
    | None => (p, Raise AttributeError)
    | Some _ =>
        ((if unpacked_is_False p then _unpack else ret tt) ;;;
         fun p1 =>
           match find_field varname (_fields p1) with
           | Some f => (p1, Ok (f_value f))
           | None => (p1, Raise AttributeError)
           end) p
    end.

(** *** pypacker.py: body bytes and body handler *)

(** What a handler sees behind its [_lower_layer] when that is [p].  A
    getter of [src] or [dst] that raises is shown like an attribute that is
    not there, and what the read changes in [p] is not kept. *)
Definition lower_view (p : Packet) : LowerLayer :=
  {| ll_header_changed := _header_changed p;
     ll_src := match getfield_simple "src" p with
               | (_, Ok v) => Some v | (_, Raise _) => None end;
     ll_dst := match getfield_simple "dst" p with
               | (_, Ok v) => Some v | (_, Raise _) => None end |}.

(** A handler linked to [self] reads [self]'s present state through its
    [_lower_layer]. *)
Definition deref_lower (self h : Packet) : Packet :=
  match _lower_layer h with
  | Some _ => set_lower_layer (Some (lower_view self)) h
  | None => h
  end.

(** [self.__getattribute__(self._bodytypename)]. *)
Definition getattr_bodytype : M Packet := fun p =>
  match _bodytypename p, _handler_attr p with
  | Some n, Some (n', h) =>
      if String.eqb n n' then (p, Ok h) else (p, Raise AttributeError)
  | Some _, None => (p, Raise AttributeError)
  | None, _ => (p, Raise TypeError)
  end.

(** The handler object was changed by a call on it: the attribute of [p]
    refers to that object. *)
Definition put_handler (h : Packet) (p : Packet) : Packet :=
  match _handler_attr p with
  | Some (n, _) => set_handler_attr (Some (n, h)) p
  | None => p
  end.

(** [Packet._set_bodyhandler].  [setattr(self, self._bodytypename, hndl)]
    is the assignment to [_handler_attr], which is what it does for a name
    that is free on the object. *)
Definition _set_bodyhandler (hndl : option Packet) : M unit :=
  (fun p =>
     if negb (is_None (_bodytypename p)) && is_None (_lazy_handler_data p) then
       (current_handl <- getattr_bodytype ;;
        modify (put_handler (set_lower_layer None current_handl))) p
     else (p, Ok tt)) ;;;
  modify (fun p =>
    match hndl with
    | None => set_body_bytes (Some []) (set_bodytypename None p)
    | Some h =>
        let name := lower (_class_name h) in
        let p1 := set_body_bytes None (set_bodytypename (Some name) p) in
        set_handler_attr (Some (name, set_lower_layer (Some (lower_view p1)) h)) p1
    end) ;;;
  modify (set_body_changed true) ;;;
  modify (set_lazy_handler_data None) ;;;
  modify _notify_changelistener.

(** [Packet._set_body_bytes], the setter of [body_bytes]. *)
Definition _set_body_bytes (v : bytes) : M unit :=
  (fun p =>
     if negb (is_None (_bodytypename p)) then _set_bodyhandler None p
     else (p, Ok tt)) ;;;
  modify (set_body_bytes (Some v)) ;;;
  modify (set_body_changed true) ;;;
  modify (set_lazy_handler_data None) ;;;
  modify _notify_changelistener.

(** [Packet.__getattr__]: called for an attribute that is not there; lazy
    handler data of that name is turned into the handler. *)
Definition __getattr__ (varname : string) : M (option Packet) := fun p =>
  match _lazy_handler_data p with
  | None => (p, Raise AttributeError)
  | Some (name, clz, buf) =>
      if String.eqb name varname then
        let on_error (q : Packet) : Packet * result (option Packet) :=
          (set_lazy_handler_data None
             (set_body_bytes (Some buf) (set_bodytypename None q)), Ok None) in
        match construct E clz buf p with
        | Raise _ => on_error p
        | Ok type_instance =>
            match _set_bodyhandler (Some type_instance) p with
            | (p1, Raise _) => on_error p1
            | (p1, Ok _) =>
                let p2 := set_body_changed false (set_lazy_handler_data None p1) in
                (p2, Ok (snd <$> _handler_attr p2))
            end
        end
      else (p, Raise AttributeError)
  end.

(** [Packet._get_bodyhandler], the getter of [body_handler] and
    [upper_layer]. *)
Definition _get_bodyhandler : M (option Packet) := fun p =>
  match _lazy_handler_data p with
  | Some (name, _, _) => __getattr__ name p
  | None =>
      match _bodytypename p with
      | Some _ => (h <- getattr_bodytype ;; ret (Some h)) p
      | None => (p, Ok None)
      end
  end.

(** [Packet._get_bodybytes], the getter of [body_bytes]; [fuel] is the
    recursion limit. *)
Fixpoint _get_bodybytes (fuel : nat) : M (option bytes) :=
  match fuel with
  | O => raise RecursionError
  | S fuel' => fun p =>
      match _lazy_handler_data p with
      | Some (_, _, b) => (p, Ok (Some b))
      | None =>
          match _bodytypename p with
          | Some _ =>
              (hndl <- getattr_bodytype ;;
               fun p1 =>
                 let '(h1, r1) := _pack_header hndl in
                 match r1 with
                 | Raise e => (put_handler h1 p1, Raise e)
                 | Ok hdr =>
                     let '(h2, r2) := _get_bodybytes fuel' h1 in
                     (put_handler h2 p1,
                      match r2 with
                      | Raise e => Raise e
                      | Ok body =>
                          match hdr, body with
                          | Some x, Some y => Ok (Some (x ++ y))
                          | _, _ => Raise TypeError
                          end
                      end)
                 end) p
          | None => (p, Ok (_body_bytes p))
          end
      end
  end.

(** [Packet.__len__]. *)
Fixpoint __len__ (fuel : nat) : M Z :=
  match fuel with
  | O => raise RecursionError
  | S fuel' => fun p =>
      match _body_bytes p with
      | Some b => (hl <- _get_header_len ;; ret (hl + len b)) p
      | None =>
          try_except
            (hl <- _get_header_len ;;
             fun p1 =>
               match _lazy_handler_data p1 with
               | Some (_, _, b) => (p1, Ok (hl + len b))
               | None => (p1, Raise TypeError)
               end)
            (fun e => exn_eqb e TypeError)
            (hl <- _get_header_len ;;
             hndl <- getattr_bodytype ;;
             fun p1 =>
               let '(h1, r1) := __len__ fuel' hndl in
               (put_handler h1 p1,
                match r1 with Ok n => Ok (hl + n) | Raise e => Raise e end)) p
      end
  end.

(** [Packet._changed]: this layer or one above it changed.  The loop walks
    up only through handlers that are already there and changes nothing. *)
Fixpoint _changed (p : Packet) : result bool :=
  if _header_changed p || _body_changed p then Ok true
  else
    match _lazy_handler_data p with
    | Some _ => Ok false
    | None =>
        match _bodytypename p with
        | None => Ok false
        | Some n =>
            match _handler_attr p with
            | Some (n', h) =>
                if String.eqb n n' then _changed h else Raise AttributeError
            | None => Raise AttributeError
            end
        end
    end.

(** [Packet.bin]; [handler_bin] is the [bin] method of the body handler's
    class. *)
Definition bin (handler_bin : bool -> M bytes) (update_auto_fields : bool)
  : M bytes := fun p =>
  let '(p1, body_tmp) :=
    match _lazy_handler_data p with
    | Some (_, _, b) => (p, Ok (Some b))
    | None =>
        match _bodytypename p with
        | Some _ =>
            match _get_bodyhandler p with
            | (p1, Raise e) => (p1, Raise e)
            | (p1, Ok None) => (p1, Raise AttributeError)
            | (p1, Ok (Some h)) =>
                let '(h', rb) := handler_bin update_auto_fields (deref_lower p1 h) in
                (put_handler h' p1,
                 match rb with Ok b => Ok (Some b) | Raise e => Raise e end)
            end
        | None => (p, Ok (_body_bytes p))
        end
    end in
  match body_tmp with
  | Raise e => (p1, Raise e)
  | Ok body =>
      match _pack_header p1 with
      | (p2, Raise e) => (p2, Raise e)
      | (p2, Ok header_tmp) =>
          let p3 := _reset_changed p2 in
          match header_tmp, body with
          | Some h, Some b => (p3, Ok (h ++ b))
          | _, _ => (p3, Raise TypeError)
          end
      end
  end.

(** *** pypacker.py: dissecting *)

(** [Packet._init_triggerlist]: the shadowed attribute becomes the cell
    [[bts, dissect_callback]]. *)
Definition _init_triggerlist (name : string) (bts : bytes) (cb : callback)
  : M unit :=
  modify (fun p =>
    set_fields (update_field name (set_f_value (VCell bts (Some cb))) (_fields p)) p) ;;;
  modify (set_header_format_changed true).

(** [Packet._handler[self.__class__.__name__][hndl_type]]; [None] is the
    [KeyError]. *)
Definition lookup_handler (cls : string) (hndl_type : Z) : option string :=
  match handlers E !! cls with
  | Some tbl => tbl !! hndl_type
  | None => None
  end.

(** [Packet._init_handler].  Both [except] clauses end in
    [self.body_bytes = buffer]. *)
Definition _init_handler (hndl_type : Z) (buffer : bytes) : M unit := fun p =>
  if len buffer =? 0 then (p, Ok tt)
  else
    try_except
      (fun p =>
         if is_None (_target_unpack_clz p) || target_is_own_class p then
           match lookup_handler (_class_name p) hndl_type with
           | None => (p, Raise KeyError)
           | Some clz =>
               let clz_name := lower clz in
               (set_body_changed true
                  (set_body_bytes None
                     (set_bodytypename (Some clz_name)
                        (set_lazy_handler_data (Some (clz_name, clz, buffer)) p))),
                Ok tt)
           end
         else
           match lookup_handler (_class_name p) hndl_type with
           | None => (p, Raise KeyError)
           | Some clz =>
               match construct E clz buffer p with
               | Raise e => (p, Raise e)
               | Ok type_instance => _set_bodyhandler (Some type_instance) p
               end
           end)
      (fun _ => true)
      (_set_body_bytes buffer) p.

(** [Packet._dissect], when a class does not overwrite it. *)
Definition _dissect (buf : bytes) : M Z := gets _header_len.

(** [Packet.__init__] with a byte string: [cls] holds the attributes of the
    class, [dissect] is the class's [_dissect], [lower] the second
    argument when there is one. *)
Definition __init__ (cls : Packet) (dissect : bytes -> M Z) (buf : bytes)
    (lower : option Packet) : Packet :=
  let p0 :=
    match lower with
    | Some l => set_target_unpack_clz (_target_unpack_clz l) cls
    | None => cls
    end in
  let '(p1, r) :=
    (header_len <- dissect buf ;;
     modify (set_header_len header_len) ;;;
     modify (set_header_cached (slice buf None (Some header_len))) ;;;
     modify (fun p =>
       if negb (_body_changed p)
       then set_body_bytes (Some (slice buf (Some header_len) None)) p
       else p)) p0 in
  let p2 := match r with Ok _ => p1 | Raise _ => set_dissect_error true p1 end in
  set_unpacked (Some false) (_reset_changed p2).

(** [Packet.__init__] with keyword arguments naming simple header fields;
    for another keyword [setattr] would do something else than the setter
    of a field, which answers [AttributeError] here. *)
Definition __init__kwargs (cls : Packet) (kwargs : list (string * value))
  : Packet * result unit :=
  (foldr (fun kv m => setfield_simple kv.1 kv.2 ;;; m) (ret tt) kwargs ;;;
   modify (set_unpacked (Some true))) cls.

(** [Packet.__init__] without arguments. *)
Definition __init__default (cls : Packet) : Packet :=
  set_unpacked (Some true) cls.

(** *** pypacker.py: navigation *)

(** [Packet._highest_layer], the getter of [highest_layer]: the packet
    after the walk and the topmost layer found.  [fuel] bounds the
    iterations of the loop; [None] says that the bound was reached. *)
Fixpoint _highest_layer (fuel : nat) (p : Packet)
  : option (Packet * result Packet) :=
  match fuel with
  | O => None
  | S fuel' =>
      match _get_bodyhandler p with
      | (p1, Raise e) => Some (p1, Raise e)
      | (p1, Ok None) => Some (p1, Ok p1)
      | (p1, Ok (Some _)) =>
          match _get_bodyhandler p1 with
          | (p2, Raise e) => Some (p2, Raise e)
          | (p2, Ok None) => Some (p2, Raise AttributeError)
          | (p2, Ok (Some current)) =>
              match _highest_layer fuel' current with
              | None => None
              | Some (current', r) => Some (put_handler current' p2, r)
              end
          end
      end
  end.

(** [Packet.dissect_full].  Reading the shadowed attributes in the loop
    over [_header_field_names] has no effect.  The method has no [return]:
    the result [tt] is Python's [None].  [fuel] is the recursion limit. *)
Fixpoint dissect_full (fuel : nat) : M unit :=
  match fuel with
  | O => raise RecursionError
  | S fuel' => fun p =>
      match _get_bodyhandler p with
      | (p1, Raise e) =>
          (p1, if exn_eqb e AttributeError then Ok tt else Raise e)
      | (p1, Ok None) => (p1, Ok tt)
      | (p1, Ok (Some h)) =>
          let '(h', r) := dissect_full fuel' h in
          (put_handler h' p1,
           match r with
           | Raise e => if exn_eqb e AttributeError then Ok tt else Raise e
           | Ok _ => Ok tt
           end)
      end
  end.

End Engine.

(** [pypacker.Packet.bin], under the name the protocol modules call it by. *)
Definition pypacker_bin := bin.

(** *** pypacker_meta.py: the metaclass *)

Inductive hdr_default :=
| DInt (z : Z)
| DBytes (b : bytes)
| DNone
| DTriggerList.

(** An entry [(name, format, default)] of [__hdr__]. *)
Record hdr_entry := mkHdr {
  h_name : string;
  h_format : option fmt_item;
  h_default : hdr_default
}.

(** What [MetaPacket.__new__] installs for one entry: the field, and what
    the entry adds to the class's header format and to the values packed
    into the class's [_header_cached]. *)
Definition meta_field (h : hdr_entry) : field * option (option fmt_item * value) :=
  let simple v fmt :=
    (mkField (h_name h) v true fmt true (negb (is_None (h_format h))),
     Some (fmt, v)) in
  match h_format h, h_default h with
  | fmt, DNone =>
      (mkField (h_name h) VNone false fmt true (negb (is_None fmt)), None)
  | Some fmt, DInt z => simple (VInt z) (Some fmt)
  | Some fmt, DBytes b => simple (VBytes b) (Some fmt)
  | None, DBytes b => simple (VBytes b) (Some (Fs (length b)))
  | Some fmt, DTriggerList => simple (VCell [] None) (Some fmt)
  | None, _ =>
      (mkField (h_name h) (VCell [] None) true None false true,
       Some (Some (Fs 0), VBytes []))
  end.

(** [MetaPacket.__new__]: the attributes of the class [clsname] with the
    header [hdrs] and the byte order [order]; an instance starts with these
    attributes.  [None]: packing the defaults raises. *)
Definition MetaPacket_new (clsname : string) (hdrs : list hdr_entry)
    (order : byte_order) : option Packet :=
  let metas := map meta_field hdrs in
  let contrib := omap snd metas in
  match join_formats (map fst contrib) with
  | None => None
  | Some items =>
      let st := mkStruct order items in
      match Struct_pack st (map snd contrib) with
      | None => None
      | Some cached =>
          Some {| _class_name := clsname;
                  _fields := map fst metas;
                  _header_format := st;
                  _header_len := Struct_size st;
                  _header_cached := cached;
                  _header_changed := false;
                  _header_format_changed := false;
                  _body_changed := false;
                  _body_bytes := Some [];
                  _bodytypename := None;
                  _lazy_handler_data := None;
                  _handler_attr := None;
                  _lower_layer := None;
                  _changelistener := [];
                  _target_unpack_clz := None;
                  _unpacked := None;
                  _dissect_error := false;
                  _fcs := None |}
      end
  end.

(** The class [Packet] itself, which has no [__hdr__]. *)
Definition Packet_class : Packet :=
  {| _class_name := "Packet";
     _fields := [];
     _header_format := mkStruct BigEndian [];
     _header_len := 0;
     _header_cached := [];
     _header_changed := false;
     _header_format_changed := false;
     _body_changed := false;
     _body_bytes := Some [];
     _bodytypename := None;
     _lazy_handler_data := None;
     _handler_attr := None;
     _lower_layer := None;
     _changelistener := [];
     _target_unpack_clz := None;
     _unpacked := None;
     _dissect_error := false;
     _fcs := None |}.

(** ** layer4/udp.py *)

Module UDP.

Definition __hdr__ : list hdr_entry :=
  [ mkHdr "sport" (Some FH) (DInt 0xdead);
    mkHdr "dport" (Some FH) (DInt 0);
    mkHdr "ulen" (Some FH) (DInt 8);
    mkHdr "sum" (Some FH) (DInt 0) ].

(** The attributes of the class [UDP]. *)
Definition cls : Packet :=
  Eval vm_compute in default Packet_class (MetaPacket_new "UDP" __hdr__ BigEndian).

(** [unpack(">H", b)[0]]. *)
Definition unpack_H (b : bytes) : result Z :=
  if len b =? 2 then Ok (decode_uint BigEndian b) else Raise StructError.

(** The pseudo header formats [">4s4sBBH"] and [">16s16sxBH"]. *)
Definition pseudo4 : Struct := mkStruct BigEndian [Fs 4; Fs 4; FB; FB; FH].
Definition pseudo16 : Struct := mkStruct BigEndian [Fs 16; Fs 16; Fx; FB; FH].

Section Methods.
Context (E : Env).
(** [checksum.in_cksum], of a module that is not part of the modelled
    sources. *)
Context (in_cksum : bytes -> Z).

(** [UDP._dissect]. *)
Definition _dissect (buf : bytes) : M Z := fun p =>
  match unpack_H (slice buf (Some 0) (Some 2)),
        unpack_H (slice buf (Some 2) (Some 4)) with
  | Raise e, _ => (p, Raise e)
  | Ok _, Raise e => (p, Raise e)
  | Ok sport, Ok dport =>
      let ports := [sport; dport] in
      (try_except
         (match handlers E !! "UDP" with
          | None => raise KeyError
          | Some tbl =>
              match List.filter (fun x => negb (is_None (tbl !! x))) ports with
              | [] => raise IndexError
              | htype :: _ => _init_handler E htype (slice buf (Some 8) None)
              end
          end)
         (fun _ => true)
         (ret tt) ;;;
       ret 8) p
  end.

(** The pseudo header that [UDP._calc_sum] packs for the addresses [src]
    and [dst] and the length [n] of header and body. *)
Definition pseudo_header (src dst : value) (n : Z) : result bytes :=
  match py_len src with
  | Raise e => Raise e
  | Ok l =>
      match
        (if l =? 4
         then Struct_pack pseudo4 [src; dst; VInt 0; VInt 17; VInt n]
         else Struct_pack pseudo16 [src; dst; VInt 17; VInt n])
      with
      | Some s => Ok s
      | None => Raise StructError
      end
  end.

(** [UDP._calc_sum]. *)
Definition _calc_sum (fuel : nat) : M unit :=
  try_except
    (fun p =>
       match _lower_layer p with
       | None => (p, Raise AttributeError)
       | Some ll =>
           match ll_src ll, ll_dst ll with
           | Some src, Some dst =>
               (setfield_simple E "sum" (VInt 0) ;;;
                header_bytes <- _pack_header ;;
                body_bytes <- _get_bodybytes fuel ;;
                match header_bytes, body_bytes with
                | Some h, Some b =>
                    let udp_bin := h ++ b in
                    match pseudo_header src dst (len udp_bin) with
                    | Raise e => raise e
                    | Ok s =>
                        let csum := in_cksum (s ++ udp_bin) in
                        let csum := if csum =? 0 then 0xffff else csum in
                        setfield_simple E "sum" (VInt csum)
                    end
                | _, _ => raise TypeError
                end) p
           | _, _ => (p, Raise AttributeError)
           end
       end)
    (fun e => exn_eqb e AttributeError || exn_eqb e StructError)
    (ret tt).

(** [UDP.bin]. *)
Definition bin (fuel : nat) (handler_bin : bool -> M bytes)
    (update_auto_fields : bool) : M bytes :=
  (if update_auto_fields then
     fun p =>
       match _changed p with
       | Raise e => (p, Raise e)
       | Ok changed =>
           ((if changed then
               n <- __len__ fuel ;; setfield_simple E "ulen" (VInt n)
             else ret tt) ;;;
            update <- gets (fun p =>
              match _lower_layer p with
              | Some ll => if negb (ll_header_changed ll) then changed else true
              | None => false
              end) ;;
            (if update then _calc_sum fuel else ret tt)) p
       end
   else ret tt) ;;;
  pypacker_bin E handler_bin update_auto_fields.

(** [UDP(buf)] and [UDP(buf, lower)]. *)
Definition new (buf : bytes) (lower : option Packet) : Packet :=
  __init__ cls _dissect buf lower.

End Methods.

(** The handlers that udp.py loads with [Packet.load_handler(UDP, ...)]. *)
Definition handler_table : gmap Z string :=
  list_to_map
    [ (23, "Telnet"); (53, "DNS"); (5353, "DNS"); (67, "DHCP"); (68, "DHCP");
      (111, "Pmap"); (123, "NTP");
      (1812, "Radius"); (1813, "Radius"); (1645, "Radius"); (1646, "Radius");
      (5004, "RTP"); (5005, "RTP"); (5060, "SIP"); (5061, "SIP") ].

End UDP.

(** ** layer12/radiotap.py *)

Module Radiotap.

Definition RTAP_TYPE_80211 : Z := 0.
Definition TSFT_MASK : Z := 0x01000000.
Definition FLAGS_MASK : Z := 0x02000000.

Definition __hdr__ : list hdr_entry :=
  [ mkHdr "version" (Some FB) (DInt 0);
    mkHdr "pad" (Some FB) (DInt 0);
    mkHdr "len" (Some FH) (DInt 0x0800);
    mkHdr "present_flags" (Some FI) (DInt 0);
    mkHdr "flags" None DTriggerList ].

(** The attributes of the class [Radiotap]. *)
Definition cls : Packet :=
  Eval vm_compute in
    default Packet_class (MetaPacket_new "Radiotap" __hdr__ BigEndian).

(** [unpack_flags = struct.Struct(">I").unpack]. *)
Definition unpack_flags (b : bytes) : result Z :=
  if len b =? 4 then Ok (decode_uint BigEndian b) else Raise StructError.

(** [unpack_hdr_len = struct.Struct("<H").unpack]. *)
Definition unpack_hdr_len (b : bytes) : result Z :=
  if len b =? 2 then Ok (decode_uint LittleEndian b) else Raise StructError.

(** The getter of the property [fcs]. *)
Definition fcs (p : Packet) : bytes := default [] (_fcs p).

Section Methods.
Context (E : Env).

(** [Radiotap._dissect]. *)
Definition _dissect (buf : bytes) : M Z := fun p =>
  match unpack_flags (slice buf (Some 4) (Some 8)) with
  | Raise e => (p, Raise e)
  | Ok flags =>
      let p := set_fields
                 (update_field "present_flags" (set_f_value (VInt flags)) (_fields p)) p in
      let fcs_check : Packet * result Z :=
        if Z.land flags FLAGS_MASK =? FLAGS_MASK then
          let off := if Z.land flags TSFT_MASK =? TSFT_MASK then 8%nat else 0%nat in
          match buf !! off with
          | None => (p, Raise IndexError)
          | Some b =>
              if negb (Z.land (byte_to_Z b) 0x10 =? 0)
              then (set_fcs (Some (slice buf (Some (-4)) None)) p, Ok (-4))
              else (p, Ok (len buf))
          end
        else (p, Ok (len buf)) in
      match fcs_check with
      | (p, Raise e) => (p, Raise e)
      | (p, Ok pos_end) =>
          match unpack_hdr_len (slice buf (Some 2) (Some 4)) with
          | Raise e => (p, Raise e)
          | Ok hdr_len =>
              (_init_triggerlist "flags" (slice buf (Some 8) (Some hdr_len)) CbParseFlags ;;;
               _init_handler E RTAP_TYPE_80211 (slice buf (Some hdr_len) (Some pos_end)) ;;;
               ret hdr_len) p
          end
      end
  end.

(** [Radiotap.bin]: "Custom bin(): handle FCS." *)
Definition bin (handler_bin : bool -> M bytes) (update_auto_fields : bool)
  : M bytes :=
  b <- pypacker_bin E handler_bin update_auto_fields ;;
  trailer <- gets fcs ;;
  ret (b ++ trailer).

(** [Radiotap(buf)] and [Radiotap(buf, lower)]. *)
Definition new (buf : bytes) (lower : option Packet) : Packet :=
  __init__ cls _dissect buf lower.

End Methods.

(** The handler that radiotap.py loads. *)
Definition handler_table : gmap Z string :=
  {[ RTAP_TYPE_80211 := "IEEE80211"%string ]}.

End Radiotap.

(** ** Method resolution

    [p.bin(update_auto_fields)] for a packet of any class: [UDP] and
    [Radiotap] overwrite [bin]; the other classes are not part of the
    modelled sources and are taken to inherit [Packet.bin].  [fuel] is the
    recursion limit. *)
Section Dispatch.
Context (E : Env) (in_cksum : bytes -> Z).

Fixpoint method_bin (fuel : nat) (update_auto_fields : bool) : M bytes :=
  match fuel with
  | O => raise RecursionError
  | S fuel' => fun p =>
      if String.eqb (_class_name p) "UDP" then
        UDP.bin E in_cksum fuel (method_bin fuel') update_auto_fields p
      else if String.eqb (_class_name p) "Radiotap" then
        Radiotap.bin E (method_bin fuel') update_auto_fields p
      else pypacker_bin E (method_bin fuel') update_auto_fields p
  end.

End Dispatch.

(** [Packet._handler] after udp.py and radiotap.py were loaded. *)
Definition loaded_handlers : gmap string (gmap Z string) :=
  {[ "UDP"%string := UDP.handler_table;
     "Radiotap"%string := Radiotap.handler_table ]}.

(** ** pypacker.py: utility functions

    Python text is modelled as a [string] of ASCII characters; a byte or a
    character from [0x80] on is answered with [UnicodeError]. *)

Definition ascii_to_Z (c : ascii) : Z := Z.of_nat (nat_of_ascii c).
Definition ascii_of_Z (z : Z) : ascii := ascii_of_nat (Z.to_nat z).

(** [str.split(sep)] for a separator of one character. *)
Fixpoint split (sep : ascii) (s : string) : list string :=
  match s with
  | EmptyString => [EmptyString]
  | String c s' =>
      if Ascii.eqb c sep then EmptyString :: split sep s'
      else
        match split sep s' with
        | part :: parts => String c part :: parts
        | [] => [String c EmptyString]
        end
  end.

(** [sep.join(parts)]. *)
Fixpoint join (sep : string) (parts : list string) : string :=
  match parts with
  | [] => EmptyString
  | [part] => part
  | part :: parts' => (part ++ sep ++ join sep parts')%string
  end.

(** [bytes.decode()] and [str.encode()]. *)
Fixpoint decode (b : bytes) : result string :=
  match b with
  | [] => Ok EmptyString
  | x :: b' =>
      if byte_to_Z x <? 128 then
        match decode b' with
        | Ok s => Ok (String (ascii_of_Z (byte_to_Z x)) s)
        | Raise e => Raise e
        end
      else Raise UnicodeError
  end.

Fixpoint encode (s : string) : result bytes :=
  match s with
  | EmptyString => Ok []
  | String c s' =>
      if ascii_to_Z c <? 128 then
        match encode s' with
        | Ok b => Ok (byte_of_Z (ascii_to_Z c) :: b)
        | Raise e => Raise e
        end
      else Raise UnicodeError
  end.

(** The hexadecimal digit of [n], in upper case as ["%X"] prints it. *)
Definition hex_digit (n : Z) : ascii :=
  if n <? 10 then ascii_of_Z (48 + n) else ascii_of_Z (55 + n).

(** ["%02X" % x] for a byte. *)
Definition fmt_02X (x : byte) : string :=
  let n := byte_to_Z x in
  String (hex_digit (n / 16)) (String (hex_digit (n mod 16)) EmptyString).

Definition hex_value (c : ascii) : option Z :=
  let n := ascii_to_Z c in
  if (48 <=? n) && (n <=? 57) then Some (n - 48)
  else if (65 <=? n) && (n <=? 70) then Some (n - 55)
  else if (97 <=? n) && (n <=? 102) then Some (n - 87)
  else None.

(** ASCII whitespace. *)
Definition is_space (c : ascii) : bool :=
  let n := ascii_to_Z c in (n =? 32) || ((9 <=? n) && (n <=? 13)).

(** [bytes.fromhex]: pairs of hexadecimal digits, white space between the
    pairs is skipped; [None] is the [ValueError]. *)
Fixpoint fromhex (s : string) : option bytes :=
  match s with
  | EmptyString => Some []
  | String c s' =>
      if is_space c then fromhex s'
      else
        match s' with
        | EmptyString => None
        | String d s'' =>
            match hex_value c, hex_value d, fromhex s'' with
            | Some h, Some l, Some r => Some (byte_of_Z (16 * h + l) :: r)
            | _, _, _ => None
            end
        end
  end.

(** [mac_str_to_bytes]. *)
Definition mac_str_to_bytes (mac_str : string) : result bytes :=
  match mapM fromhex (split ":"%char mac_str) with
  | Some parts => Ok (concat parts)
  | None => Raise ValueError
  end.

(** [mac_bytes_to_str]; [unpack_mac] wants exactly six bytes. *)
Definition mac_bytes_to_str (mac_bytes : bytes) : result string :=
  match mac_bytes with
  | [a; b; c; d; e; f] =>
      Ok (fmt_02X a ++ ":" ++ fmt_02X b ++ ":" ++ fmt_02X c ++ ":"
          ++ fmt_02X d ++ ":" ++ fmt_02X e ++ ":" ++ fmt_02X f)%string
  | _ => Raise StructError
  end.

(** ["%d" % n]. *)
Fixpoint fmt_d_digits (fuel : nat) (n : Z) (acc : string) : string :=
  match fuel with
  | O => acc
  | S fuel' =>
      let acc' := String (ascii_of_Z (48 + n mod 10)) acc in
      if n <? 10 then acc' else fmt_d_digits fuel' (n / 10) acc'
  end.

Definition fmt_d (n : Z) : string :=
  if n <? 0 then String "-"%char (fmt_d_digits (S (Z.to_nat (Z.log2 (- n)))) (- n) EmptyString)
  else fmt_d_digits (S (Z.to_nat (Z.log2 n))) n EmptyString.

Fixpoint digits_value (acc : Z) (s : string) : option Z :=
  match s with
  | EmptyString => Some acc
  | String c s' =>
      let n := ascii_to_Z c in
      if (48 <=? n) && (n <=? 57) then digits_value (acc * 10 + (n - 48)) s'
      else None
  end.

(** [int(x)] for an optional sign and decimal digits; [None] is the
    [ValueError].  (White space around the number and underscores between
    digits, which [int] accepts too, are answered with [ValueError].) *)
Definition py_int (x : string) : option Z :=
  match x with
  | EmptyString => None
  | String "+"%char EmptyString | String "-"%char EmptyString => None
  | String "+"%char s => digits_value 0 s
  | String "-"%char s => Z.opp <$> digits_value 0 s
  | s => digits_value 0 s
  end.

(** [ip4_str_to_bytes]. *)
Definition ip4_str_to_bytes (ip_str : string) : result bytes :=
  match mapM py_int (split "."%char ip_str) with
  | None => Raise ValueError
  | Some ips =>
      match ips with
      | a :: b :: c :: d :: _ =>
          match Struct_pack (mkStruct BigEndian [FB; FB; FB; FB])
                  [VInt a; VInt b; VInt c; VInt d] with
          | Some r => Ok r
          | None => Raise StructError
          end
      | _ => Raise IndexError
      end
  end.

(** [ip4_bytes_to_str]; [unpack_ipv4] wants exactly four bytes. *)
Definition ip4_bytes_to_str (ip_bytes : bytes) : result string :=
  match ip_bytes with
  | [a; b; c; d] =>
      Ok (fmt_d (byte_to_Z a) ++ "." ++ fmt_d (byte_to_Z b) ++ "."
          ++ fmt_d (byte_to_Z c) ++ "." ++ fmt_d (byte_to_Z d))%string
  | _ => Raise StructError
  end.

(** [dns_name_decode], the [while] loop; every iteration moves [off]
    forward, so [fuel] iterations suffice when [fuel] is the length of
    [name]. *)
Fixpoint dns_name_decode_loop (fuel : nat) (name : bytes) (off : Z)
    (name_decoded : list string) : result (list string) :=
  if off <? len name then
    match fuel with
    | O => Ok name_decoded
    | S fuel' =>
        match name !! Z.to_nat (off - 1) with
        | None => Raise IndexError
        | Some n =>
            match decode (slice name (Some off) (Some (off + byte_to_Z n))) with
            | Raise e => Raise e
            | Ok label =>
                dns_name_decode_loop fuel' name (off + (byte_to_Z n + 1))
                  (name_decoded ++ [label])
            end
        end
    end
  else Ok name_decoded.

(** [dns_name_decode]. *)
Definition dns_name_decode (name : bytes) : result string :=
  match dns_name_decode_loop (length name) name 1 [] with
  | Ok name_decoded => Ok (join "." name_decoded ++ ".")%string
  | Raise e => Raise e
  end.

(** [chr(n).encode()]: the UTF-8 encoding of the code point [n]. *)
Definition chr_encode (n : Z) : result bytes :=
  if n <? 0x80 then Ok [byte_of_Z n]
  else if n <? 0x800 then
    Ok [byte_of_Z (0xC0 + n / 64); byte_of_Z (0x80 + n mod 64)]
  else if (0xD800 <=? n) && (n <=? 0xDFFF) then Raise UnicodeError
  else if n <? 0x10000 then
    Ok [byte_of_Z (0xE0 + n / 4096); byte_of_Z (0x80 + (n / 64) mod 64);
        byte_of_Z (0x80 + n mod 64)]
  else if n <? 0x110000 then
    Ok [byte_of_Z (0xF0 + n / 262144); byte_of_Z (0x80 + (n / 4096) mod 64);
        byte_of_Z (0x80 + (n / 64) mod 64); byte_of_Z (0x80 + n mod 64)]
  else Raise ValueError.

(** [dns_name_encode], the loop over the labels. *)
Fixpoint dns_name_encode_labels (labels : list bytes) : result bytes :=
  match labels with
  | [] => Ok []
  | label :: labels' =>
      match chr_encode (len label), dns_name_encode_labels labels' with
      | Ok n, Ok r => Ok (n ++ label ++ r)
      | Raise e, _ => Raise e
      | _, Raise e => Raise e
      end
  end.

Fixpoint encode_all (parts : list string) : result (list bytes) :=
  match parts with
  | [] => Ok []
  | part :: parts' =>
      match encode part, encode_all parts' with
      | Ok b, Ok r => Ok (b :: r)
      | Raise e, _ => Raise e
      | _, Raise e => Raise e
      end
  end.

(** [dns_name_encode]. *)
Definition dns_name_encode (name : string) : result bytes :=
  match encode_all (filter (fun part => String.length part <> 0%nat) (split "."%char name)) with
  | Raise e => Raise e
  | Ok labels =>
      match dns_name_encode_labels labels with
      | Raise e => Raise e
      | Ok r => Ok (r ++ [x00])
      end
  end.

(** ** Environments, classes and buffers of the examples *)

(** An environment in which the constructor of every handler class
    raises, and listeners leave the notifying packet as it is. *)
Definition env0 : Env :=
  mkEnv loaded_handlers (fun _ _ _ => Raise GenericException) (fun _ p => p).

(** A handler class without header fields of its own that inherits
    everything from [Packet]. *)
Definition plain_class (name : string) : Packet :=
  set_class_name name Packet_class.

(** An environment in which every handler class is such a plain class. *)
Definition env_plain : Env :=
  mkEnv loaded_handlers
    (fun clz buf lower =>
       Ok (__init__ (plain_class clz) _dissect buf (Some lower)))
    (fun _ p => p).

(** Modelled from the spec: [checksum.in_cksum], which udp.py imports from
    a module that is missing from the sources; the spec calls it "the 16-bit
    one's-complement sum": the 16-bit big-endian words of the buffer (the
    last one padded with a zero byte) added with end-around carry. *)
Fixpoint words16 (b : bytes) : list Z :=
  match b with
  | [] => []
  | [x] => [256 * byte_to_Z x]
  | x :: y :: rest => (256 * byte_to_Z x + byte_to_Z y) :: words16 rest
  end.

Definition ones_complement_add (a b : Z) : Z :=
  (a + b) mod 65536 + (a + b) / 65536.

Definition in_cksum_spec (buf : bytes) : Z :=
  foldl ones_complement_add 0 (words16 buf).

(** A body handler that is announced by [_bodytypename] without lazy data
    is there as the attribute of that name: the states the methods reach. *)
Definition wf_body (p : Packet) : bool :=
  match _bodytypename p with
  | None => true
  | Some n =>
      match _lazy_handler_data p with
      | Some _ => true
      | None =>
          match _handler_attr p with
          | Some (n', _) => String.eqb n n'
          | None => false
          end
      end
  end.

(** The body attributes as the class has them, which is how [_dissect]
    finds them. *)
Definition fresh_body (p : Packet) : bool :=
  match _body_bytes p, _bodytypename p, _lazy_handler_data p with
  | Some [], None, None => true
  | _, _, _ => false
  end.


(** A Radiotap frame with TSFT and FLAGS present, the FCS flag set, no
    802.11 payload, and the four bytes of the frame check sequence:
    version 0, pad 0, length 17, present flags, TSFT (8 bytes), FLAGS,
    FCS. *)
Definition radiotap_fcs_frame : bytes :=
  [x00; x00; x11; x00; x03; x00; x00; x00;
   x10; x00; x00; x00; x00; x00; x00; x00; x10;
   xaa; xbb; xcc; xdd].

(** Two 16-byte addresses. *)
Definition addr16_a : bytes :=
  [x20; x01; x0d; xb8; x00; x00; x00; x00; x00; x00; x00; x00; x00; x00; x00; x01].
Definition addr16_b : bytes :=
  [x20; x01; x0d; xb8; x00; x00; x00; x00; x00; x00; x00; x00; x00; x00; x00; x02].

(** The header fields of a UDP packet that holds the given values. *)
Definition udp_fields (sport dport ulen sum : Z) : list field :=
  [ mkField "sport" (VInt sport) true (Some FH) true true;
    mkField "dport" (VInt dport) true (Some FH) true true;
    mkField "ulen" (VInt ulen) true (Some FH) true true;
    mkField "sum" (VInt sum) true (Some FH) true true ].

(** A UDP packet whose header fields are unpacked and hold the given
    values. *)
Definition udp_unpacked (p : Packet) (sport dport ulen sum : Z) : Prop :=
  _fields p = udp_fields sport dport ulen sum /\
  _header_format p = mkStruct BigEndian [FH; FH; FH; FH] /\
  _header_format_changed p = false /\
  _unpacked p = Some true.

(** The packed UDP header. *)
Definition udp_header (sport dport ulen sum : Z) : bytes :=
  uint_be 2 sport ++ uint_be 2 dport ++ uint_be 2 ulen ++ uint_be 2 sum.

(** The pseudo header of UDP for byte string addresses: 4-byte addresses
    use [">4s4sBBH"], every other length [">16s16sxBH"]. *)
Definition udp_pseudo (src dst : bytes) (n : Z) : bytes :=
  if len src =? 4
  then pad_to 4 src ++ pad_to 4 dst ++ [x00; x11] ++ uint_be 2 n
  else pad_to 16 src ++ pad_to 16 dst ++ [x00; x11] ++ uint_be 2 n.

(** A UDP packet that holds the given header values: either in its
    unpacked fields, or, after dissecting, in its cached header bytes. *)
Definition udp_packet (p : Packet) (sport dport ulen sum : Z) : Prop :=
  _header_format p = mkStruct BigEndian [FH; FH; FH; FH] /\
  _header_format_changed p = false /\
  ((_unpacked p = Some true /\ _fields p = udp_fields sport dport ulen sum)
   \/ (_unpacked p = Some false /\ 0 <= sum < 65536 /\
       _header_cached p = udp_header sport dport ulen sum /\
       exists a b c d, _fields p = udp_fields a b c d)).

(** Two IPv4 addresses, and lower layers that provide them as [src] and
    [dst]: one whose header changed and one whose header did not. *)
Definition ip_a : bytes := [x0a; x00; x00; x01].
Definition ip_b : bytes := [x0a; x00; x00; x02].
Definition lower_changed : LowerLayer :=
  mkLowerLayer true (Some (VBytes ip_a)) (Some (VBytes ip_b)).

(** The UDP datagram of the spec's first scenario as bytes: source port
    1234, destination port 53, length 12, checksum 0, payload "ping". *)
Definition udp_ping : bytes :=
  [x04; xd2; x00; x35; x00; x0c; x00; x00; x70; x69; x6e; x67].

(** A body of 65528 bytes: with the 8 header bytes, 65536 bytes. *)
Definition big_body : bytes := replicate (Z.to_nat 65528) x00.

(** [UDP()] followed by [p.sport = 70000]: a value that does not fit the
    format [H] of the field. *)
Definition udp_sport_70000 : Packet :=
  (setfield_simple env0 "sport" (VInt 70000) (__init__default UDP.cls)).1.

(** [UDP(udp_ping)] followed by [p.sport = 70000]: the same for a packet
    made from bytes, whose body is the lazy handler data of its DNS
    handler. *)
Definition udp_ping_sport_70000 : Packet :=
  (setfield_simple env_plain "sport" (VInt 70000)
     (UDP.new env_plain udp_ping None)).1.

(** The formats that take an integer. *)
Definition int_format (f : fmt_item) : bool :=
  match f with FB | FH | FI => true | Fx | Fs _ => false end.

(** ** Further example data *)

(** A Radiotap frame without present flags: version 0, pad 0, length 8,
    no flags, and three bytes of payload. *)
Definition radiotap_plain_frame : bytes :=
  [x00; x00; x08; x00; x00; x00; x00; x00; x01; x02; x03].

(** [c in s]. *)
Fixpoint has_char (c : ascii) (s : string) : bool :=
  match s with
  | EmptyString => false
  | String d s' => Ascii.eqb d c || has_char c s'
  end.

(** The bytes of a text of ASCII characters. *)
Fixpoint string_bytes (s : string) : bytes :=
  match s with
  | EmptyString => []
  | String c s' => byte_of_Z (ascii_to_Z c) :: string_bytes s'
  end.

Fixpoint is_ascii (s : string) : bool :=
  match s with
  | EmptyString => true
  | String c s' => (ascii_to_Z c <? 128) && is_ascii s'
  end.

(** A label of a DNS name in text form: one to 127 ASCII characters
    without a dot. *)
Definition dns_label (l : string) : bool :=
  (0 <? len (string_bytes l)) && (len (string_bytes l) <? 128)
  && is_ascii l && negb (has_char "." l).

(** The labels in wire form, each one behind its length byte. *)
Fixpoint dns_wire (labels : list string) : bytes :=
  match labels with
  | [] => []
  | l :: labels' =>
      (byte_of_Z (len (string_bytes l)) :: string_bytes l) ++ dns_wire labels'
  end.

(** [UDP(sport=1234, dport=53)] followed by [p.body_bytes = b"ping"]. *)
Definition udp_ping_built : Packet :=
  (_set_body_bytes env0 [x70; x69; x6e; x67]
     (__init__kwargs env0 UDP.cls
        [("sport"%string, VInt 1234); ("dport"%string, VInt 53)]).1).1.

(** ** pypacker.py: further methods of [Packet] *)

(** [Packet.load_handler(clz_add, handler)] as a function on the class
    dictionary [Packet._handler]: [handler] lists the entries of the given
    dict in their order, an id that is not a tuple as a list of one id. *)
Definition load_handler (clz_name : string) (handler : list (list Z * string))
    (registry : gmap string (gmap Z string)) : gmap string (gmap Z string) :=
  match registry !! clz_name with
  | Some _ => registry
  | None =>
      <[clz_name :=
          foldl (fun tbl entry =>
                   foldl (fun t id_x => <[id_x := entry.2]> t) tbl entry.1)
                ∅ handler]> registry
  end.

(** What udp.py and radiotap.py pass to [load_handler]. *)
Definition udp_handler_dict : list (list Z * string) :=
  [ ([23], "Telnet"); ([53; 5353], "DNS"); ([67; 68], "DHCP"); ([111], "Pmap");
    ([123], "NTP"); ([1812; 1813; 1645; 1646], "Radius"); ([5004; 5005], "RTP");
    ([5060; 5061], "SIP") ]%string.

Definition radiotap_handler_dict : list (list Z * string) :=
  [ ([Radiotap.RTAP_TYPE_80211], "IEEE80211"%string) ].

(** [Packet.__add__]: the walk up to the highest layer, which then gets
    [packet_to_add] as its body handler.  A lazy handler that cannot be
    parsed leaves [None] as the highest layer, and the call of
    [_set_bodyhandler] on it is an [AttributeError].  [fuel] bounds the
    iterations of the loop. *)
Fixpoint add_to_highest (E : Env) (fuel : nat) (packet_to_add : Packet) : M unit :=
  match fuel with
  | O => raise RecursionError
  | S fuel' => fun p =>
      match _bodytypename p with
      | None => _set_bodyhandler E (Some packet_to_add) p
      | Some _ =>
          match _get_bodyhandler E p with
          | (p1, Raise e) => (p1, Raise e)
          | (p1, Ok None) => (p1, Raise AttributeError)
          | (p1, Ok (Some h)) =>
              let '(h', r) := add_to_highest E fuel' packet_to_add h in
              (put_handler h' p1, r)
          end
      end
  end.

(** [self + packet_to_add]; the result is [self].  [str.__class__] is the
    class [type]. *)
Definition __add__ (E : Env) (fuel : nat) (packet_to_add : Packet) : M unit :=
  modify (set_target_unpack_clz (Some "type"%string)) ;;;
  add_to_highest E fuel packet_to_add.

(** ** layer4/udp.py: directions *)

Definition DIR_SAME : Z := 1.
Definition DIR_REV : Z := 2.
Definition DIR_UNKNOWN : Z := 4.

Fixpoint bytes_eqb (x y : bytes) : bool :=
  match x, y with
  | [], [] => true
  | a :: x', b :: y' => Byte.eqb a b && bytes_eqb x' y'
  | _, _ => false
  end.

(** [a == b] for the values of simple header fields. *)
Definition value_eqb (a b : value) : bool :=
  match a, b with
  | VInt x, VInt y => x =? y
  | VBytes x, VBytes y => bytes_eqb x y
  | VNone, VNone => true
  | _, _ => false
  end.

(** [self.n1 == other.n2]: both packets after reading the fields, and the
    result. *)
Definition fields_equal (n1 n2 : string) (self other : Packet)
  : Packet * Packet * result bool :=
  match getfield_simple n1 self with
  | (p, Raise e) => (p, other, Raise e)
  | (p, Ok a) =>
      match getfield_simple n2 other with
      | (q, Raise e) => (p, q, Raise e)
      | (q, Ok b) => (p, q, Ok (value_eqb a b))
      end
  end.

(** [c1 and c2]: [c2] is evaluated only when [c1] holds. *)
Definition both_hold (c1 c2 : Packet -> Packet -> Packet * Packet * result bool)
    (self other : Packet) : Packet * Packet * result bool :=
  match c1 self other with
  | (p, q, Ok true) => c2 p q
  | r => r
  end.

(** [UDP.direction(self, other)]: both packets after the call, and the
    direction. *)
Definition UDP_direction (self other : Packet) : Packet * Packet * result Z :=
  match both_hold (fields_equal "sport" "sport") (fields_equal "dport" "dport")
          self other with
  | (p, q, Raise e) => (p, q, Raise e)
  | (p, q, Ok true) => (p, q, Ok (Z.lor DIR_SAME DIR_REV))
  | (p, q, Ok false) =>
      match both_hold (fields_equal "sport" "dport") (fields_equal "dport" "sport")
              p q with
      | (p', q', Raise e) => (p', q', Raise e)
      | (p', q', Ok true) => (p', q', Ok DIR_REV)
      | (p', q', Ok false) => (p', q', Ok DIR_UNKNOWN)
      end
  end.

(** [UDP.reverse_address]: [self.sport, self.dport = self.dport, self.sport]. *)
Definition UDP_reverse_address (E : Env) : M unit :=
  d <- getfield_simple "dport" ;;
  s <- getfield_simple "sport" ;;
  setfield_simple E "sport" d ;;;
  setfield_simple E "dport" s.

(** Two states of a packet with the same body. *)
Definition same_body (p q : Packet) : Prop :=
  _lazy_handler_data p = _lazy_handler_data q /\
  _bodytypename p = _bodytypename q /\
  _body_bytes p = _body_bytes q /\
  _handler_attr p = _handler_attr q /\
  _body_changed p = _body_changed q.

(** ** layer12/radiotap.py: the flags of the header *)

Definition RATE_MASK : Z := 0x04000000.
Definition CHANNEL_MASK : Z := 0x08000000.
Definition FHSS_MASK : Z := 0x10000000.
Definition DB_ANT_SIG_MASK : Z := 0x20000000.
Definition DB_ANT_NOISE_MASK : Z := 0x40000000.
Definition LOCK_QUAL_MASK : Z := 0x80000000.
Definition TX_ATTN_MASK : Z := 0x00010000.
Definition DB_TX_ATTN_MASK : Z := 0x00020000.
Definition DBM_TX_POWER_MASK : Z := 0x00040000.
Definition ANTENNA_MASK : Z := 0x00080000.
Definition ANT_SIG_MASK : Z := 0x00100000.
Definition ANT_NOISE_MASK : Z := 0x00200000.
Definition RX_FLAGS_MASK : Z := 0x00400000.
Definition HT_MASK : Z := 0x00000800.
Definition AMPDU_MASK : Z := 0x00001000.
Definition VHT_MASK : Z := 0x00002000.

(** [RADIO_FIELDS_MASKS], each mask with its entry [(length, alignment)] of
    [RADIO_FIELDS]. *)
Definition RADIO_FIELDS : list (Z * (Z * Z)) :=
  [ (Radiotap.TSFT_MASK, (8, 8)); (Radiotap.FLAGS_MASK, (1, 1));
    (RATE_MASK, (1, 1)); (CHANNEL_MASK, (4, 2));
    (FHSS_MASK, (2, 1)); (DB_ANT_SIG_MASK, (1, 1)); (DB_ANT_NOISE_MASK, (1, 1));
    (LOCK_QUAL_MASK, (2, 2));
    (TX_ATTN_MASK, (2, 2)); (DB_TX_ATTN_MASK, (2, 2)); (DBM_TX_POWER_MASK, (1, 1));
    (ANTENNA_MASK, (1, 1));
    (ANT_SIG_MASK, (1, 1)); (ANT_NOISE_MASK, (1, 1)); (RX_FLAGS_MASK, (2, 2));
    (HT_MASK, (3, 1));
    (AMPDU_MASK, (8, 4)); (VHT_MASK, (12, 2)) ].

(** [Radiotap._parse_flags], the loop over [RADIO_FIELDS_MASKS]:
    [self.present_flags] is read through its property in every iteration;
    [struct.unpack(">B", value)] of the FLAGS field wants exactly one byte;
    slicing [None] is a [TypeError]. *)
Fixpoint parse_flags_loop (fields : list (Z * (Z * Z))) (buf : option bytes)
    (off : Z) (flags : list (Z * bytes)) : M (list (Z * bytes)) :=
  match fields with
  | [] => ret flags
  | (mask, (size, align)) :: rest =>
      pf <- getfield_simple "present_flags" ;;
      match pf with
      | VInt present_flags =>
          if Z.land mask present_flags =? 0
          then parse_flags_loop rest buf off flags
          else
            let mod_ := off mod align in
            let size := if negb (mod_ =? 0) then size + (align - mod_) else size in
            match buf with
            | None => raise TypeError
            | Some b =>
                let v := slice b (Some off) (Some (off + size)) in
                if (mask =? Radiotap.FLAGS_MASK) && negb (len v =? 1)
                then raise StructError
                else parse_flags_loop rest buf (off + size) (flags ++ [(mask, v)])
            end
      | _ => raise TypeError
      end
  end.

(** [Radiotap._parse_flags]. *)
Definition _parse_flags (buf : option bytes) : M (list (Z * bytes)) :=
  parse_flags_loop RADIO_FIELDS buf 0 [].

(** The offset behind the last field that [_parse_flags] takes from the
    buffer for the flags [present_flags], starting at [off]: every present
    field is aligned as [_parse_flags] aligns it. *)
Fixpoint flags_end (fields : list (Z * (Z * Z))) (present_flags off : Z) : Z :=
  match fields with
  | [] => off
  | (mask, (size, align)) :: rest =>
      if Z.land mask present_flags =? 0 then flags_end rest present_flags off
      else
        let mod_ := off mod align in
        let size := if negb (mod_ =? 0) then size + (align - mod_) else size in
        flags_end rest present_flags (off + size)
  end.

(** [Radiotap()] followed by [p.present_flags = TSFT_MASK | FLAGS_MASK]. *)
Definition radiotap_tsft_flags : Packet :=
  (setfield_simple env0 "present_flags" (VInt 0x03000000)
     (__init__default Radiotap.cls)).1.

(** The flags area of [radiotap_fcs_frame]: TSFT (8 bytes) and FLAGS. *)
Definition tsft_flags_area : bytes :=
  [x10; x00; x00; x00; x00; x00; x00; x00; x10].

(** ** The names of attributes

    [setattr(self, self._bodytypename, hndl)] in [_set_bodyhandler] creates
    the instance attribute that [_handler_attr] stands for when the name
    is free.  When it is taken, the assignment does something else: a
    property receives it in its setter ([data], [body_bytes],
    [body_handler], [upper_layer], [fcs], the header fields) or refuses it
    (the read-only properties), and an instance attribute or a method of
    that name is replaced by the handler.  The statements about a handler
    that is set are about names that are free. *)

(** The public attributes of class [Packet] and the property [fcs] of
    [Radiotap]; [UDP] adds none beside its header fields.  The constants
    [DIR_SAME], ... are upper case, and a lower-case class name is never
    one of them. *)
Definition Packet_public_names : list string :=
  [ "bin"; "body_bytes"; "body_handler"; "data"; "direction"; "direction_all";
    "dissect_error"; "dissect_full"; "header_bytes"; "header_len"; "hexdump";
    "highest_layer"; "is_direction"; "load_handler"; "lower_layer";
    "lowest_layer"; "reverse_address"; "reverse_all_address"; "upper_layer";
    "fcs" ]%string.

(** [name.startswith("_")]: the private attributes of an object, those of
    the class and of the metaclass, and the special names. *)
Definition starts_with_underscore (name : string) : bool :=
  match name with
  | String c _ => Ascii.eqb c "_"
  | EmptyString => false
  end.

(** [name] is taken on the packet [p]: it is private, public in the class,
    or the name of a header field. *)
Definition attribute_taken (p : Packet) (name : string) : bool :=
  starts_with_underscore name
  || existsb (String.eqb name) Packet_public_names
  || existsb (fun f => String.eqb name (f_name f)) (_fields p).

(** An environment in which the [_dissect] of every handler class raises:
    [Packet.__init__] catches that and marks the handler with
    [dissect_error]. *)
Definition env_failing : Env :=
  mkEnv loaded_handlers
    (fun clz buf lower =>
       Ok (__init__ (plain_class clz) (fun _ => raise GenericException) buf
             (Some lower)))
    (fun _ p => p).

(** A class with one integer header field, as
    [class name(Packet): __hdr__ = (("kind", fmt, v),)] makes it. *)
Definition layer_class (name : string) (fmt : fmt_item) (v : Z) : Packet :=
  default Packet_class
    (MetaPacket_new name [mkHdr "kind" (Some fmt) (DInt v)] BigEndian).

(** * Properties *)
(** ** Body assignment *)

Arguments _notify_changelistener : simpl never.

(** A packet as its eighteen attributes. *)
Ltac destruct_packet p :=
  destruct p as [cn fs hf hl hc hch hfc bc bb btn lz ha ll cl tu up de fc].

Ltac unfold_m := unfold bind, ret, raise, modify, gets, try_except in *.

Lemma notify_no_listener E p :
  _changelistener p = [] -> _notify_changelistener E p = p.
Proof. unfold _notify_changelistener. intros ->. reflexivity. Qed.

Lemma set_bodyhandler_None E p :
  _changelistener p = [] -> wf_body p = true ->
  exists attr,
    _set_bodyhandler E None p =
      (set_lazy_handler_data None
         (set_body_changed true
            (set_body_bytes (Some [])
               (set_bodytypename None (set_handler_attr attr p)))), Ok tt).
Proof.
  intros Hl Hwf. destruct_packet p. cbn in Hl. subst.
  unfold _set_bodyhandler, wf_body, getattr_bodytype, put_handler in *.
  unfold_m. cbn in *.
  destruct btn as [n|]; cbn.
  - destruct lz as [d|]; cbn.
    + eexists. rewrite notify_no_listener by reflexivity. reflexivity.
    + destruct ha as [[n' h]|]; [|discriminate].
      rewrite Hwf. cbn.
      eexists. rewrite notify_no_listener by reflexivity. reflexivity.
  - eexists. rewrite notify_no_listener by reflexivity. reflexivity.
Qed.

Lemma set_body_bytes_result (E : Env) (v : bytes) (p : Packet) :
  _changelistener p = [] ->
  wf_body p = true ->
  exists p',
    _set_body_bytes E v p = (p', Ok tt) /\
    _body_bytes p' = Some v /\
    _bodytypename p' = None /\
    _lazy_handler_data p' = None /\
    _body_changed p' = true /\
    _get_bodyhandler E p' = (p', Ok None) /\
    _fields p' = _fields p /\
    _header_cached p' = _header_cached p /\
    _header_len p' = _header_len p /\
    _header_changed p' = _header_changed p /\
    _header_format p' = _header_format p /\
    _header_format_changed p' = _header_format_changed p /\
    _unpacked p' = _unpacked p.
Proof.
  intros Hl Hwf. unfold _set_body_bytes. unfold_m.
  destruct (negb (is_None (_bodytypename p))) eqn:Hb.
  - destruct (set_bodyhandler_None E p Hl Hwf) as [attr ->].
    destruct_packet p. cbn in Hl. subst. cbn.
    rewrite notify_no_listener by reflexivity.
    eexists. split; [reflexivity|]. cbn. repeat split.
  - destruct_packet p. cbn in Hl, Hb. subst. cbn.
    destruct btn; [discriminate|].
    rewrite notify_no_listener by reflexivity.
    eexists. split; [reflexivity|]. cbn. repeat split.
Qed.

(** C10.  For a packet without change listeners, assigning [body_bytes]
    sets the raw bytes, drops the body handler and the lazy handler data and
    sets [_body_changed]; the header field values, the cached header bytes,
    [_header_len], [_header_changed] (and the header format and the unpacked
    state) are what they were. *)
Theorem set_body_bytes_frame (E : Env) (v : bytes) (p : Packet) :
  _changelistener p = [] ->
  wf_body p = true ->
  exists p',
    _set_body_bytes E v p = (p', Ok tt) /\
    _body_bytes p' = Some v /\
    _bodytypename p' = None /\
    _lazy_handler_data p' = None /\
    _body_changed p' = true /\
    _get_bodyhandler E p' = (p', Ok None) /\
    _fields p' = _fields p /\
    _header_cached p' = _header_cached p /\
    _header_len p' = _header_len p /\
    _header_changed p' = _header_changed p /\
    _header_format p' = _header_format p /\
    _header_format_changed p' = _header_format_changed p /\
    _unpacked p' = _unpacked p.
Proof. apply set_body_bytes_result. Qed.

(** ** Dispatch on an unregistered discriminator *)

(** C5.  [_init_handler] with a discriminator that is not registered for
    the packet's class returns normally, and the buffer is the packet's raw
    body: no body handler and no lazy handler data. *)
Theorem init_handler_unknown_type (E : Env) (hndl_type : Z) (buffer : bytes)
    (p : Packet) :
  lookup_handler E (_class_name p) hndl_type = None ->
  _changelistener p = [] ->
  wf_body p = true ->
  buffer <> [] \/ fresh_body p = true ->
  exists p',
    _init_handler E hndl_type buffer p = (p', Ok tt) /\
    _body_bytes p' = Some buffer /\
    _bodytypename p' = None /\
    _lazy_handler_data p' = None /\
    _get_bodyhandler E p' = (p', Ok None).
Proof.
  intros Hk Hl Hwf Hb. unfold _init_handler.
  destruct (len buffer =? 0) eqn:Hlen.
  - assert (buffer = []) as ->.
    { apply Z.eqb_eq in Hlen. unfold len in Hlen. destruct buffer; [reflexivity|].
      cbn in Hlen. lia. }
    destruct Hb as [Hb|Hb]; [congruence|].
    unfold fresh_body in Hb.
    destruct (_body_bytes p) as [[|]|] eqn:H1; try discriminate.
    destruct (_bodytypename p) eqn:H2; try discriminate.
    destruct (_lazy_handler_data p) eqn:H3; try discriminate.
    exists p. unfold _get_bodyhandler. rewrite H2, H3. auto.
  - unfold try_except. rewrite Hk.
    destruct (set_body_bytes_result E buffer p Hl Hwf) as (p' & Hs & H).
    exists p'.
    assert (_set_body_bytes E buffer p = (p', Ok tt) ->
            (if is_None (_target_unpack_clz p) || target_is_own_class p
             then (p, @Raise unit KeyError) else (p, Raise KeyError)) = (p, Raise KeyError)) as Hx.
    { intros _. destruct (_ || _); reflexivity. }
    rewrite (Hx Hs). rewrite Hs. intuition.
Qed.

(** ** Slices *)

Lemma len_nonneg {A} (l : list A) : 0 <= len l.
Proof. unfold len. lia. Qed.

Lemma clamp_index_range n i : 0 <= n -> 0 <= clamp_index n i <= n.
Proof. unfold clamp_index. intros. destruct (i <? 0) eqn:H0; lia. Qed.

(** [l[:n] + l[n:] == l]. *)
Lemma slice_split {A} (l : list A) (n : Z) :
  slice l None (Some n) ++ slice l (Some n) None = l.
Proof.
  unfold slice. pose proof (clamp_index_range (len l) n (len_nonneg l)) as H.
  set (a := clamp_index (len l) n) in *. cbn.
  rewrite Z.sub_0_r, drop_0.
  rewrite (take_ge (drop _ _)); [apply take_drop|].
  rewrite length_drop. unfold len in *. lia.
Qed.

Lemma slice_prefix_length {A} (l : list A) (a b : Z) :
  0 <= a < b ->
  len (slice l (Some a) (Some b)) = b - a <-> b <= len l.
Proof.
  intros Hab. unfold slice, clamp_index, len.
  destruct (a <? 0) eqn:Ha; [lia|]. destruct (b <? 0) eqn:Hb; [lia|].
  rewrite length_take, length_drop. lia.
Qed.

Lemma slice_from_nil {A} (l : list A) (a : Z) :
  0 <= a -> len l <= a -> slice l (Some a) None = [].
Proof.
  intros H0 H. unfold slice, clamp_index, len in *.
  destruct (a <? 0) eqn:Ha; [lia|].
  apply length_zero_iff_nil. rewrite length_take, length_drop. lia.
Qed.

(** ** [UDP(buf)] and the round trip *)

Lemma UDP_cls_meta : MetaPacket_new "UDP" UDP.__hdr__ BigEndian = Some UDP.cls.
Proof. reflexivity. Qed.

Lemma Radiotap_cls_meta :
  MetaPacket_new "Radiotap" Radiotap.__hdr__ BigEndian = Some Radiotap.cls.
Proof. reflexivity. Qed.

(** What [_init_handler] leaves in a packet that has no listeners, no
    unpack target and the body of its class. *)
Lemma init_handler_fresh E t buffer p :
  _changelistener p = [] -> fresh_body p = true -> _target_unpack_clz p = None ->
  exists p',
    _init_handler E t buffer p = (p', Ok tt) /\
    (p' = p /\ buffer = []
     \/ (exists clz, lookup_handler E (_class_name p) t = Some clz /\
          p' = set_body_changed true
                 (set_body_bytes None
                    (set_bodytypename (Some (lower clz))
                       (set_lazy_handler_data (Some (lower clz, clz, buffer)) p))))
     \/ (lookup_handler E (_class_name p) t = None /\
          p' = set_lazy_handler_data None
                 (set_body_changed true (set_body_bytes (Some buffer) p)))).
Proof.
  intros Hl Hf Ht. unfold _init_handler.
  destruct (len buffer =? 0) eqn:Hlen.
  - exists p. split; [reflexivity|]. left. split; [reflexivity|].
    apply Z.eqb_eq in Hlen. unfold len in Hlen. destruct buffer; [reflexivity|].
    cbn in Hlen. lia.
  - unfold try_except. rewrite Ht. cbn.
    destruct (lookup_handler E (_class_name p) t) as [clz|] eqn:Hk.
    + eexists. split; [reflexivity|]. right. left. exists clz. split; reflexivity.
    + unfold fresh_body in Hf.
      destruct (_body_bytes p) as [[|]|] eqn:H1; try discriminate.
      destruct (_bodytypename p) eqn:H2; try discriminate.
      destruct (_lazy_handler_data p) eqn:H3; try discriminate.
      destruct_packet p. cbn in *. subst.
      unfold _set_body_bytes. unfold_m. cbn.
      rewrite notify_no_listener by reflexivity.
      eexists. split; [reflexivity|]. right. right. split; reflexivity.
Qed.

(** The body that [UDP._dissect] leaves in a fresh packet for the rest
    [buffer] of the input: untouched, lazy handler data, or raw bytes. *)
Lemma UDP_dissect_fresh E buf p :
  _changelistener p = [] -> fresh_body p = true -> _target_unpack_clz p = None ->
  (exists e, UDP._dissect E buf p = (p, Raise e))
  \/ UDP._dissect E buf p = (p, Ok 8)
  \/ (exists clz,
        UDP._dissect E buf p =
          (set_body_changed true
             (set_body_bytes None
                (set_bodytypename (Some (lower clz))
                   (set_lazy_handler_data
                      (Some (lower clz, clz, slice buf (Some 8) None)) p))), Ok 8))
  \/ UDP._dissect E buf p =
       (set_lazy_handler_data None
          (set_body_changed true
             (set_body_bytes (Some (slice buf (Some 8) None)) p)), Ok 8).
Proof.
  intros Hl Hf Ht. unfold UDP._dissect.
  destruct (UDP.unpack_H (slice buf (Some 0) (Some 2))) as [sport|e]; [|eauto].
  destruct (UDP.unpack_H (slice buf (Some 2) (Some 4))) as [dport|e]; [|eauto].
  right. unfold_m.
  destruct (handlers E !! "UDP"%string) as [tbl|]; [|left; reflexivity].
  destruct (List.filter _ _) as [|htype ?]; [left; reflexivity|].
  destruct (init_handler_fresh E htype (slice buf (Some 8) None) p Hl Hf Ht)
    as (p' & -> & [[-> _]|[(clz & _ & ->)|[_ ->]]]); cbn; eauto.
Qed.

(** [Packet.bin] of a packet whose header did not change and whose body
    is lazy handler data or raw bytes: the cached header and the body. *)
Lemma bin_cached E hb uaf p body :
  _header_changed p = false ->
  (exists n c, _lazy_handler_data p = Some (n, c, body))
  \/ (_lazy_handler_data p = None /\ _bodytypename p = None
      /\ _body_bytes p = Some body) ->
  bin E hb uaf p = (_reset_changed p, Ok (_header_cached p ++ body)).
Proof.
  intros Hc Hb. destruct_packet p. cbn in *. subst.
  destruct Hb as [(n & c & ->)|(-> & -> & ->)]; reflexivity.
Qed.

Lemma method_bin_UDP_no_update E cks fuel p :
  _class_name p = "UDP"%string ->
  method_bin E cks (S fuel) false p = bin E (method_bin E cks fuel) false p.
Proof. intros H. cbn [method_bin]. rewrite H. reflexivity. Qed.

(** [Packet.__init__] with a byte string, by the outcome of [_dissect]. *)
Lemma init_ok cls dissect buf p1 hl :
  dissect buf cls = (p1, Ok hl) ->
  __init__ cls dissect buf None =
    set_unpacked (Some false)
      (_reset_changed
         (let p2 := set_header_cached (slice buf None (Some hl))
                      (set_header_len hl p1) in
          if negb (_body_changed p2)
          then set_body_bytes (Some (slice buf (Some hl) None)) p2
          else p2)).
Proof. intros H. unfold __init__. unfold_m. rewrite H. reflexivity. Qed.

Lemma init_raise cls dissect buf p1 e :
  dissect buf cls = (p1, Raise e) ->
  __init__ cls dissect buf None =
    set_unpacked (Some false) (_reset_changed (set_dissect_error true p1)).
Proof. intros H. unfold __init__. unfold_m. rewrite H. reflexivity. Qed.

(** [UDP(buf)]: either [dissect_error] is set, or the first eight bytes
    are the cached header and the rest is the body, lazy or raw. *)
Lemma UDP_new_cases E buf :
  let p := UDP.new E buf None in
  _dissect_error p = true
  \/ (_class_name p = "UDP"%string /\ _header_changed p = false
      /\ _header_cached p = slice buf None (Some 8)
      /\ ((exists n c, _lazy_handler_data p = Some (n, c, slice buf (Some 8) None))
          \/ (_lazy_handler_data p = None /\ _bodytypename p = None
              /\ _body_bytes p = Some (slice buf (Some 8) None)))).
Proof.
  intros p.
  destruct (UDP_dissect_fresh E buf UDP.cls eq_refl eq_refl eq_refl)
    as [[e H]|[H|[[clz H]|H]]].
  - left. unfold p, UDP.new. rewrite (init_raise _ _ _ _ _ H). reflexivity.
  - right. unfold p, UDP.new. rewrite (init_ok _ _ _ _ _ H).
    do 3 (split; [reflexivity|]). right. repeat split.
  - right. unfold p, UDP.new. rewrite (init_ok _ _ _ _ _ H).
    do 3 (split; [reflexivity|]). left. eexists _, _. reflexivity.
  - right. unfold p, UDP.new. rewrite (init_ok _ _ _ _ _ H).
    do 3 (split; [reflexivity|]). right. repeat split.
Qed.

(** X1.  [UDP(buf).bin(update_auto_fields=False) == buf] whenever
    [UDP(buf)] does not set [dissect_error]. *)
Theorem UDP_bin_roundtrip (E : Env) (in_cksum : bytes -> Z) (fuel : nat)
    (buf : bytes) :
  _dissect_error (UDP.new E buf None) = false ->
  (method_bin E in_cksum (S fuel) false (UDP.new E buf None)).2 = Ok buf.
Proof.
  intros Hd. destruct (UDP_new_cases E buf) as [H|(Hn & Hc & Hh & Hb)];
    [congruence|].
  rewrite method_bin_UDP_no_update by exact Hn.
  rewrite (bin_cached E _ false _ (slice buf (Some 8) None) Hc Hb).
  cbn [snd]. rewrite Hh. f_equal. apply slice_split.
Qed.

(** ** [Radiotap(buf)] and the round trip *)

Lemma method_bin_Radiotap E cks fuel uaf p :
  _class_name p = "Radiotap"%string ->
  method_bin E cks (S fuel) uaf p = Radiotap.bin E (method_bin E cks fuel) uaf p.
Proof. intros H. cbn [method_bin]. rewrite H. reflexivity. Qed.

(** C1, at the failing input.  [Radiotap(buf)] accepts the frame
    [radiotap_fcs_frame] without [dissect_error], keeps the four FCS bytes
    both as [fcs] and as raw body, and [bin(update_auto_fields=False)]
    returns the frame followed by a second copy of the FCS. *)
Theorem Radiotap_bin_repeats_fcs (E : Env) (in_cksum : bytes -> Z) (fuel : nat) :
  let p := Radiotap.new E radiotap_fcs_frame None in
  _dissect_error p = false /\
  _fcs p = Some [xaa; xbb; xcc; xdd] /\
  _body_bytes p = Some [xaa; xbb; xcc; xdd] /\
  (method_bin E in_cksum (S fuel) false p).2
    = Ok (radiotap_fcs_frame ++ [xaa; xbb; xcc; xdd]) /\
  (method_bin E in_cksum (S fuel) false p).2 <> Ok radiotap_fcs_frame.
Proof.
  intros p.
  let r := eval vm_compute in (Radiotap.new env0 radiotap_fcs_frame None) in
  assert (Hp : p = r) by (unfold p; vm_compute; reflexivity).
  clearbody p. subst p.
  split; [reflexivity|]. split; [reflexivity|]. split; [reflexivity|].
  rewrite method_bin_Radiotap by reflexivity.
  unfold Radiotap.bin, pypacker_bin. unfold_m.
  erewrite bin_cached; [|reflexivity|right; repeat split; reflexivity].
  split; [reflexivity|]. cbn. discriminate.
Qed.

(** ** UDP: dispatch by port *)

Lemma slice_from_len {A} (l : list A) (a : Z) :
  0 <= a <= len l -> len (slice l (Some a) None) = len l - a.
Proof.
  intros H. unfold slice, clamp_index, len in *.
  destruct (a <? 0) eqn:Ha; [lia|].
  rewrite length_take, length_drop. lia.
Qed.

Lemma unpack_H_slice buf a :
  0 <= a -> a + 2 <= len buf ->
  UDP.unpack_H (slice buf (Some a) (Some (a + 2)))
    = Ok (decode_uint BigEndian (slice buf (Some a) (Some (a + 2)))).
Proof.
  intros H0 H. unfold UDP.unpack_H.
  assert (len (slice buf (Some a) (Some (a + 2))) = a + 2 - a) as ->
    by (apply slice_prefix_length; lia).
  replace (a + 2 - a =? 2) with true by (symmetry; apply Z.eqb_eq; lia).
  reflexivity.
Qed.

(** What [UDP._dissect] does with a buffer that has a payload, when the
    port [htype] is the first registered one of source and destination. *)
Lemma UDP_dissect_lazy E tbl buf htype clz :
  handlers E !! "UDP"%string = Some tbl ->
  8 < len buf ->
  List.filter (fun x => negb (is_None (tbl !! x)))
    [decode_uint BigEndian (slice buf (Some 0) (Some 2));
     decode_uint BigEndian (slice buf (Some 2) (Some 4))] = htype :: nil
  \/ (exists rest, List.filter (fun x => negb (is_None (tbl !! x)))
        [decode_uint BigEndian (slice buf (Some 0) (Some 2));
         decode_uint BigEndian (slice buf (Some 2) (Some 4))] = htype :: rest) ->
  tbl !! htype = Some clz ->
  UDP._dissect E buf UDP.cls =
    (set_body_changed true
       (set_body_bytes None
          (set_bodytypename (Some (lower clz))
             (set_lazy_handler_data
                (Some (lower clz, clz, slice buf (Some 8) None)) UDP.cls))), Ok 8).
Proof.
  intros Ht Hlen Hf Hc. unfold UDP._dissect.
  pose proof (unpack_H_slice buf 0 ltac:(lia) ltac:(lia)) as H0.
  pose proof (unpack_H_slice buf 2 ltac:(lia) ltac:(lia)) as H2.
  change (0 + 2) with 2 in H0. change (2 + 2) with 4 in H2.
  rewrite H0, H2.
  unfold_m. rewrite Ht.
  assert (exists rest, List.filter (fun x => negb (is_None (tbl !! x)))
        [decode_uint BigEndian (slice buf (Some 0) (Some 2));
         decode_uint BigEndian (slice buf (Some 2) (Some 4))] = htype :: rest)
    as [rest ->] by (destruct Hf as [->|?]; eauto).
  unfold _init_handler.
  assert ((len (slice buf (Some 8) None) =? 0) = false) as ->.
  { apply Z.eqb_neq. rewrite slice_from_len; lia. }
  unfold try_except. cbn [UDP.cls _target_unpack_clz is_None orb].
  unfold lookup_handler. cbn [UDP.cls _class_name]. rewrite Ht, Hc.
  reflexivity.
Qed.

(** C4.  For a UDP buffer with a payload: when the source port is
    registered in the handler table of UDP, its handler class is the one
    chosen for the upper layer, whatever the destination port is; the
    destination port decides only when the source port is not registered. *)
Theorem UDP_source_port_first (E : Env) (tbl : gmap Z string) (buf : bytes)
    (clz : string) :
  handlers E !! "UDP"%string = Some tbl ->
  8 < len buf ->
  let sport := decode_uint BigEndian (slice buf (Some 0) (Some 2)) in
  let dport := decode_uint BigEndian (slice buf (Some 2) (Some 4)) in
  tbl !! sport = Some clz \/ (tbl !! sport = None /\ tbl !! dport = Some clz) ->
  let p := UDP.new E buf None in
  _dissect_error p = false /\
  _lazy_handler_data p = Some (lower clz, clz, slice buf (Some 8) None) /\
  _bodytypename p = Some (lower clz).
Proof.
  intros Ht Hlen sport dport Hreg p.
  assert (exists htype,
    (exists rest, List.filter (fun x => negb (is_None (tbl !! x))) [sport; dport] = htype :: rest)
    /\ tbl !! htype = Some clz) as (htype & Hf & Hc).
  { destruct Hreg as [Hs|[Hs Hd]].
    - exists sport. split; [|exact Hs].
      cbn [List.filter]. fold sport. rewrite Hs. cbn. eauto.
    - exists dport. split; [|exact Hd].
      cbn [List.filter]. fold sport dport. rewrite Hs, Hd. cbn. eauto. }
  pose proof (UDP_dissect_lazy E tbl buf htype clz Ht Hlen (or_intror Hf) Hc) as H.
  unfold p, UDP.new. rewrite (init_ok _ _ _ _ _ H).
  repeat split.
Qed.

(** ** UDP: the pseudo header *)

Arguments encode_uint : simpl never.
Arguments uint_be : simpl never.

Lemma encode_uint_be w z :
  0 <= z < 256 ^ Z.of_nat w -> encode_uint BigEndian w z = Some (uint_be w z).
Proof.
  intros H. unfold encode_uint.
  replace (0 <=? z) with true by (symmetry; apply Z.leb_le; lia).
  replace (z <? 256 ^ Z.of_nat w) with true by (symmetry; apply Z.ltb_lt; lia).
  reflexivity.
Qed.

Lemma encode_uint_out_of_range o w z :
  ~ (0 <= z < 256 ^ Z.of_nat w) -> encode_uint o w z = None.
Proof.
  intros H. unfold encode_uint.
  destruct (0 <=? z) eqn:H0; [|reflexivity].
  destruct (z <? 256 ^ Z.of_nat w) eqn:H1; [|reflexivity].
  apply Z.leb_le in H0. apply Z.ltb_lt in H1. lia.
Qed.

Lemma pad_to_exact n (b : bytes) : length b = n -> pad_to n b = b.
Proof.
  intros <-. unfold pad_to. rewrite take_ge by lia.
  rewrite Nat.sub_diag. apply app_nil_r.
Qed.

Lemma length_uint_be w z : length (uint_be w z) = w.
Proof.
  revert z. induction w as [|w IH]; intros z; [reflexivity|].
  change (uint_be (S w) z) with (uint_be w (z / 256) ++ [byte_of_Z z]).
  rewrite length_app, IH. cbn. lia.
Qed.

(** C3, as the code has it.  For addresses of 16 bytes the pseudo header
    is [src(16) || dst(16) || one zero byte || 17 || length(2)]: 36 bytes. *)
Theorem UDP_pseudo_header_16 (src dst : bytes) (n : Z) :
  length src = 16%nat -> length dst = 16%nat -> 0 <= n < 65536 ->
  UDP.pseudo_header (VBytes src) (VBytes dst) n
    = Ok (src ++ dst ++ [x00] ++ [x11] ++ uint_be 2 n)
  /\ length (src ++ dst ++ [x00] ++ [x11] ++ uint_be 2 n) = 36%nat.
Proof.
  intros Hs Hd Hn. split.
  - unfold UDP.pseudo_header, py_len, len. rewrite Hs.
    change (Z.of_nat 16 =? 4) with false. cbv iota.
    unfold Struct_pack, UDP.pseudo16. cbn [st_order st_items pack_items pack_one].
    rewrite (pad_to_exact 16 src Hs), (pad_to_exact 16 dst Hd).
    rewrite (encode_uint_be 2 n) by (cbn; lia).
    rewrite (encode_uint_be 1 17) by (cbn; lia).
    reflexivity.
  - rewrite !length_app, Hs, Hd, length_uint_be. reflexivity.
Qed.

Lemma UDP_pseudo_header_16_witness :
  UDP.pseudo_header (VBytes addr16_a) (VBytes addr16_b) 12
    = Ok (addr16_a ++ addr16_b ++ [x00] ++ [x11] ++ uint_be 2 12)
  /\ length (addr16_a ++ addr16_b ++ [x00] ++ [x11] ++ uint_be 2 12) = 36%nat.
Proof.
  apply (UDP_pseudo_header_16 addr16_a addr16_b 12); [reflexivity|reflexivity|lia].
Defined.

(** C3, as the claim states it, fails: with 16-byte addresses the pseudo
    header is not [src || dst || three zero bytes || 17 || length], and it is
    not 38 bytes long. *)
Lemma UDP_pseudo_header_16_not_38 :
  UDP.pseudo_header (VBytes addr16_a) (VBytes addr16_b) 12
    <> Ok (addr16_a ++ addr16_b ++ [x00; x00; x00] ++ [x11] ++ [x00; x0c])
  /\ (forall s, UDP.pseudo_header (VBytes addr16_a) (VBytes addr16_b) 12 = Ok s ->
        length s <> 38%nat).
Proof.
  split.
  - vm_compute. discriminate.
  - intros s. vm_compute. intros [= <-]. discriminate.
Qed.

(** ** UDP: the checksum *)

Lemma set_handler_attr_same p : set_handler_attr (_handler_attr p) p = p.
Proof. destruct_packet p. reflexivity. Qed.

(** [_get_bodybytes] reads and changes the body attributes only. *)
Lemma get_bodybytes_body_only fuel p q :
  _body_bytes p = _body_bytes q -> _bodytypename p = _bodytypename q ->
  _lazy_handler_data p = _lazy_handler_data q -> _handler_attr p = _handler_attr q ->
  _get_bodybytes fuel q =
    (set_handler_attr (_handler_attr (_get_bodybytes fuel p).1) q,
     (_get_bodybytes fuel p).2).
Proof.
  intros H1 H2 H3 H4. destruct fuel as [|fuel].
  - cbn. rewrite H4, set_handler_attr_same. reflexivity.
  - destruct_packet p.
    destruct q as [cn' fs' hf' hl' hc' hch' hfc' bc' bb' btn' lz' ha' ll' cl' tu' up' de' fc'].
    cbn in H1, H2, H3, H4. subst bb' btn' lz' ha'.
    cbn [_get_bodybytes]. cbn [_lazy_handler_data _bodytypename _body_bytes].
    destruct lz as [[[? ?] ?]|]; [reflexivity|].
    destruct btn as [n|]; [|reflexivity].
    unfold bind, getattr_bodytype. cbn [_bodytypename _handler_attr].
    destruct ha as [[n' h]|]; [|reflexivity].
    destruct (String.eqb n n'); [|reflexivity].
    destruct (_pack_header h) as [h1 [hdr|e]]; [|reflexivity].
    destruct (_get_bodybytes fuel h1) as [h2 r2]. reflexivity.
Qed.

Lemma setfield_udp_sum E p sport dport ulen s v :
  udp_unpacked p sport dport ulen s -> _changelistener p = [] ->
  setfield_simple E "sum" (VInt v) p =
    (set_header_changed true (set_fields (udp_fields sport dport ulen v) p), Ok tt).
Proof.
  intros (Hf & Hfmt & Hhfc & Hup) Hl. destruct_packet p. cbn in *. subst.
  unfold setfield_simple. unfold_m. cbn.
  rewrite ?notify_no_listener by reflexivity. reflexivity.
Qed.

Lemma pack_header_udp p sport dport ulen s :
  udp_unpacked p sport dport ulen s -> _header_changed p = true ->
  0 <= sport < 65536 -> 0 <= dport < 65536 -> 0 <= ulen < 65536 -> 0 <= s < 65536 ->
  _pack_header p =
    (set_header_changed false (set_header_cached (udp_header sport dport ulen s) p),
     Ok (Some (udp_header sport dport ulen s))).
Proof.
  intros (Hf & Hfmt & Hhfc & Hup) Hc H1 H2 H3 H4. destruct_packet p. cbn in *. subst.
  unfold _pack_header. unfold_m. cbn.
  unfold Struct_pack. cbn.
  rewrite !encode_uint_be by (cbn; lia). cbn. unfold udp_header.
  rewrite ?app_nil_r. reflexivity.
Qed.

Lemma byte_to_Z_of_Z z : byte_to_Z (byte_of_Z z) = z mod 256.
Proof.
  unfold byte_to_Z, byte_of_Z.
  pose proof (Z.mod_pos_bound z 256 eq_refl) as Hm.
  destruct (Byte.of_N (Z.to_N (z mod 256))) as [b|] eqn:Hb.
  - apply Byte.to_of_N in Hb. cbn. rewrite Hb. lia.
  - apply Byte.of_N_None_iff in Hb. lia.
Qed.

Lemma byte_to_Z_range b : 0 <= byte_to_Z b < 256.
Proof. unfold byte_to_Z. pose proof (Byte.to_N_bounded b). lia. Qed.

Lemma byte_of_Z_to_Z b : byte_of_Z (byte_to_Z b) = b.
Proof.
  unfold byte_of_Z. rewrite Z.mod_small by apply byte_to_Z_range.
  unfold byte_to_Z. rewrite N2Z.id, Byte.of_to_N. reflexivity.
Qed.

Lemma uint_be_2 z : uint_be 2 z = [byte_of_Z (z / 256); byte_of_Z z].
Proof. reflexivity. Qed.

Lemma uint_be_2_nonzero z : 0 < z < 65536 -> uint_be 2 z <> [x00; x00].
Proof.
  intros Hz. rewrite uint_be_2. intros [= H1 H2].
  apply (f_equal byte_to_Z) in H1, H2. rewrite byte_to_Z_of_Z in H1, H2.
  change (byte_to_Z x00) with 0 in H1, H2.
  assert (0 <= z / 256 < 256) as Hq
    by (split; [apply Z.div_pos; lia | apply Z.div_lt_upper_bound; lia]).
  rewrite Z.mod_small in H1 by exact Hq.
  pose proof (Z.div_mod z 256 ltac:(lia)). lia.
Qed.

Lemma pseudo_header_bytes src dst n :
  0 <= n < 65536 ->
  UDP.pseudo_header (VBytes src) (VBytes dst) n = Ok (udp_pseudo src dst n).
Proof.
  intros Hn. unfold UDP.pseudo_header, udp_pseudo, py_len.
  destruct (len src =? 4); unfold Struct_pack, UDP.pseudo4, UDP.pseudo16;
    cbn [st_order st_items pack_items pack_one];
    rewrite (encode_uint_be 2 n) by (cbn; lia);
    rewrite ?(encode_uint_be 1 17) by (cbn; lia);
    rewrite ?(encode_uint_be 1 0) by (cbn; lia); reflexivity.
Qed.


Lemma decode_uint_be w z :
  0 <= z < 256 ^ Z.of_nat w -> decode_uint BigEndian (uint_be w z) = z.
Proof.
  unfold decode_uint, in_byte_order. revert z.
  induction w as [|w IH]; intros z Hz.
  - change (uint_be 0 z) with (@nil byte). cbn in *. lia.
  - change (uint_be (S w) z) with (uint_be w (z / 256) ++ [byte_of_Z z]).
    rewrite fold_left_app. cbn [fold_left].
    rewrite Nat2Z.inj_succ, Z.pow_succ_r in Hz by lia.
    rewrite IH.
    + rewrite byte_to_Z_of_Z. pose proof (Z.div_mod z 256 ltac:(lia)). lia.
    + split; [apply Z.div_pos; lia|apply Z.div_lt_upper_bound; lia].
Qed.

Lemma unpack_udp_header sport dport ulen s :
  0 <= sport < 65536 -> 0 <= dport < 65536 -> 0 <= ulen < 65536 -> 0 <= s < 65536 ->
  Struct_unpack (mkStruct BigEndian [FH; FH; FH; FH]) (udp_header sport dport ulen s)
    = Some [VInt sport; VInt dport; VInt ulen; VInt s].
Proof.
  intros H1 H2 H3 H4. unfold Struct_unpack, udp_header.
  replace (len _ =? _) with true.
  2:{ symmetry. apply Z.eqb_eq. unfold len. rewrite !length_app, !length_uint_be.
      reflexivity. }
  cbn [st_order st_items unpack_items item_size].
  repeat first
    [ rewrite take_app_length' by (symmetry; apply length_uint_be)
    | rewrite drop_app_length' by (symmetry; apply length_uint_be) ].
  rewrite (take_ge (uint_be 2 s)) by (rewrite length_uint_be; lia).
  rewrite !decode_uint_be by (cbn; lia). reflexivity.
Qed.

(** A dissected UDP packet whose cached header holds the given values and
    whose fields wait to be unpacked. *)
Lemma setfield_udp_sum_dissected E p sport dport ulen s v a b c d :
  _unpacked p = Some false ->
  _fields p = udp_fields a b c d ->
  _header_format p = mkStruct BigEndian [FH; FH; FH; FH] ->
  _header_format_changed p = false ->
  _header_cached p = udp_header sport dport ulen s ->
  _changelistener p = [] ->
  0 <= sport < 65536 -> 0 <= dport < 65536 -> 0 <= ulen < 65536 -> 0 <= s < 65536 ->
  setfield_simple E "sum" (VInt v) p =
    (set_header_changed true
       (set_fields (udp_fields sport dport ulen v) (set_unpacked (Some true) p)),
     Ok tt).
Proof.
  intros Hup Hf Hfmt Hhfc Hc Hl H1 H2 H3 H4. destruct_packet p. cbn in *. subst.
  unfold setfield_simple, _unpack. unfold_m. cbn.
  rewrite unpack_udp_header by assumption. cbn.
  rewrite ?notify_no_listener by reflexivity. reflexivity.
Qed.

Lemma setfield_udp_sum_any E p sport dport ulen s v :
  udp_packet p sport dport ulen s -> _changelistener p = [] ->
  0 <= sport < 65536 -> 0 <= dport < 65536 -> 0 <= ulen < 65536 ->
  setfield_simple E "sum" (VInt v) p =
    (set_header_changed true
       (set_fields (udp_fields sport dport ulen v) (set_unpacked (Some true) p)),
     Ok tt).
Proof.
  intros (Hfmt & Hhfc & [[Hup Hf]|(Hup & Hs & Hc & a & b & c & d & Hf)]) Hl H1 H2 H3.
  - rewrite (setfield_udp_sum E p sport dport ulen s v) by (repeat split; assumption).
    destruct_packet p. cbn in *. subst. reflexivity.
  - apply (setfield_udp_sum_dissected E p sport dport ulen s v a b c d); assumption.
Qed.

(** C2, as the code has it.  For a UDP packet (built from fields or
    dissected from bytes) whose lower layer has byte
    string addresses [src] and [dst], whose header values fit their fields
    and whose header and body together are shorter than 65536 bytes,
    [_calc_sum] stores in [sum] the value of [in_cksum] over the pseudo
    header, the header packed with [sum = 0], and the body; a zero result is
    replaced by [0xffff], so that the stored value and the two checksum bytes
    of the header packed afterwards are not zero. *)
Theorem UDP_calc_sum_checksum (E : Env) (in_cksum : bytes -> Z) (fuel : nat)
    (p pb : Packet) (sport dport ulen sum : Z) (ll : LowerLayer)
    (src dst body : bytes) :
  (forall b, 0 <= in_cksum b < 65536) ->
  udp_packet p sport dport ulen sum ->
  _changelistener p = [] ->
  _lower_layer p = Some ll ->
  ll_src ll = Some (VBytes src) ->
  ll_dst ll = Some (VBytes dst) ->
  _get_bodybytes fuel p = (pb, Ok (Some body)) ->
  0 <= sport < 65536 -> 0 <= dport < 65536 -> 0 <= ulen < 65536 ->
  8 + len body < 65536 ->
  let pseudo := udp_pseudo src dst (8 + len body) in
  let c := in_cksum (pseudo ++ udp_header sport dport ulen 0 ++ body) in
  let csum := if c =? 0 then 0xffff else c in
  UDP.pseudo_header (VBytes src) (VBytes dst) (8 + len body) = Ok pseudo /\
  exists p',
    UDP._calc_sum E in_cksum fuel p = (p', Ok tt) /\
    _fields p' = udp_fields sport dport ulen csum /\
    csum <> 0 /\
    (_pack_header p').2 = Ok (Some (udp_header sport dport ulen csum)) /\
    uint_be 2 csum <> [x00; x00].
Proof.
  intros Hck Hu Hl Hll Hsrc Hdst Hbody Hsp Hdp Hul Hlen pseudo c csum.
  assert (Hps : UDP.pseudo_header (VBytes src) (VBytes dst) (8 + len body) = Ok pseudo).
  { apply pseudo_header_bytes. pose proof (len_nonneg body). lia. }
  split; [exact Hps|].
  assert (Hcs : 0 < csum < 65536).
  { unfold csum. pose proof (Hck (pseudo ++ udp_header sport dport ulen 0 ++ body)).
    fold c in H. destruct (c =? 0) eqn:Hc; [lia|]. apply Z.eqb_neq in Hc. lia. }
  assert (Hhl : len (udp_header sport dport ulen 0 ++ body) = 8 + len body).
  { unfold len, udp_header. rewrite !length_app, !length_uint_be. lia. }
  unfold UDP._calc_sum, try_except. rewrite Hll, Hsrc, Hdst.
  unfold bind at 1.
  rewrite (setfield_udp_sum_any E p sport dport ulen sum 0 Hu Hl) by assumption.
  cbv beta iota.
  set (p1 := set_header_changed true
               (set_fields (udp_fields sport dport ulen 0)
                  (set_unpacked (Some true) p))).
  assert (Hu1 : udp_unpacked p1 sport dport ulen 0 /\ _header_changed p1 = true
                /\ _changelistener p1 = []
                /\ _body_bytes p = _body_bytes p1 /\ _bodytypename p = _bodytypename p1
                /\ _lazy_handler_data p = _lazy_handler_data p1
                /\ _handler_attr p = _handler_attr p1).
  { destruct Hu as (Hfmt & Hhfc & _). unfold p1. clear -Hfmt Hhfc Hl.
    destruct_packet p. cbn in *. subst. repeat split. }
  destruct Hu1 as (Hu1 & Hc1 & Hl1 & Hb1 & Hb2 & Hb3 & Hb4).
  unfold bind at 1.
  rewrite (pack_header_udp p1 sport dport ulen 0 Hu1 Hc1) by lia.
  cbv beta iota.
  set (p2 := set_header_changed false
               (set_header_cached (udp_header sport dport ulen 0) p1)).
  assert (Hu2 : udp_unpacked p2 sport dport ulen 0 /\ _changelistener p2 = []
                /\ _body_bytes p = _body_bytes p2 /\ _bodytypename p = _bodytypename p2
                /\ _lazy_handler_data p = _lazy_handler_data p2
                /\ _handler_attr p = _handler_attr p2).
  { destruct Hu1 as (Hf & Hfmt & Hhfc & Hup). unfold p2.
    rewrite Hb1, Hb2, Hb3, Hb4.
    clear -Hf Hfmt Hhfc Hup Hl1. destruct_packet p1. cbn in *. subst. repeat split. }
  destruct Hu2 as (Hu2 & Hl2 & Hc1' & Hc2 & Hc3 & Hc4).
  unfold bind at 1.
  rewrite (get_bodybytes_body_only fuel p p2 Hc1' Hc2 Hc3 Hc4), Hbody.
  cbn [fst snd]. cbv beta iota. rewrite Hhl, Hps. fold c. fold csum.
  set (p3 := set_handler_attr (_handler_attr pb) p2).
  assert (Hu3 : udp_unpacked p3 sport dport ulen 0 /\ _changelistener p3 = []).
  { destruct Hu2 as (Hf & Hfmt & Hhfc & Hup). unfold p3.
    clear -Hf Hfmt Hhfc Hup Hl2. destruct_packet p2. cbn in *. subst. repeat split. }
  destruct Hu3 as (Hu3 & Hl3).
  rewrite (setfield_udp_sum E p3 sport dport ulen 0 csum Hu3 Hl3).
  eexists. split; [reflexivity|].
  set (p4 := set_header_changed true (set_fields (udp_fields sport dport ulen csum) p3)).
  assert (Hu4 : udp_unpacked p4 sport dport ulen csum /\ _header_changed p4 = true).
  { destruct Hu3 as (Hf & Hfmt & Hhfc & Hup). unfold p4.
    clear -Hf Hfmt Hhfc Hup. destruct_packet p3. cbn in *. subst. repeat split. }
  destruct Hu4 as (Hu4 & Hc4').
  split; [apply Hu4|]. split; [lia|].
  split; [|apply uint_be_2_nonzero; exact Hcs].
  rewrite (pack_header_udp p4 sport dport ulen csum Hu4 Hc4') by lia.
  reflexivity.
Qed.

(** The checksum of the example environment stays in 16 bits. *)
Lemma ones_complement_add_range a b :
  0 <= a < 65536 -> 0 <= b < 65536 -> 0 <= ones_complement_add a b < 65536.
Proof.
  intros Ha Hb. unfold ones_complement_add.
  pose proof (Z.div_mod (a + b) 65536 ltac:(lia)) as Hdm.
  pose proof (Z.mod_pos_bound (a + b) 65536 ltac:(lia)) as Hm.
  assert (0 <= (a + b) / 65536 <= 1) as Hq
    by (split; [apply Z.div_pos; lia | apply Z.lt_succ_r, Z.div_lt_upper_bound; lia]).
  lia.
Qed.

Lemma words16_range b : Forall (fun w => 0 <= w < 65536) (words16 b).
Proof.
  assert (forall n (l : bytes), (length l <= n)%nat ->
            Forall (fun w => 0 <= w < 65536) (words16 l)) as H.
  { induction n as [|n IH]; intros l Hl.
    - destruct l; [constructor|cbn in Hl; lia].
    - destruct l as [|x [|y l]]; cbn [words16].
      + constructor.
      + constructor; [|constructor]. pose proof (byte_to_Z_range x). lia.
      + constructor.
        * pose proof (byte_to_Z_range x). pose proof (byte_to_Z_range y). lia.
        * apply IH. cbn in Hl. lia. }
  apply (H (length b)). lia.
Qed.

Lemma in_cksum_spec_range b : 0 <= in_cksum_spec b < 65536.
Proof.
  unfold in_cksum_spec. pose proof (words16_range b) as Hw.
  assert (forall ws acc, Forall (fun w => 0 <= w < 65536) ws -> 0 <= acc < 65536 ->
            0 <= foldl ones_complement_add acc ws < 65536) as H.
  { induction ws as [|w ws IH]; intros acc Hws Hacc; [exact Hacc|].
    inversion Hws; subst. cbn. apply IH; [assumption|].
    apply ones_complement_add_range; assumption. }
  apply H; [exact Hw|lia].
Qed.

Lemma UDP_calc_sum_checksum_witness :
  let p := set_lower_layer (Some lower_changed) (UDP.new env0 udp_ping None) in
  let body := [x70; x69; x6e; x67] in
  let pseudo := udp_pseudo ip_a ip_b (8 + len body) in
  let c := in_cksum_spec (pseudo ++ udp_header 1234 53 12 0 ++ body) in
  let csum := if c =? 0 then 0xffff else c in
  UDP.pseudo_header (VBytes ip_a) (VBytes ip_b) (8 + len body) = Ok pseudo /\
  exists p',
    UDP._calc_sum env0 in_cksum_spec 1 p = (p', Ok tt) /\
    _fields p' = udp_fields 1234 53 12 csum /\
    csum <> 0 /\
    (_pack_header p').2 = Ok (Some (udp_header 1234 53 12 csum)) /\
    uint_be 2 csum <> [x00; x00].
Proof.
  intros p.
  apply (UDP_calc_sum_checksum env0 in_cksum_spec 1 p p 1234 53 12 0
           lower_changed ip_a ip_b [x70; x69; x6e; x67]).
  - apply in_cksum_spec_range.
  - split; [reflexivity|]. split; [reflexivity|]. right.
    split; [reflexivity|]. split; [lia|]. split; [reflexivity|].
    exists 0xdead, 0, 8, 0. reflexivity.
  - reflexivity.
  - reflexivity.
  - reflexivity.
  - reflexivity.
  - reflexivity.
  - lia.
  - lia.
  - lia.
  - reflexivity.
Defined.

(** *** A datagram too long for the 16-bit length of the pseudo header *)

Lemma slice_app_to {A} (l1 l2 : list A) :
  slice (l1 ++ l2) None (Some (len l1)) = l1.
Proof.
  unfold slice, clamp_index, len. rewrite length_app.
  destruct (Z.of_nat (length l1) <? 0) eqn:H; [apply Z.ltb_lt in H; lia|].
  rewrite drop_0. replace (_ - 0) with (Z.of_nat (length l1)) by lia.
  rewrite Nat2Z.id. apply take_app_length.
Qed.

Lemma slice_app_from {A} (l1 l2 : list A) :
  slice (l1 ++ l2) (Some (len l1)) None = l2.
Proof.
  unfold slice, clamp_index, len. rewrite length_app.
  destruct (Z.of_nat (length l1) <? 0) eqn:H; [apply Z.ltb_lt in H; lia|].
  replace (Z.min _ _) with (Z.of_nat (length l1)) by lia.
  rewrite Nat2Z.id, drop_app_length. apply take_ge. lia.
Qed.

Lemma slice_app_within {A} (l1 l2 : list A) (a b : Z) :
  0 <= a -> 0 <= b <= len l1 ->
  slice (l1 ++ l2) (Some a) (Some b) = slice l1 (Some a) (Some b).
Proof.
  intros Ha Hb. unfold slice, clamp_index, len in *. rewrite length_app.
  destruct (a <? 0) eqn:H1; [apply Z.ltb_lt in H1; lia|].
  destruct (b <? 0) eqn:H2; [apply Z.ltb_lt in H2; lia|].
  replace (Z.min b (Z.of_nat (length l1 + length l2))) with b by lia.
  replace (Z.min b (Z.of_nat (length l1))) with b by lia.
  destruct (Z.le_gt_cases a (Z.of_nat (length l1))) as [Hle|Hgt].
  - replace (Z.min a (Z.of_nat (length l1 + length l2))) with a by lia.
    replace (Z.min a (Z.of_nat (length l1))) with a by lia.
    rewrite drop_app_le by lia. rewrite take_app_le; [reflexivity|].
    rewrite length_drop. lia.
  - replace (Z.to_nat (b - _)) with O by lia.
    replace (Z.to_nat (b - _)) with O by lia. reflexivity.
Qed.

Lemma len_udp_header sport dport ulen s : len (udp_header sport dport ulen s) = 8.
Proof. unfold len, udp_header. rewrite !length_app, !length_uint_be. reflexivity. Qed.

Lemma pseudo_header_too_long src dst n :
  65536 <= n -> UDP.pseudo_header (VBytes src) (VBytes dst) n = Raise StructError.
Proof.
  intros Hn. unfold UDP.pseudo_header, py_len.
  destruct (len src =? 4); unfold Struct_pack, UDP.pseudo4, UDP.pseudo16;
    cbn [st_order st_items pack_items pack_one];
    rewrite (encode_uint_out_of_range BigEndian 2 n) by (cbn; lia);
    repeat (destruct (encode_uint _ _ _)); reflexivity.
Qed.

(** When header and body are 65536 bytes or more, [_calc_sum] sets [sum]
    to zero, fails to pack the pseudo header, and leaves it at that. *)
Lemma UDP_calc_sum_oversize E in_cksum fuel p pb sport dport ulen s ll src dst body :
  udp_packet p sport dport ulen s ->
  _changelistener p = [] ->
  _lower_layer p = Some ll ->
  ll_src ll = Some (VBytes src) ->
  ll_dst ll = Some (VBytes dst) ->
  _get_bodybytes fuel p = (pb, Ok (Some body)) ->
  0 <= sport < 65536 -> 0 <= dport < 65536 -> 0 <= ulen < 65536 ->
  65536 <= 8 + len body ->
  UDP._calc_sum E in_cksum fuel p =
    (set_handler_attr (_handler_attr pb)
       (set_header_changed false
          (set_header_cached (udp_header sport dport ulen 0)
             (set_header_changed true
                (set_fields (udp_fields sport dport ulen 0)
                   (set_unpacked (Some true) p))))), Ok tt).
Proof.
  intros Hu Hl Hll Hsrc Hdst Hbody Hsp Hdp Hul Hlen.
  assert (Hhl : len (udp_header sport dport ulen 0 ++ body) = 8 + len body).
  { pose proof (len_udp_header sport dport ulen 0) as H8.
    unfold len in *. rewrite length_app. lia. }
  unfold UDP._calc_sum, try_except. rewrite Hll, Hsrc, Hdst.
  unfold bind at 1.
  rewrite (setfield_udp_sum_any E p sport dport ulen s 0 Hu Hl) by assumption.
  cbv beta iota.
  set (p1 := set_header_changed true
               (set_fields (udp_fields sport dport ulen 0)
                  (set_unpacked (Some true) p))).
  assert (Hu1 : udp_unpacked p1 sport dport ulen 0 /\ _header_changed p1 = true
                /\ _body_bytes p = _body_bytes
                     (set_header_changed false
                        (set_header_cached (udp_header sport dport ulen 0) p1))
                /\ _bodytypename p = _bodytypename
                     (set_header_changed false
                        (set_header_cached (udp_header sport dport ulen 0) p1))
                /\ _lazy_handler_data p = _lazy_handler_data
                     (set_header_changed false
                        (set_header_cached (udp_header sport dport ulen 0) p1))
                /\ _handler_attr p = _handler_attr
                     (set_header_changed false
                        (set_header_cached (udp_header sport dport ulen 0) p1))).
  { destruct Hu as (Hfmt & Hhfc & _). unfold p1. clear -Hfmt Hhfc.
    destruct_packet p. cbn in *. subst. repeat split. }
  destruct Hu1 as (Hu1 & Hc1 & Hb1 & Hb2 & Hb3 & Hb4).
  unfold bind at 1.
  rewrite (pack_header_udp p1 sport dport ulen 0 Hu1 Hc1) by lia.
  cbv beta iota. unfold bind at 1.
  rewrite (get_bodybytes_body_only fuel p _ Hb1 Hb2 Hb3 Hb4), Hbody.
  cbn [fst snd]. cbv beta iota.
  rewrite Hhl, pseudo_header_too_long by exact Hlen.
  reflexivity.
Qed.

Lemma slice_udp_header_sport sport dport ulen s :
  slice (udp_header sport dport ulen s) (Some 0) (Some 2) = uint_be 2 sport.
Proof.
  unfold slice. rewrite len_udp_header. cbn. unfold udp_header.
  apply take_app_length'. symmetry. apply length_uint_be.
Qed.

Lemma slice_udp_header_dport sport dport ulen s :
  slice (udp_header sport dport ulen s) (Some 2) (Some 4) = uint_be 2 dport.
Proof.
  unfold slice. rewrite len_udp_header. cbn. unfold udp_header.
  rewrite drop_app_length' by (symmetry; apply length_uint_be).
  apply take_app_length'. symmetry. apply length_uint_be.
Qed.

(** [UDP(buf)] for a buffer made of a header whose ports are not
    registered and a body. *)
Lemma UDP_new_unregistered E tbl sport dport ulen s body :
  handlers E !! "UDP"%string = Some tbl ->
  tbl !! sport = None -> tbl !! dport = None ->
  0 <= sport < 65536 -> 0 <= dport < 65536 ->
  UDP.new E (udp_header sport dport ulen s ++ body) None =
    set_unpacked (Some false)
      (_reset_changed
         (set_body_bytes (Some body)
            (set_header_cached (udp_header sport dport ulen s)
               (set_header_len 8 UDP.cls)))).
Proof.
  intros Ht Hs Hd H1 H2. unfold UDP.new.
  assert (UDP._dissect E (udp_header sport dport ulen s ++ body) UDP.cls
          = (UDP.cls, Ok 8)) as H.
  { unfold UDP._dissect.
    rewrite !slice_app_within by (rewrite ?len_udp_header; lia).
    rewrite slice_udp_header_sport, slice_udp_header_dport.
    unfold UDP.unpack_H, len. rewrite !length_uint_be.
    change (Z.of_nat 2 =? 2) with true. cbv iota.
    rewrite !decode_uint_be by (cbn; lia).
    unfold_m. rewrite Ht. cbn [List.filter]. rewrite Hs, Hd. reflexivity. }
  rewrite (init_ok _ _ _ _ _ H).
  pose proof (slice_app_to (udp_header sport dport ulen s) body) as Ha.
  pose proof (slice_app_from (udp_header sport dport ulen s) body) as Hb.
  rewrite len_udp_header in Ha, Hb.
  cbn zeta. rewrite Ha, Hb. reflexivity.
Qed.

Lemma method_bin_UDP E cks fuel uaf p :
  _class_name p = "UDP"%string ->
  method_bin E cks (S fuel) uaf p = UDP.bin E cks (S fuel) (method_bin E cks fuel) uaf p.
Proof. intros H. cbn [method_bin]. rewrite H. reflexivity. Qed.

(** [bin()] with auto-field update of a dissected UDP datagram of 65536
    bytes or more, below a lower layer whose header changed: the checksum
    bytes of the result are zero, whatever they were in the input. *)
Lemma UDP_bin_oversize E in_cksum fuel tbl sport dport ulen s body ll src dst :
  handlers E !! "UDP"%string = Some tbl ->
  tbl !! sport = None -> tbl !! dport = None ->
  0 <= sport < 65536 -> 0 <= dport < 65536 -> 0 <= ulen < 65536 -> 0 <= s < 65536 ->
  65536 <= 8 + len body ->
  ll_header_changed ll = true ->
  ll_src ll = Some (VBytes src) -> ll_dst ll = Some (VBytes dst) ->
  let p := set_lower_layer (Some ll)
             (UDP.new E (udp_header sport dport ulen s ++ body) None) in
  _dissect_error p = false /\
  (method_bin E in_cksum (S (S fuel)) true p).2
    = Ok (udp_header sport dport ulen 0 ++ body).
Proof.
  intros Ht Hs Hd H1 H2 H3 H4 Hlen Hllc Hsrc Hdst p.
  unfold p. rewrite (UDP_new_unregistered E tbl) by assumption.
  split; [reflexivity|].
  match goal with |- context [method_bin _ _ _ _ ?q] => set (p0 := q) end.
  rewrite method_bin_UDP by reflexivity.
  assert (_changed p0 = Ok false) as Hch by reflexivity.
  assert (_lower_layer p0 = Some ll) as Hll by reflexivity.
  unfold UDP.bin. unfold bind at 1. cbv beta iota. rewrite Hch.
  unfold bind at 1 2. unfold ret at 1. unfold gets. cbv beta iota.
  rewrite Hll, Hllc. cbn [negb]. cbv beta iota.
  assert (Hcs := UDP_calc_sum_oversize E in_cksum (S (S fuel)) p0 p0
                   sport dport ulen s ll src dst body).
  rewrite Hcs; try assumption; try reflexivity.
  split; [reflexivity|]. split; [reflexivity|]. right.
    split; [reflexivity|]. split; [assumption|]. split; [reflexivity|].
    exists 0xdead, 0, 8, 0. reflexivity.
Qed.

(** C2, as the claim states it, fails: a UDP datagram of 65536 bytes
    with the checksum [0x1234], below a lower layer that provides [src] and
    [dst] and whose header changed, is serialized by the auto-field update
    with the checksum bytes [00 00]. *)
Lemma UDP_checksum_zero_when_oversize :
  let p := set_lower_layer (Some lower_changed)
             (UDP.new env0 (udp_header 1 2 65535 0x1234 ++ big_body) None) in
  _dissect_error p = false /\
  ll_src lower_changed = Some (VBytes ip_a) /\
  ll_dst lower_changed = Some (VBytes ip_b) /\
  (method_bin env0 in_cksum_spec 2 true p).2
    = Ok ([x00; x01; x00; x02; xff; xff; x00; x00] ++ big_body).
Proof.
  assert (Hlen : 65536 <= 8 + len big_body).
  { unfold len, big_body. rewrite length_replicate. lia. }
  destruct (UDP_bin_oversize env0 in_cksum_spec 0 UDP.handler_table
              1 2 65535 0x1234 big_body lower_changed ip_a ip_b)
    as [Hd Hb]; try reflexivity; try lia; try exact Hlen.
  split; [exact Hd|]. split; [reflexivity|]. split; [reflexivity|]. exact Hb.
Qed.

(** ** Instances of the theorems above *)

Lemma set_body_bytes_frame_witness :
  let p := UDP.new env0 udp_ping None in
  exists p',
    _set_body_bytes env0 [x01; x02] p = (p', Ok tt) /\
    _body_bytes p' = Some [x01; x02] /\
    _bodytypename p' = None /\
    _lazy_handler_data p' = None /\
    _body_changed p' = true /\
    _get_bodyhandler env0 p' = (p', Ok None) /\
    _fields p' = _fields p /\
    _header_cached p' = _header_cached p /\
    _header_len p' = _header_len p /\
    _header_changed p' = _header_changed p /\
    _header_format p' = _header_format p /\
    _header_format_changed p' = _header_format_changed p /\
    _unpacked p' = _unpacked p.
Proof.
  apply (set_body_bytes_frame env0 [x01; x02] (UDP.new env0 udp_ping None));
    reflexivity.
Defined.

Lemma init_handler_unknown_type_witness :
  exists p',
    _init_handler env0 9999 [x01; x02] UDP.cls = (p', Ok tt) /\
    _body_bytes p' = Some [x01; x02] /\
    _bodytypename p' = None /\
    _lazy_handler_data p' = None /\
    _get_bodyhandler env0 p' = (p', Ok None).
Proof.
  apply (init_handler_unknown_type env0 9999 [x01; x02] UDP.cls);
    [reflexivity | reflexivity | reflexivity | left; discriminate].
Defined.

(** Source port 53 (DNS) and destination port 123 (NTP) are both
    registered: the handler is the one of the source port. *)
Lemma UDP_source_port_first_witness :
  let buf := [x00; x35; x00; x7b; x00; x0c; x00; x00; x01; x02; x03; x04] in
  let p := UDP.new env0 buf None in
  _dissect_error p = false /\
  _lazy_handler_data p = Some (lower "DNS", "DNS"%string, slice buf (Some 8) None) /\
  _bodytypename p = Some (lower "DNS").
Proof.
  apply (UDP_source_port_first env0 UDP.handler_table
           [x00; x35; x00; x7b; x00; x0c; x00; x00; x01; x02; x03; x04] "DNS");
    [reflexivity | reflexivity | left; reflexivity].
Defined.
(** ** Packing a header value that is out of range *)

(** [struct.pack] fails when an integer argument does not fit its format. *)
Lemma pack_items_out_of_range o items args i f z :
  Forall (fun g => g <> Fx) items ->
  items !! i = Some f -> args !! i = Some (VInt z) ->
  int_format f = true -> ~ (0 <= z < 256 ^ Z.of_nat (item_size f)) ->
  pack_items o items args = None.
Proof.
  intros Hx. revert args i. induction Hx as [|g items Hg Hx IH]; intros args i Hi Ha Hf Hz.
  - destruct i; discriminate.
  - destruct i as [|i].
    + cbn in Hi, Ha. injection Hi as ->. destruct args as [|v args]; [discriminate|].
      cbn in Ha. injection Ha as ->.
      destruct f; try discriminate; cbn [pack_items pack_one];
        rewrite encode_uint_out_of_range by exact Hz; reflexivity.
    + destruct args as [|v args]; [discriminate|]. cbn in Hi, Ha.
      specialize (IH args i Hi Ha Hf Hz).
      destruct g; try congruence; cbn [pack_items]; rewrite IH;
        destruct (pack_one o _ v); reflexivity.
Qed.

(** The handler object behind the attribute is no part of the header. *)
Lemma put_handler_header h' p :
  _fields (put_handler h' p) = _fields p /\
  _header_format (put_handler h' p) = _header_format p /\
  _header_changed (put_handler h' p) = _header_changed p /\
  _header_format_changed (put_handler h' p) = _header_format_changed p /\
  _unpacked (put_handler h' p) = _unpacked p.
Proof.
  unfold put_handler. destruct (_handler_attr p) as [[n0 h0]|]; [|tauto].
  destruct_packet p. cbn. tauto.
Qed.

Lemma update_header_format_put_handler h' p :
  _update_header_format (put_handler h' p)
    = (put_handler h' (_update_header_format p).1, (_update_header_format p).2).
Proof.
  destruct_packet p. destruct ha as [[n0 h0]|];
    unfold put_handler, _update_header_format;
    cbn [_handler_attr _fields set_handler_attr];
    destruct (header_format_items fs) as [fs0 [l0|e0]];
    try destruct (join_formats l0); reflexivity.
Qed.

(** [_pack_header] of a packet whose header changed and whose fields are
    unpacked, when one of the values to pack is an integer outside the range
    of its format: the result is [None]. *)
Lemma pack_header_None (p p1 : Packet) (fs' : list field) (vals : list value)
    (i : nat) (f : fmt_item) (z : Z) :
  _header_changed p = true ->
  _unpacked p = Some true ->
  (if _header_format_changed p then _update_header_format else ret tt) p = (p1, Ok tt) ->
  header_values (_fields p1) = (fs', Ok vals) ->
  Forall (fun g => g <> Fx) (st_items (_header_format p1)) ->
  st_items (_header_format p1) !! i = Some f ->
  vals !! i = Some (VInt z) ->
  int_format f = true ->
  ~ (0 <= z < 256 ^ Z.of_nat (item_size f)) ->
  _pack_header p = (set_fields fs' p1, Ok None).
Proof.
  intros Hc Hu Hprep Hv Hx Hi Ha Hf Hz.
  assert (Hp : Struct_pack (_header_format p1) vals = None).
  { unfold Struct_pack. eapply pack_items_out_of_range; eassumption. }
  unfold _pack_header. rewrite Hc. cbn [negb].
  unfold not_unpacked. rewrite Hu. unfold bind at 1. rewrite Hprep, Hv.
  replace (_header_format (set_fields fs' p1)) with (_header_format p1)
    by (destruct p1; reflexivity).
  rewrite Hp. reflexivity.
Qed.

(** The same for the packet whose handler object was replaced. *)
Lemma pack_header_None_put_handler (h' p p1 : Packet) (fs' : list field)
    (vals : list value) (i : nat) (f : fmt_item) (z : Z) :
  _header_changed p = true ->
  _unpacked p = Some true ->
  (if _header_format_changed p then _update_header_format else ret tt) p = (p1, Ok tt) ->
  header_values (_fields p1) = (fs', Ok vals) ->
  Forall (fun g => g <> Fx) (st_items (_header_format p1)) ->
  st_items (_header_format p1) !! i = Some f ->
  vals !! i = Some (VInt z) ->
  int_format f = true ->
  ~ (0 <= z < 256 ^ Z.of_nat (item_size f)) ->
  _pack_header (put_handler h' p) = (set_fields fs' (put_handler h' p1), Ok None).
Proof.
  intros Hc Hu Hprep Hv Hx Hi Ha Hf Hz.
  destruct (put_handler_header h' p) as (_ & _ & Hc' & Hfc' & Hu').
  destruct (put_handler_header h' p1) as (Hfs1 & Hhf1 & _).
  apply (pack_header_None _ (put_handler h' p1) fs' vals i f z);
    rewrite ?Hc', ?Hu', ?Hfs1, ?Hhf1; try assumption.
  rewrite Hfc'. destruct (_header_format_changed p).
  - rewrite update_header_format_put_handler, Hprep. reflexivity.
  - unfold ret in *. injection Hprep as <-. reflexivity.
Qed.

(** C6, as the code has it.  The packet's header changed, its fields are
    unpacked, and one of the values to pack is an integer outside the range
    of its format; [p1] is the packet once [_pack_header] has brought the
    header format up to date.  Then [_pack_header] returns [None] without
    raising.  [Packet.bin] never returns [None], and nothing else: it
    raises.  What it raises is [TypeError], from adding the body bytes to
    [None], when the body is raw bytes or lazy handler data, and when the
    body handler's [bin] returned bytes; when the body handler's [bin]
    raises, that exception is the one raised. *)
Theorem pack_header_out_of_range (E : Env) (p p1 : Packet) (fs' : list field)
    (vals : list value) (i : nat) (f : fmt_item) (z : Z) :
  _header_changed p = true ->
  _unpacked p = Some true ->
  (if _header_format_changed p then _update_header_format else ret tt) p = (p1, Ok tt) ->
  header_values (_fields p1) = (fs', Ok vals) ->
  Forall (fun g => g <> Fx) (st_items (_header_format p1)) ->
  st_items (_header_format p1) !! i = Some f ->
  vals !! i = Some (VInt z) ->
  int_format f = true ->
  ~ (0 <= z < 256 ^ Z.of_nat (item_size f)) ->
  _pack_header p = (set_fields fs' p1, Ok None) /\
  forall (handler_bin : bool -> M bytes) (update_auto_fields : bool),
    (exists e, (bin E handler_bin update_auto_fields p).2 = Raise e) /\
    (_lazy_handler_data p <> None \/ _bodytypename p = None ->
     (bin E handler_bin update_auto_fields p).2 = Raise TypeError) /\
    (forall h,
       _lazy_handler_data p = None ->
       _get_bodyhandler E p = (p, Ok (Some h)) ->
       (bin E handler_bin update_auto_fields p).2 =
         match (handler_bin update_auto_fields (deref_lower p h)).2 with
         | Ok _ => Raise TypeError
         | Raise e => Raise e
         end).
Proof.
  intros Hc Hu Hprep Hv Hx Hi Ha Hf Hz.
  pose proof (pack_header_None p p1 fs' vals i f z Hc Hu Hprep Hv Hx Hi Ha Hf Hz) as Hph.
  split; [exact Hph|]. intros hb uaf.
  assert (Hraw : _lazy_handler_data p <> None \/ _bodytypename p = None ->
                 (bin E hb uaf p).2 = Raise TypeError).
  { intros Hb. unfold bin.
    destruct (_lazy_handler_data p) as [[[n0 clz0] b0]|] eqn:Hlz.
    - rewrite Hph. reflexivity.
    - destruct Hb as [Hb|Hb]; [congruence|]. rewrite Hb, Hph.
      destruct (_body_bytes p); reflexivity. }
  assert (Hhnd : forall h,
             _lazy_handler_data p = None ->
             _get_bodyhandler E p = (p, Ok (Some h)) ->
             (bin E hb uaf p).2 =
               match (hb uaf (deref_lower p h)).2 with
               | Ok _ => Raise TypeError
               | Raise e => Raise e
               end).
  { intros h Hlz Hg. unfold bin. rewrite Hlz.
    destruct (_bodytypename p) as [n0|] eqn:Hbt.
    - rewrite Hg. destruct (hb uaf (deref_lower p h)) as [h' [b|e]]; [|reflexivity].
      cbn [snd].
      rewrite (pack_header_None_put_handler h' p p1 fs' vals i f z
                 Hc Hu Hprep Hv Hx Hi Ha Hf Hz).
      reflexivity.
    - unfold _get_bodyhandler in Hg. rewrite Hlz, Hbt in Hg. discriminate. }
  split; [|split; [exact Hraw|exact Hhnd]].
  destruct (_lazy_handler_data p) as [lz0|] eqn:Hlz.
  - exists TypeError. apply Hraw. left. discriminate.
  - destruct (_bodytypename p) as [n0|] eqn:Hbt.
    + destruct (_get_bodyhandler E p) as [q [[h|]|e]] eqn:Hg.
      * assert (q = p) as ->.
        { unfold _get_bodyhandler in Hg. rewrite Hlz, Hbt in Hg.
          unfold bind, getattr_bodytype, ret in Hg. rewrite Hbt in Hg.
          destruct (_handler_attr p) as [[n' h0]|]; [|discriminate].
          destruct (String.eqb n0 n'); [|discriminate]. congruence. }
        rewrite (Hhnd h eq_refl eq_refl).
        destruct (hb uaf (deref_lower p h)).2 as [b|e]; eauto.
      * exists AttributeError. unfold bin. rewrite Hlz, Hbt, Hg. reflexivity.
      * exists e. unfold bin. rewrite Hlz, Hbt, Hg. reflexivity.
    + exists TypeError. apply Hraw. right. reflexivity.
Qed.

Lemma pack_header_out_of_range_witness :
  _pack_header udp_ping_sport_70000
    = (set_fields (_fields udp_ping_sport_70000) udp_ping_sport_70000, Ok None) /\
  forall (handler_bin : bool -> M bytes) (update_auto_fields : bool),
    (exists e,
       (bin env_plain handler_bin update_auto_fields udp_ping_sport_70000).2 = Raise e) /\
    (_lazy_handler_data udp_ping_sport_70000 <> None
     \/ _bodytypename udp_ping_sport_70000 = None ->
     (bin env_plain handler_bin update_auto_fields udp_ping_sport_70000).2
       = Raise TypeError) /\
    (forall h,
       _lazy_handler_data udp_ping_sport_70000 = None ->
       _get_bodyhandler env_plain udp_ping_sport_70000
         = (udp_ping_sport_70000, Ok (Some h)) ->
       (bin env_plain handler_bin update_auto_fields udp_ping_sport_70000).2 =
         match (handler_bin update_auto_fields
                  (deref_lower udp_ping_sport_70000 h)).2 with
         | Ok _ => Raise TypeError
         | Raise e => Raise e
         end).
Proof.
  apply (pack_header_out_of_range env_plain udp_ping_sport_70000 udp_ping_sport_70000
           (_fields udp_ping_sport_70000)
           [VInt 70000; VInt 53; VInt 12; VInt 0] 0 FH 70000);
    try reflexivity.
  - repeat constructor; discriminate.
  - cbn. lia.
Defined.

(** C6, as the claim states it, fails: for [UDP()] with [sport = 70000],
    [bin()] raises [TypeError]; it returns nothing. *)
Lemma bin_out_of_range_raises :
  (method_bin env0 in_cksum_spec 2 false udp_sport_70000).2 = Raise TypeError /\
  (method_bin env0 in_cksum_spec 2 true udp_sport_70000).2 = Raise TypeError.
Proof. split; vm_compute; reflexivity. Qed.

(** * Further properties of the engine *)

(** ** Round trips *)

Arguments slice : simpl never.

Lemma UDP_bin_roundtrip_witness :
  (method_bin env0 in_cksum_spec 1 false (UDP.new env0 udp_ping None)).2 = Ok udp_ping.
Proof. apply (UDP_bin_roundtrip env0 in_cksum_spec 0 udp_ping). reflexivity. Defined.

(** What [MetaPacket.__new__] gives every class, whatever its [__hdr__]. *)
Lemma MetaPacket_new_attrs clsname hdrs order cls :
  MetaPacket_new clsname hdrs order = Some cls ->
  _class_name cls = clsname /\
  _header_changed cls = false /\ _header_format_changed cls = false /\
  _body_changed cls = false /\ _body_bytes cls = Some [] /\
  _bodytypename cls = None /\ _lazy_handler_data cls = None /\
  _handler_attr cls = None /\ _lower_layer cls = None /\
  _changelistener cls = [] /\ _target_unpack_clz cls = None /\
  _unpacked cls = None /\ _dissect_error cls = false /\
  _header_len cls = Struct_size (_header_format cls) /\
  Struct_pack (_header_format cls) (map snd (omap snd (map meta_field hdrs)))
    = Some (_header_cached cls).
Proof.
  unfold MetaPacket_new. intros H.
  destruct (join_formats _) as [items|]; [|discriminate].
  destruct (Struct_pack _ _) as [cached|] eqn:Hp; [|discriminate].
  injection H as <-. repeat (split; [reflexivity|]). exact Hp.
Qed.

(** The body of a packet built from bytes by a class that inherits
    [Packet._dissect]. *)
Lemma init_inherited clsname hdrs order cls buf :
  MetaPacket_new clsname hdrs order = Some cls ->
  __init__ cls _dissect buf None =
    set_unpacked (Some false)
      (_reset_changed
         (set_body_bytes (Some (slice buf (Some (_header_len cls)) None))
            (set_header_cached (slice buf None (Some (_header_len cls)))
               (set_header_len (_header_len cls) cls)))).
Proof.
  intros H. apply MetaPacket_new_attrs in H.
  destruct H as (_ & _ & _ & Hbc & _).
  rewrite (init_ok cls _dissect buf cls (_header_len cls)) by reflexivity.
  destruct_packet cls. cbn in Hbc. subst. reflexivity.
Qed.

(** For a class that does not overwrite [_dissect], every buffer is
    accepted and serialized back as it was, also one that is shorter than
    the header of the class. *)
Theorem Packet_bin_roundtrip (E : Env) (handler_bin : bool -> M bytes)
    (update_auto_fields : bool) (clsname : string) (hdrs : list hdr_entry)
    (order : byte_order) (cls : Packet) (buf : bytes) :
  MetaPacket_new clsname hdrs order = Some cls ->
  let p := __init__ cls _dissect buf None in
  _dissect_error p = false /\
  (bin E handler_bin update_auto_fields p).2 = Ok buf.
Proof.
  intros H p. unfold p. rewrite (init_inherited _ _ _ _ _ H).
  destruct (MetaPacket_new_attrs _ _ _ _ H)
    as (_ & _ & _ & _ & _ & Hbt & Hlz & _ & _ & _ & _ & _ & Hde & _).
  split.
  - destruct_packet cls. cbn in *. exact Hde.
  - rewrite (bin_cached E _ _ _ (slice buf (Some (_header_len cls)) None)).
    + cbn [snd]. destruct_packet cls. cbn. f_equal. apply slice_split.
    + destruct_packet cls. reflexivity.
    + right. destruct_packet cls. cbn in *. subst. repeat split.
Qed.

Lemma Packet_bin_roundtrip_witness :
  let p := __init__ UDP.cls _dissect [x01; x02; x03] None in
  _dissect_error p = false /\
  (bin env0 (method_bin env0 in_cksum_spec 0) true p).2 = Ok [x01; x02; x03].
Proof.
  apply (Packet_bin_roundtrip env0 (method_bin env0 in_cksum_spec 0) true
           "UDP" UDP.__hdr__ BigEndian UDP.cls [x01; x02; x03]).
  reflexivity.
Defined.

(** ** [UDP(buf)]: what is accepted, its length and its fields *)

Lemma unpack_H_short buf a :
  0 <= a -> len buf < a + 2 ->
  UDP.unpack_H (slice buf (Some a) (Some (a + 2))) = Raise StructError.
Proof.
  intros H0 H. unfold UDP.unpack_H.
  destruct (len (slice buf (Some a) (Some (a + 2))) =? 2) eqn:Hl; [|reflexivity].
  apply Z.eqb_eq in Hl.
  assert (a + 2 <= len buf); [|lia].
  apply (slice_prefix_length buf a (a + 2)); lia.
Qed.

Lemma UDP_dissect_short E buf p :
  len buf < 4 -> exists e, UDP._dissect E buf p = (p, Raise e).
Proof.
  intros H. unfold UDP._dissect.
  destruct (UDP.unpack_H (slice buf (Some 0) (Some 2))) as [sport|e] eqn:H1; [|eauto].
  pose proof (unpack_H_short buf 2 ltac:(lia) ltac:(lia)) as H2.
  change (2 + 2) with 4 in H2. rewrite H2. eauto.
Qed.

Lemma UDP_dissect_ok E buf p :
  4 <= len buf -> exists p', UDP._dissect E buf p = (p', Ok 8).
Proof.
  intros H. unfold UDP._dissect.
  pose proof (unpack_H_slice buf 0 ltac:(lia) ltac:(lia)) as H0.
  pose proof (unpack_H_slice buf 2 ltac:(lia) ltac:(lia)) as H2.
  change (0 + 2) with 2 in H0. change (2 + 2) with 4 in H2. rewrite H0, H2.
  unfold bind, try_except, ret.
  match goal with |- context [match ?m p with _ => _ end] => destruct (m p) as [p' [[]|e]] end;
    eauto.
Qed.

(** [UDP(buf)] sets [dissect_error] exactly for the buffers that are too
    short to hold both ports. *)
Theorem UDP_dissect_error_iff (E : Env) (buf : bytes) :
  _dissect_error (UDP.new E buf None) = true <-> len buf < 4.
Proof.
  destruct (Z_lt_le_dec (len buf) 4) as [Hs|Hl].
  - split; [intros _; exact Hs|intros _].
    destruct (UDP_dissect_short E buf UDP.cls Hs) as [e H].
    unfold UDP.new. rewrite (init_raise _ _ _ _ _ H). reflexivity.
  - split; [|lia]. intros Hd. exfalso.
    destruct (UDP_dissect_ok E buf UDP.cls Hl) as [p' H'].
    destruct (UDP_dissect_fresh E buf UDP.cls eq_refl eq_refl eq_refl)
      as [[e H]|[H|[[clz H]|H]]]; [congruence| | |];
      unfold UDP.new in Hd; rewrite (init_ok _ _ _ _ _ H) in Hd; discriminate.
Qed.

(** [UDP(buf)] for a buffer of four bytes or more: the first eight bytes
    are the cached header; the rest is raw body bytes, or lazy handler data
    when one of the ports is registered. *)
Lemma UDP_new_forms E buf :
  4 <= len buf ->
  let parsed := set_unpacked (Some false)
                  (set_header_cached (slice buf None (Some 8)) UDP.cls) in
  UDP.new E buf None = set_body_bytes (Some (slice buf (Some 8) None)) parsed
  \/ exists clz,
       UDP.new E buf None =
         set_body_bytes None
           (set_bodytypename (Some (lower clz))
              (set_lazy_handler_data
                 (Some (lower clz, clz, slice buf (Some 8) None)) parsed)).
Proof.
  intros Hl parsed.
  destruct (UDP_dissect_ok E buf UDP.cls Hl) as [p' H'].
  destruct (UDP_dissect_fresh E buf UDP.cls eq_refl eq_refl eq_refl)
    as [[e H]|[H|[[clz H]|H]]]; [congruence| | |];
    unfold UDP.new; rewrite (init_ok _ _ _ _ _ H).
  - left. reflexivity.
  - right. exists clz. reflexivity.
  - left. reflexivity.
Qed.

Lemma slice_from_length {A} (l : list A) (a : Z) :
  0 <= a -> len (slice l (Some a) None) = Z.max 0 (len l - a).
Proof.
  intros H. unfold slice, clamp_index, len in *.
  destruct (a <? 0) eqn:Ha; [apply Z.ltb_lt in Ha; lia|].
  rewrite length_take, length_drop. lia.
Qed.

Lemma UDP_bin_accepted E in_cksum fuel buf :
  4 <= len buf ->
  (method_bin E in_cksum (S fuel) false (UDP.new E buf None)).2 = Ok buf.
Proof.
  intros Hl.
  assert (Hb : forall p body,
    _class_name p = "UDP"%string -> _header_changed p = false ->
    _header_cached p = slice buf None (Some 8) ->
    (exists n c, _lazy_handler_data p = Some (n, c, body))
    \/ (_lazy_handler_data p = None /\ _bodytypename p = None
        /\ _body_bytes p = Some body) ->
    body = slice buf (Some 8) None ->
    (method_bin E in_cksum (S fuel) false p).2 = Ok buf).
  { intros p body Hn Hc Hh Hbody ->.
    rewrite method_bin_UDP_no_update by exact Hn.
    rewrite (bin_cached E _ false _ _ Hc Hbody).
    cbn [snd]. rewrite Hh. f_equal. apply slice_split. }
  destruct (UDP_new_forms E buf Hl) as [->|[clz ->]].
  - eapply Hb; try reflexivity. right. repeat split.
  - eapply Hb; try reflexivity. left. eexists _, _. reflexivity.
Qed.

(** [len(UDP(buf))] counts eight header bytes even when the buffer has
    fewer, whereas [bin()] returns the buffer. *)
Theorem UDP_len_after_dissect (E : Env) (in_cksum : bytes -> Z) (fuel : nat)
    (buf : bytes) :
  4 <= len buf ->
  let p := UDP.new E buf None in
  (__len__ (S fuel) p).2 = Ok (Z.max 8 (len buf)) /\
  (method_bin E in_cksum (S fuel) false p).2 = Ok buf.
Proof.
  intros Hl p. split.
  - unfold p. pose proof (slice_from_length buf 8 ltac:(lia)) as Hs.
    destruct (UDP_new_forms E buf Hl) as [->|[clz ->]]; cbn; rewrite Hs;
      f_equal; lia.
  - apply UDP_bin_accepted. exact Hl.
Qed.

Lemma UDP_len_after_dissect_witness :
  let p := UDP.new env0 [x00; x35; x00; x35; xff] None in
  (__len__ 1 p).2 = Ok (Z.max 8 (len [x00; x35; x00; x35; xff])) /\
  (method_bin env0 in_cksum_spec 1 false p).2 = Ok [x00; x35; x00; x35; xff].
Proof.
  apply (UDP_len_after_dissect env0 in_cksum_spec 0 [x00; x35; x00; x35; xff]).
  unfold len. simpl. lia.
Defined.

Lemma slice_eq_take_drop {A} (l : list A) (a b : Z) :
  0 <= a <= b -> b <= len l ->
  slice l (Some a) (Some b) = take (Z.to_nat (b - a)) (drop (Z.to_nat a) l).
Proof.
  intros Hab Hb. unfold slice, clamp_index, len in *.
  destruct (a <? 0) eqn:Ha; [apply Z.ltb_lt in Ha; lia|].
  destruct (b <? 0) eqn:Hb0; [apply Z.ltb_lt in Hb0; lia|].
  rewrite !Z.min_l by lia. reflexivity.
Qed.

Lemma slice_to_take {A} (l : list A) (b : Z) :
  0 <= b <= len l -> slice l None (Some b) = take (Z.to_nat b) l.
Proof.
  intros Hb. unfold slice, clamp_index, len in *.
  destruct (b <? 0) eqn:Hb0; [apply Z.ltb_lt in Hb0; lia|].
  rewrite Z.min_l by lia. rewrite Z.sub_0_r. reflexivity.
Qed.

Lemma len_ge_8 {A} (l : list A) :
  8 <= len l -> exists a b c d e f g h rest, l = a :: b :: c :: d :: e :: f :: g :: h :: rest.
Proof.
  unfold len. intros H.
  do 8 (destruct l as [|? l]; [cbn in H; lia|]). eauto 10.
Qed.

(** The header of a buffer with eight bytes or more unpacks to the
    big-endian values of its four 16-bit words. *)
Lemma unpack_udp_slice buf :
  8 <= len buf ->
  Struct_unpack (mkStruct BigEndian [FH; FH; FH; FH]) (slice buf None (Some 8))
    = Some [VInt (decode_uint BigEndian (slice buf (Some 0) (Some 2)));
            VInt (decode_uint BigEndian (slice buf (Some 2) (Some 4)));
            VInt (decode_uint BigEndian (slice buf (Some 4) (Some 6)));
            VInt (decode_uint BigEndian (slice buf (Some 6) (Some 8)))].
Proof.
  intros H.
  rewrite slice_to_take, !slice_eq_take_drop by lia.
  destruct (len_ge_8 buf H) as (a & b & c & d & e & f & g & h & rest & ->).
  reflexivity.
Qed.

(** After [UDP(buf)] the header fields read as the big-endian values of
    the four 16-bit words of the header. *)
Theorem UDP_fields_after_dissect (E : Env) (buf : bytes) :
  8 <= len buf ->
  let p := UDP.new E buf None in
  let word a := VInt (decode_uint BigEndian (slice buf (Some a) (Some (a + 2)))) in
  (getfield_simple "sport" p).2 = Ok (word 0) /\
  (getfield_simple "dport" p).2 = Ok (word 2) /\
  (getfield_simple "ulen" p).2 = Ok (word 4) /\
  (getfield_simple "sum" p).2 = Ok (word 6).
Proof.
  intros Hl p word. unfold p, word.
  pose proof (unpack_udp_slice buf Hl) as Hu.
  destruct (UDP_new_forms E buf ltac:(lia)) as [->|[clz ->]];
    unfold getfield_simple, _unpack; unfold_m; cbn; rewrite Hu; cbn; repeat split.
Qed.

Lemma UDP_fields_after_dissect_witness :
  let p := UDP.new env0 udp_ping None in
  let word a := VInt (decode_uint BigEndian (slice udp_ping (Some a) (Some (a + 2)))) in
  (getfield_simple "sport" p).2 = Ok (word 0) /\
  (getfield_simple "dport" p).2 = Ok (word 2) /\
  (getfield_simple "ulen" p).2 = Ok (word 4) /\
  (getfield_simple "sum" p).2 = Ok (word 6).
Proof.
  apply (UDP_fields_after_dissect env0 udp_ping). unfold len. simpl. lia.
Defined.

Lemma slice_to_length {A} (l : list A) (b : Z) :
  0 <= b -> len (slice l None (Some b)) = Z.min b (len l).
Proof.
  intros H. unfold slice, clamp_index, len in *.
  destruct (b <? 0) eqn:Hb; [apply Z.ltb_lt in Hb; lia|].
  rewrite length_take, length_drop. lia.
Qed.

(** A buffer of four to seven bytes is accepted by [UDP(buf)] without
    [dissect_error], but its header cannot be unpacked: reading or
    assigning a header field raises.  [_unpack] has set [_unpacked] before
    it raised, so a second read does not unpack again and answers with the
    default value of the class. *)
Theorem UDP_fields_short_header (E : Env) (buf : bytes) (name : string) (v : value) :
  4 <= len buf < 8 ->
  In name ["sport"; "dport"; "ulen"; "sum"]%string ->
  let p := UDP.new E buf None in
  _dissect_error p = false /\
  (getfield_simple name p).2 = Raise GenericException /\
  (setfield_simple E name v p).2 = Raise GenericException /\
  (getfield_simple name (getfield_simple name p).1).2
    = (getfield_simple name (__init__default UDP.cls)).2.
Proof.
  intros Hl Hn p. unfold p.
  assert (Hu : Struct_unpack (mkStruct BigEndian [FH; FH; FH; FH])
                 (slice buf None (Some 8)) = None).
  { unfold Struct_unpack. rewrite slice_to_length by lia.
    destruct (Z.min 8 (len buf) =? _) eqn:H; [|reflexivity].
    apply Z.eqb_eq in H. change (Z.min 8 (len buf) = 8) in H. lia. }
  cbn in Hn.
  destruct (UDP_new_forms E buf ltac:(lia)) as [->|[clz ->]];
    (split; [reflexivity|]);
    destruct Hn as [<-|[<-|[<-|[<-|[]]]]];
    unfold getfield_simple, setfield_simple, _unpack; unfold_m; cbn;
    rewrite Hu; repeat split; reflexivity.
Qed.

Lemma UDP_fields_short_header_witness :
  let p := UDP.new env0 [x00; x35; x00; x35; xff] None in
  _dissect_error p = false /\
  (getfield_simple "ulen" p).2 = Raise GenericException /\
  (setfield_simple env0 "ulen" (VInt 8) p).2 = Raise GenericException /\
  (getfield_simple "ulen" (getfield_simple "ulen" p).1).2
    = (getfield_simple "ulen" (__init__default UDP.cls)).2.
Proof.
  apply (UDP_fields_short_header env0 [x00; x35; x00; x35; xff] "ulen" (VInt 8)).
  - unfold len. simpl. lia.
  - simpl. auto.
Defined.

(** ** [Radiotap(buf)]: when the round trip holds *)

(** [Radiotap._dissect] up to the call of [_init_handler]: it raises, or it
    reaches that call with the header length [h] read from the buffer, with
    [pos_end] and the frame check sequence as the FCS flag says, in a state
    [q] whose body attributes are still those of the class. *)
Lemma Radiotap_dissect_steps E buf :
  (exists q e, Radiotap._dissect E buf Radiotap.cls = (q, Raise e))
  \/ exists q h pos_end,
       Radiotap.unpack_hdr_len (slice buf (Some 2) (Some 4)) = Ok h /\
       (_fcs q = None /\ pos_end = len buf
        \/ _fcs q = Some (slice buf (Some (-4)) None) /\ pos_end = -4) /\
       _class_name q = "Radiotap"%string /\
       _changelistener q = [] /\ fresh_body q = true /\
       _target_unpack_clz q = None /\ _dissect_error q = false /\
       _body_changed q = false /\
       Radiotap._dissect E buf Radiotap.cls =
         (let '(p', r) := _init_handler E Radiotap.RTAP_TYPE_80211
                            (slice buf (Some h) (Some pos_end)) q in
          (p', match r with Ok _ => Ok h | Raise e => Raise e end)).
Proof.
  unfold Radiotap._dissect.
  destruct (Radiotap.unpack_flags _) as [flags|e]; [|left; eauto].
  destruct (Z.land flags Radiotap.FLAGS_MASK =? Radiotap.FLAGS_MASK).
  - destruct (buf !! _) as [b|]; [|left; eauto].
    destruct (negb (Z.land (byte_to_Z b) 16 =? 0)).
    + destruct (Radiotap.unpack_hdr_len _) as [h|e]; [|left; eauto].
      right.
      match goal with |- context [bind (_init_triggerlist ?n ?b ?c) _ ?p1] =>
        exists ((_init_triggerlist n b c p1).1), h, (-4) end.
      split; [reflexivity|].
      split; [right; split; reflexivity|].
      do 6 (split; [reflexivity|]). unfold_m. cbn.
      destruct (_init_handler _ _ _ _) as [p' [[]|e]]; reflexivity.
    + destruct (Radiotap.unpack_hdr_len _) as [h|e]; [|left; eauto].
      right.
      match goal with |- context [bind (_init_triggerlist ?n ?b ?c) _ ?p1] =>
        exists ((_init_triggerlist n b c p1).1), h, (len buf) end.
      split; [reflexivity|].
      split; [left; split; reflexivity|].
      do 6 (split; [reflexivity|]). unfold_m. cbn.
      destruct (_init_handler _ _ _ _) as [p' [[]|e]]; reflexivity.
  - destruct (Radiotap.unpack_hdr_len _) as [h|e]; [|left; eauto].
    right.
    match goal with |- context [bind (_init_triggerlist ?n ?b ?c) _ ?p1] =>
      exists ((_init_triggerlist n b c p1).1), h, (len buf) end.
    split; [reflexivity|].
    split; [left; split; reflexivity|].
    do 6 (split; [reflexivity|]). unfold_m. cbn.
    destruct (_init_handler _ _ _ _) as [p' [[]|e]]; reflexivity.
Qed.

Lemma decode_uint_nonneg o b : 0 <= decode_uint o b.
Proof.
  unfold decode_uint.
  assert (H : forall l acc, 0 <= acc ->
            0 <= fold_left (fun acc x => acc * 256 + byte_to_Z x) l acc).
  { induction l as [|x l IH]; intros acc Hacc; [exact Hacc|].
    cbn. apply IH. pose proof (byte_to_Z_range x). lia. }
  apply H. lia.
Qed.

Lemma slice_to_len {A} (l : list A) (a : Z) :
  slice l (Some a) (Some (len l)) = slice l (Some a) None.
Proof.
  unfold slice. pose proof (len_nonneg l) as H.
  replace (clamp_index (len l) (len l)) with (len l); [reflexivity|].
  unfold clamp_index. destruct (len l <? 0) eqn:Hn; [apply Z.ltb_lt in Hn|]; lia.
Qed.

(** Header, payload and the last four bytes make up the buffer when the
    payload between them is not empty. *)
Lemma slice_three {A} (l : list A) (h : Z) :
  0 <= h -> slice l (Some h) (Some (-4)) <> [] ->
  slice l None (Some h) ++ slice l (Some h) (Some (-4)) ++ slice l (Some (-4)) None = l.
Proof.
  intros Hh Hne.
  assert (Hlt : h < len l - 4).
  { destruct (Z_lt_le_dec h (len l - 4)) as [H|H]; [exact H|]. exfalso. apply Hne.
    unfold slice, clamp_index, len in *. change (-4 <? 0) with true. cbv iota.
    destruct (h <? 0) eqn:H0; [apply Z.ltb_lt in H0; lia|].
    apply length_zero_iff_nil. rewrite length_take, length_drop. lia. }
  unfold slice, clamp_index, len in *. change (-4 <? 0) with true. cbv iota.
  destruct (h <? 0) eqn:H0; [apply Z.ltb_lt in H0; lia|].
  rewrite Z.min_l, Z.max_l by lia. rewrite Z.sub_0_r, drop_0.
  rewrite app_assoc, take_take_drop.
  replace (Z.to_nat h + Z.to_nat (-4 + Z.of_nat (length l) - h))%nat
    with (Z.to_nat (-4 + Z.of_nat (length l))) by lia.
  rewrite (take_ge (drop _ _)) by (rewrite length_drop; lia).
  apply take_drop.
Qed.

(** [Radiotap(buf).bin(update_auto_fields=False)] is the buffer when no
    frame check sequence was found, or when there are bytes between header
    and frame check sequence.  When there are none, the frame check sequence
    is emitted twice. *)
Theorem Radiotap_bin_roundtrip (E : Env) (in_cksum : bytes -> Z) (fuel : nat)
    (buf : bytes) :
  let p := Radiotap.new E buf None in
  let payload := slice buf (Some (_header_len p)) (Some (-4)) in
  _dissect_error p = false ->
  (_fcs p = None \/ payload <> [] ->
   (method_bin E in_cksum (S fuel) false p).2 = Ok buf) /\
  (forall f, _fcs p = Some f -> payload = [] ->
   (method_bin E in_cksum (S fuel) false p).2 = Ok (buf ++ f)).
Proof.
  intros p payload Hde. unfold payload, p in *. clear p payload.
  unfold Radiotap.new in *.
  destruct (Radiotap_dissect_steps E buf)
    as [(q & e & H)|(q & h & pe & Hh & Hfcs & Hn & Hl & Hf & Ht & Hqd & Hqb & H)].
  { rewrite (init_raise _ _ _ _ _ H) in Hde. destruct_packet q. discriminate. }
  assert (0 <= h) as Hh0.
  { unfold Radiotap.unpack_hdr_len in Hh. destruct (len _ =? 2); [|discriminate].
    injection Hh as <-. apply decode_uint_nonneg. }
  destruct (init_handler_fresh E Radiotap.RTAP_TYPE_80211
              (slice buf (Some h) (Some pe)) q Hl Hf Ht)
    as (p' & Hi & Hp').
  assert (Hnil : slice buf (Some h) (Some pe) = [] -> p' = q).
  { intros Hb0. rewrite Hb0 in Hi. unfold _init_handler in Hi.
    change (len (@nil byte) =? 0) with true in Hi. injection Hi as <-. reflexivity. }
  rewrite Hi in H. clear Hi.
  rewrite (init_ok _ _ _ _ _ H) in *. clear H.
  unfold fresh_body in Hf.
  destruct (_body_bytes q) as [[|]|] eqn:H1; try discriminate.
  destruct (_bodytypename q) eqn:H2; try discriminate.
  destruct (_lazy_handler_data q) eqn:H3; try discriminate.
  destruct_packet q. cbn in H1, H2, H3, Hn, Hl, Ht, Hqd, Hqb, Hfcs. subst.
  rewrite method_bin_Radiotap
    by (destruct Hp' as [[-> _]|[(clz & _ & ->)|[_ ->]]]; reflexivity).
  unfold Radiotap.bin, pypacker_bin. unfold bind at 1.
  destruct Hp' as [[-> Hb]|[(clz & _ & ->)|[_ ->]]];
    (erewrite bin_cached;
     [|reflexivity
      |first [ right; repeat split; reflexivity
             | left; eexists _, _; reflexivity ]]);
    cbn; unfold Radiotap.fcs; cbn;
    destruct Hfcs as [[-> ->]|[-> ->]]; cbn.
  all: clear Hde; split; [intros Hc|intros f Hfc Hc].
  all: try discriminate.
  all: rewrite ?slice_to_len, ?app_nil_r in *.
  all: try (f_equal; apply slice_split).
  all: try (destruct Hc as [Hc|Hc]; [discriminate|]).
  all: try (f_equal; rewrite <- app_assoc; apply slice_three; assumption).
  all: try congruence.
  all: try (injection Hfc as <-; f_equal; f_equal; apply slice_split).
  all: specialize (Hnil Hc); discriminate.
Qed.

Lemma Radiotap_bin_roundtrip_witness :
  let p := Radiotap.new env0 radiotap_plain_frame None in
  let payload := slice radiotap_plain_frame (Some (_header_len p)) (Some (-4)) in
  (_fcs p = None \/ payload <> [] ->
   (method_bin env0 in_cksum_spec 1 false p).2 = Ok radiotap_plain_frame) /\
  (forall f, _fcs p = Some f -> payload = [] ->
   (method_bin env0 in_cksum_spec 1 false p).2 = Ok (radiotap_plain_frame ++ f)).
Proof.
  apply (Radiotap_bin_roundtrip env0 in_cksum_spec 0 radiotap_plain_frame).
  reflexivity.
Defined.

(** ** The string forms of MAC and IPv4 addresses *)

Lemma split_no_sep sep s : has_char sep s = false -> split sep s = [s].
Proof.
  induction s as [|c s IH]; [reflexivity|]. cbn [split has_char]. intros H.
  apply orb_false_iff in H as [Hc Hs]. rewrite Hc, (IH Hs). reflexivity.
Qed.

Lemma split_app_sep sep s rest :
  has_char sep s = false ->
  split sep (s ++ String sep rest) = s :: split sep rest.
Proof.
  induction s as [|c s IH]; intros H.
  - change (split sep (String sep rest)
            = EmptyString :: split sep rest). cbn [split].
    rewrite Ascii.eqb_refl. reflexivity.
  - change (split sep (String c (s ++ String sep rest))
            = String c s :: split sep rest).
    cbn [split has_char] in *.
    apply orb_false_iff in H as [Hc Hs]. rewrite Hc, (IH Hs). reflexivity.
Qed.

Lemma fmt_02X_no_colon x : has_char ":" (fmt_02X x) = false.
Proof. destruct x; reflexivity. Qed.

Lemma fromhex_fmt_02X x : fromhex (fmt_02X x) = Some [x].
Proof. destruct x; reflexivity. Qed.

(** [mac_str_to_bytes(mac_bytes_to_str(b)) == b] for every six bytes [b];
    [mac_bytes_to_str] raises for every other length. *)
Theorem mac_bytes_str_roundtrip (mac_bytes : bytes) :
  match mac_bytes_to_str mac_bytes with
  | Ok s => length mac_bytes = 6%nat /\ mac_str_to_bytes s = Ok mac_bytes
  | Raise e => length mac_bytes <> 6%nat /\ e = StructError
  end.
Proof.
  destruct mac_bytes as [|a [|b [|c [|d [|e [|f [|g rest]]]]]]];
    try (cbn; split; [lia|reflexivity]).
  cbn [mac_bytes_to_str]. split; [reflexivity|].
  unfold mac_str_to_bytes.
  repeat (change (String.append ":" ?s) with (String ":" s);
          rewrite split_app_sep by apply fmt_02X_no_colon).
  rewrite split_no_sep by apply fmt_02X_no_colon.
  cbn [mapM]. rewrite !fromhex_fmt_02X. reflexivity.
Qed.

Lemma fmt_d_no_dot x : has_char "." (fmt_d (byte_to_Z x)) = false.
Proof. destruct x; reflexivity. Qed.

Lemma py_int_fmt_d x : py_int (fmt_d (byte_to_Z x)) = Some (byte_to_Z x).
Proof. destruct x; reflexivity. Qed.

Lemma pack_B x :
  encode_uint BigEndian 1 (byte_to_Z x) = Some [x].
Proof.
  rewrite encode_uint_be by (pose proof (byte_to_Z_range x); cbn; lia).
  change (uint_be 1 (byte_to_Z x)) with ([] ++ [byte_of_Z (byte_to_Z x)]).
  rewrite byte_of_Z_to_Z. reflexivity.
Qed.

(** [ip4_str_to_bytes(ip4_bytes_to_str(b)) == b] for every four bytes [b];
    [ip4_bytes_to_str] raises for every other length. *)
Theorem ip4_bytes_str_roundtrip (ip_bytes : bytes) :
  match ip4_bytes_to_str ip_bytes with
  | Ok s => length ip_bytes = 4%nat /\ ip4_str_to_bytes s = Ok ip_bytes
  | Raise e => length ip_bytes <> 4%nat /\ e = StructError
  end.
Proof.
  destruct ip_bytes as [|a [|b [|c [|d [|e rest]]]]];
    try (cbn; split; [lia|reflexivity]).
  cbn [ip4_bytes_to_str]. split; [reflexivity|].
  unfold ip4_str_to_bytes.
  repeat (change (String.append "." ?s) with (String "." s);
          rewrite split_app_sep by apply fmt_d_no_dot).
  rewrite split_no_sep by apply fmt_d_no_dot.
  cbn [mapM]. rewrite !py_int_fmt_d. cbn [mbind option_bind mret option_ret].
  unfold Struct_pack. cbn [st_order st_items pack_items pack_one].
  rewrite !pack_B. reflexivity.
Qed.

(** ** DNS names *)

Lemma encode_ascii l : is_ascii l = true -> encode l = Ok (string_bytes l).
Proof.
  induction l as [|c l IH]; [reflexivity|]. cbn [is_ascii encode string_bytes].
  intros H. apply andb_true_iff in H as [Hc Hl]. rewrite Hc, (IH Hl). reflexivity.
Qed.

Lemma ascii_of_to_Z c : ascii_of_Z (ascii_to_Z c) = c.
Proof. unfold ascii_of_Z, ascii_to_Z. rewrite Nat2Z.id. apply ascii_nat_embedding. Qed.

Lemma decode_string_bytes l : is_ascii l = true -> decode (string_bytes l) = Ok l.
Proof.
  induction l as [|c l IH]; [reflexivity|]. cbn [is_ascii decode string_bytes].
  intros H. apply andb_true_iff in H as [Hc Hl].
  apply Z.ltb_lt in Hc. pose proof (Nat2Z.is_nonneg (nat_of_ascii c)) as H0.
  fold (ascii_to_Z c) in H0.
  rewrite byte_to_Z_of_Z, Z.mod_small by lia.
  replace (ascii_to_Z c <? 128) with true by (symmetry; apply Z.ltb_lt; lia).
  rewrite (IH Hl), ascii_of_to_Z. reflexivity.
Qed.

Lemma dns_label_spec l :
  dns_label l = true ->
  0 < len (string_bytes l) < 128 /\ is_ascii l = true /\ has_char "." l = false.
Proof.
  unfold dns_label. intros H.
  apply andb_true_iff in H as [H H4]. apply andb_true_iff in H as [H H3].
  apply andb_true_iff in H as [H1 H2].
  apply Z.ltb_lt in H1, H2. apply negb_true_iff in H4. auto.
Qed.

Lemma encode_all_labels ls :
  Forall (fun l => dns_label l = true) ls ->
  encode_all ls = Ok (map string_bytes ls).
Proof.
  induction 1 as [|l ls Hl _ IH]; [reflexivity|]. cbn [encode_all map].
  apply dns_label_spec in Hl as (_ & Ha & _).
  rewrite (encode_ascii l Ha), IH. reflexivity.
Qed.

Lemma encode_labels_wire ls :
  Forall (fun l => dns_label l = true) ls ->
  dns_name_encode_labels (map string_bytes ls) = Ok (dns_wire ls).
Proof.
  induction 1 as [|l ls Hl _ IH]; [reflexivity|].
  cbn [dns_name_encode_labels map dns_wire].
  apply dns_label_spec in Hl as (Hn & _ & _).
  unfold chr_encode.
  replace (len (string_bytes l) <? 128) with true by (symmetry; apply Z.ltb_lt; lia).
  rewrite IH. reflexivity.
Qed.

Lemma dns_loop_done fuel name off acc :
  len name <= off -> dns_name_decode_loop fuel name off acc = Ok acc.
Proof.
  intros H. destruct fuel; cbn [dns_name_decode_loop];
    replace (off <? len name) with false by (symmetry; apply Z.ltb_ge; lia);
    reflexivity.
Qed.

Lemma dns_loop_step fuel name off acc n label :
  off < len name ->
  name !! Z.to_nat (off - 1) = Some n ->
  decode (slice name (Some off) (Some (off + byte_to_Z n))) = Ok label ->
  dns_name_decode_loop (S fuel) name off acc
    = dns_name_decode_loop fuel name (off + (byte_to_Z n + 1)) (acc ++ [label]).
Proof.
  intros H Hn Hd. cbn [dns_name_decode_loop].
  replace (off <? len name) with true by (symmetry; apply Z.ltb_lt; lia).
  rewrite Hn, Hd. reflexivity.
Qed.

Lemma slice_middle {A} (a b c : list A) :
  slice (a ++ b ++ c) (Some (len a)) (Some (len a + len b)) = b.
Proof.
  unfold slice, clamp_index, len. rewrite !length_app.
  destruct (Z.of_nat (length a) <? 0) eqn:H1; [apply Z.ltb_lt in H1; lia|].
  destruct (Z.of_nat (length a) + Z.of_nat (length b) <? 0) eqn:H2;
    [apply Z.ltb_lt in H2; lia|].
  rewrite !Z.min_l by lia. rewrite Nat2Z.id, drop_app_length.
  replace (Z.to_nat _) with (length b) by lia. apply take_app_length.
Qed.

Lemma dns_decode_loop_wire rest :
  Forall (fun l => dns_label l = true) rest ->
  forall pre fuel acc,
    (length rest <= fuel)%nat ->
    dns_name_decode_loop fuel (pre ++ dns_wire rest ++ [x00]) (1 + len pre) acc
      = Ok (acc ++ rest).
Proof.
  induction 1 as [|l rest Hl _ IH]; intros pre fuel acc Hf.
  - rewrite app_nil_r. apply dns_loop_done.
    unfold len. rewrite length_app. cbn. lia.
  - destruct fuel as [|fuel]; [cbn in Hf; lia|].
    apply dns_label_spec in Hl as (Hn & Ha & _).
    set (sb := string_bytes l) in *.
    assert (Hb : byte_to_Z (byte_of_Z (len sb)) = len sb)
      by (rewrite byte_to_Z_of_Z; apply Z.mod_small; lia).
    cbn [dns_wire]. fold sb.
    rewrite (dns_loop_step fuel _ _ acc (byte_of_Z (len sb)) l).
    + rewrite Hb.
      replace (pre ++ ((byte_of_Z (len sb) :: sb) ++ dns_wire rest) ++ [x00])
        with ((pre ++ byte_of_Z (len sb) :: sb) ++ dns_wire rest ++ [x00])
        by (rewrite <- !app_assoc; reflexivity).
      replace (1 + len pre + (len sb + 1))
        with (1 + len (pre ++ byte_of_Z (len sb) :: sb))
        by (unfold len; rewrite length_app; cbn [length]; lia).
      rewrite IH by (cbn in Hf; lia).
      rewrite <- app_assoc. reflexivity.
    + unfold len. rewrite !length_app. cbn [length]. lia.
    + replace (Z.to_nat (1 + len pre - 1)) with (length pre) by (unfold len; lia).
      rewrite lookup_app_r by lia. rewrite Nat.sub_diag. reflexivity.
    + rewrite Hb.
      replace (pre ++ ((byte_of_Z (len sb) :: sb) ++ dns_wire rest) ++ [x00])
        with ((pre ++ [byte_of_Z (len sb)]) ++ sb ++ (dns_wire rest ++ [x00]))
        by (rewrite <- !app_assoc; reflexivity).
      replace (1 + len pre) with (len (pre ++ [byte_of_Z (len sb)]))
        by (unfold len; rewrite length_app; cbn [length]; lia).
      rewrite slice_middle. apply decode_string_bytes. exact Ha.
Qed.

Lemma string_app_assoc (a b c : string) : ((a ++ b) ++ c = a ++ (b ++ c))%string.
Proof.
  induction a as [|x a IH]; [reflexivity|].
  change (String x ((a ++ b) ++ c) = String x (a ++ (b ++ c)))%string.
  rewrite IH. reflexivity.
Qed.

Lemma join_cons2 sep l l' r :
  join sep (l :: l' :: r) = (l ++ sep ++ join sep (l' :: r))%string.
Proof. reflexivity. Qed.

Lemma split_join ls :
  Forall (fun l => has_char "." l = false) ls -> ls <> [] ->
  split "." (join "." ls) = ls.
Proof.
  induction 1 as [|l ls Hl Hls IH]; [congruence|]. intros _.
  destruct ls as [|l' r]; [apply split_no_sep; exact Hl|].
  rewrite join_cons2.
  change (String.append "." ?s) with (String "." s).
  rewrite split_app_sep by exact Hl. rewrite IH by discriminate. reflexivity.
Qed.

Lemma split_join_dot ls :
  Forall (fun l => has_char "." l = false) ls -> ls <> [] ->
  split "." (join "." ls ++ ".") = ls ++ [EmptyString].
Proof.
  induction 1 as [|l ls Hl Hls IH]; [congruence|]. intros _.
  destruct ls as [|l' r].
  - change (join "." [l]) with l. rewrite split_app_sep by exact Hl. reflexivity.
  - rewrite join_cons2, string_app_assoc.
    change (String.append "." ?s) with (String "." s).
    change (String.append (String "." ?s) ?t) with (String "." (String.append s t)).
    rewrite split_app_sep by exact Hl. rewrite IH by discriminate. reflexivity.
Qed.

Lemma length_string_bytes l : length (string_bytes l) = String.length l.
Proof. induction l as [|c l IH]; [reflexivity|]. cbn. rewrite IH. reflexivity. Qed.

Lemma filter_labels ls :
  Forall (fun l => dns_label l = true) ls ->
  filter (fun part => String.length part <> 0%nat) ls = ls.
Proof.
  induction 1 as [|l ls Hl _ IH]; [reflexivity|].
  apply dns_label_spec in Hl as (Hn & _ & _).
  rewrite filter_cons_True, IH; [reflexivity|].
  rewrite <- length_string_bytes. unfold len in Hn. lia.
Qed.

Lemma labels_no_dot ls :
  Forall (fun l => dns_label l = true) ls ->
  Forall (fun l => has_char "." l = false) ls.
Proof.
  intros H. eapply Forall_impl; [exact H|].
  intros l Hl. apply dns_label_spec in Hl. tauto.
Qed.

(** The parts that [dns_name_encode] keeps of a name with or without the
    trailing dot: the labels. *)
Lemma dns_name_parts ls :
  Forall (fun l => dns_label l = true) ls ->
  filter (fun part => String.length part <> 0%nat) (split "." (join "." ls)) = ls /\
  filter (fun part => String.length part <> 0%nat) (split "." (join "." ls ++ ".")) = ls.
Proof.
  intros H. destruct ls as [|l r]; [split; reflexivity|].
  rewrite split_join, split_join_dot by (try apply labels_no_dot; congruence).
  rewrite filter_app, filter_labels by exact H.
  split; [reflexivity|]. apply app_nil_r.
Qed.

Lemma dns_wire_length ls :
  Forall (fun l => dns_label l = true) ls ->
  (length ls <= length (dns_wire ls ++ [x00]))%nat.
Proof.
  induction 1 as [|l ls _ _ IH]; cbn [dns_wire length]; [lia|].
  rewrite !length_app in *. cbn [length] in *. lia.
Qed.

(** A DNS name of labels of 1 to 127 ASCII characters: the encoder gives
    the same wire form with and without the trailing dot, and the decoder
    gives the text with the trailing dot. *)
Theorem dns_name_roundtrip (labels : list string) :
  Forall (fun l => dns_label l = true) labels ->
  let text := join "." labels in
  let wire := dns_wire labels ++ [x00] in
  dns_name_encode text = Ok wire /\
  dns_name_encode (text ++ ".") = Ok wire /\
  dns_name_decode wire = Ok (text ++ ".")%string.
Proof.
  intros H text wire. unfold text, wire.
  destruct (dns_name_parts labels H) as [H1 H2].
  unfold dns_name_encode, dns_name_decode. rewrite H1, H2.
  rewrite (encode_all_labels labels H), (encode_labels_wire labels H).
  do 2 (split; [reflexivity|]).
  pose proof (dns_decode_loop_wire labels H [] (length (dns_wire labels ++ [x00])) []
                (dns_wire_length labels H)) as Hd.
  change ([] ++ dns_wire labels ++ [x00]) with (dns_wire labels ++ [x00]) in Hd.
  change (1 + len (@nil byte)) with 1 in Hd.
  rewrite Hd. reflexivity.
Qed.

Lemma dns_name_roundtrip_witness :
  let labels := ["www"; "example"; "com"]%string in
  let text := join "." labels in
  let wire := dns_wire labels ++ [x00] in
  dns_name_encode text = Ok wire /\
  dns_name_encode (text ++ ".") = Ok wire /\
  dns_name_decode wire = Ok (text ++ ".")%string.
Proof.
  apply (dns_name_roundtrip ["www"; "example"; "com"]%string).
  repeat constructor.
Defined.

(** ** UDP: the automatic update of the length *)

(** [bin()] with auto-field update leaves a datagram that was just
    parsed as it is, unless the header of the lower layer changed: neither
    the length nor the checksum of the input is corrected. *)
Theorem UDP_bin_no_update (E : Env) (in_cksum : bytes -> Z) (fuel : nat)
    (buf : bytes) (lower : option LowerLayer) :
  4 <= len buf ->
  (forall l, lower = Some l -> ll_header_changed l = false) ->
  (method_bin E in_cksum (S fuel) true
     (set_lower_layer lower (UDP.new E buf None))).2 = Ok buf.
Proof.
  intros Hl Hlow.
  assert (Hb : forall p body,
    _class_name p = "UDP"%string -> _changed p = Ok false ->
    _lower_layer p = lower ->
    _header_changed p = false ->
    _header_cached p = slice buf None (Some 8) ->
    (exists n c, _lazy_handler_data p = Some (n, c, body))
    \/ (_lazy_handler_data p = None /\ _bodytypename p = None
        /\ _body_bytes p = Some body) ->
    body = slice buf (Some 8) None ->
    (method_bin E in_cksum (S fuel) true p).2 = Ok buf).
  { intros p body Hn Hch Hll Hc Hh Hbody ->.
    rewrite method_bin_UDP by exact Hn.
    unfold UDP.bin. unfold bind at 1. cbv beta iota. rewrite Hch.
    unfold bind at 1 2. unfold ret at 1. unfold gets. cbv beta iota.
    rewrite Hll.
    assert ((match lower with
             | Some ll => if negb (ll_header_changed ll) then false else true
             | None => false
             end) = false) as ->.
    { destruct lower as [l|]; [|reflexivity]. rewrite (Hlow l eq_refl). reflexivity. }
    unfold ret. unfold pypacker_bin.
    rewrite (bin_cached E _ true _ _ Hc Hbody).
    cbn [snd]. rewrite Hh. f_equal. apply slice_split. }
  destruct (UDP_new_forms E buf Hl) as [->|[clz ->]].
  - eapply Hb; try reflexivity. right. repeat split.
  - eapply Hb; try reflexivity. left. eexists _, _. reflexivity.
Qed.

Lemma UDP_bin_no_update_witness :
  (method_bin env0 in_cksum_spec 1 true
     (set_lower_layer None (UDP.new env0 udp_ping None))).2 = Ok udp_ping.
Proof.
  apply (UDP_bin_no_update env0 in_cksum_spec 0 udp_ping None).
  - unfold len. simpl. lia.
  - intros l H. discriminate H.
Defined.

Lemma setfield_udp_ulen E p sport dport ulen s v :
  udp_unpacked p sport dport ulen s -> _changelistener p = [] ->
  setfield_simple E "ulen" (VInt v) p =
    (set_header_changed true (set_fields (udp_fields sport dport v s) p), Ok tt).
Proof.
  intros (Hf & Hfmt & Hhfc & Hup) Hl. destruct_packet p. cbn in *. subst.
  unfold setfield_simple. unfold_m. cbn.
  rewrite ?notify_no_listener by reflexivity. reflexivity.
Qed.



(** ** Header fields: assignment and deactivation *)

Lemma find_update_same name g fs :
  (forall f, f_name (g f) = f_name f) ->
  find_field name (update_field name g fs) = g <$> find_field name fs.
Proof.
  intros Hg. induction fs as [|f fs IH]; [reflexivity|].
  cbn [update_field find_field].
  destruct (String.eqb (f_name f) name) eqn:Hn.
  - cbn [find_field]. rewrite Hg, Hn. reflexivity.
  - cbn [find_field]. rewrite Hn. exact IH.
Qed.

Lemma find_update_other name other g fs :
  other <> name -> (forall f, f_name (g f) = f_name f) ->
  find_field other (update_field name g fs) = find_field other fs.
Proof.
  intros Hne Hg. induction fs as [|f fs IH]; [reflexivity|].
  cbn [update_field find_field].
  destruct (String.eqb (f_name f) name) eqn:Hn.
  - cbn [find_field]. rewrite Hg.
    apply String.eqb_eq in Hn. rewrite Hn.
    replace (String.eqb name other) with false; [reflexivity|].
    symmetry. apply String.eqb_neq. congruence.
  - cbn [find_field]. rewrite IH. reflexivity.
Qed.

Lemma getfield_unpacked name p f :
  unpacked_is_False p = false -> find_field name (_fields p) = Some f ->
  getfield_simple name p = (p, Ok (f_value f)).
Proof.
  intros Hu Hf. unfold getfield_simple. rewrite Hf. unfold_m.
  rewrite Hu, Hf. reflexivity.
Qed.

(** Assigning [v] to the static header field [name] of a packet that has
    no listeners and no unpacking pending: the field reads back as [v], it is
    active exactly when [v] is not [None], every other field is as it was,
    [_header_changed] is set, and the cached header and the body are not
    touched. *)
Theorem setfield_then_getfield (E : Env) (p : Packet) (name : string)
    (f : field) (v : value) :
  find_field name (_fields p) = Some f ->
  f_static f = true ->
  unpacked_is_False p = false ->
  _changelistener p = [] ->
  exists p',
    setfield_simple E name v p = (p', Ok tt) /\
    getfield_simple name p' = (p', Ok v) /\
    f_active <$> find_field name (_fields p') = Some (negb (is_VNone v)) /\
    (forall other, other <> name ->
       find_field other (_fields p') = find_field other (_fields p)) /\
    _header_changed p' = true /\
    _header_cached p' = _header_cached p /\
    _body_bytes p' = _body_bytes p /\
    _body_changed p' = _body_changed p /\
    _bodytypename p' = _bodytypename p /\
    _lazy_handler_data p' = _lazy_handler_data p.
Proof.
  intros Hf Hs Hu Hl. unfold setfield_simple. rewrite Hf. unfold_m.
  rewrite Hu, Hf, Hs. cbn [negb andb].
  set (fs1 := if is_VNone v && f_active f
              then update_field name (set_f_active false) (_fields p)
              else if negb (is_VNone v) && negb (f_active f)
                   then update_field name (set_f_active true) (_fields p)
                   else _fields p).
  assert (H1 : find_field name fs1 = Some (set_f_active (negb (is_VNone v)) f)
               /\ forall other, other <> name ->
                    find_field other fs1 = find_field other (_fields p)).
  { unfold fs1. destruct (is_VNone v), (f_active f) eqn:Ha; cbn [negb andb].
    - split; [rewrite find_update_same, Hf by reflexivity; reflexivity|].
      intros o Ho. apply find_update_other; [exact Ho|reflexivity].
    - split; [rewrite Hf; destruct f; cbn in *; subst; reflexivity|reflexivity].
    - split; [rewrite Hf; destruct f; cbn in *; subst; reflexivity|reflexivity].
    - split; [rewrite find_update_same, Hf by reflexivity; reflexivity|].
      intros o Ho. apply find_update_other; [exact Ho|reflexivity]. }
  destruct H1 as [H1 H2].
  set (p2 := if is_VNone v && f_active f
             then set_header_format_changed true
                    (set_fields (update_field name (set_f_active false) (_fields p)) p)
             else if negb (is_VNone v) && negb (f_active f)
                  then set_header_format_changed true
                         (set_fields (update_field name (set_f_active true) (_fields p)) p)
                  else p).
  assert (Hp2 : _fields p2 = fs1 /\ _changelistener p2 = [] /\
                unpacked_is_False p2 = false /\
                _header_cached p2 = _header_cached p /\
                _body_bytes p2 = _body_bytes p /\
                _body_changed p2 = _body_changed p /\
                _bodytypename p2 = _bodytypename p /\
                _lazy_handler_data p2 = _lazy_handler_data p).
  { unfold p2, fs1. destruct_packet p. cbn in Hl, Hu |- *.
    destruct (is_VNone v), (f_active f); cbn [negb andb]; repeat split; assumption. }
  destruct Hp2 as (Hfs & Hl2 & Hu2 & Hk1 & Hk2 & Hk3 & Hk4 & Hk5).
  exists (set_header_changed true
            (set_fields (update_field name (set_f_value v) (_fields p2)) p2)).
  assert (Hg : find_field name (update_field name (set_f_value v) (_fields p2))
               = Some (set_f_value v (set_f_active (negb (is_VNone v)) f))).
  { rewrite Hfs, find_update_same, H1 by reflexivity. reflexivity. }
  rewrite <- Hfs in H2. clear Hfs H1. clearbody fs1 p2. clear fs1 Hf Hu Hl.
  split.
  { destruct_packet p2. cbn in Hl2 |- *. subst.
    rewrite ?notify_no_listener by reflexivity. reflexivity. }
  split.
  { rewrite (getfield_unpacked name _
               (set_f_value v (set_f_active (negb (is_VNone v)) f)));
      [reflexivity| |].
    - destruct_packet p2. exact Hu2.
    - destruct_packet p2. exact Hg. }
  split.
  { destruct_packet p2. cbn in Hg |- *. rewrite Hg. reflexivity. }
  split.
  { intros o Ho. rewrite <- (H2 o Ho). destruct_packet p2. cbn.
    apply find_update_other; [exact Ho|reflexivity]. }
  destruct_packet p2. cbn in *. repeat split; assumption.
Qed.

Lemma setfield_then_getfield_witness :
  exists p',
    setfield_simple env0 "dport" (VInt 53) (__init__default UDP.cls) = (p', Ok tt) /\
    getfield_simple "dport" p' = (p', Ok (VInt 53)) /\
    f_active <$> find_field "dport" (_fields p') = Some (negb (is_VNone (VInt 53))) /\
    (forall other, other <> "dport"%string ->
       find_field other (_fields p')
         = find_field other (_fields (__init__default UDP.cls))) /\
    _header_changed p' = true /\
    _header_cached p' = _header_cached (__init__default UDP.cls) /\
    _body_bytes p' = _body_bytes (__init__default UDP.cls) /\
    _body_changed p' = _body_changed (__init__default UDP.cls) /\
    _bodytypename p' = _bodytypename (__init__default UDP.cls) /\
    _lazy_handler_data p' = _lazy_handler_data (__init__default UDP.cls).
Proof.
  apply (setfield_then_getfield env0 (__init__default UDP.cls) "dport"
           (mkField "dport" (VInt 0) true (Some FH) true true) (VInt 53));
    reflexivity.
Defined.



(** ** Body handlers: lazy parsing *)

Lemma notify_trivial E p :
  (forall cb q, run_listener E cb q = q) -> _notify_changelistener E p = p.
Proof.
  intros H. unfold _notify_changelistener.
  generalize (_changelistener p). intros l. revert p.
  induction l as [|cb l IH]; intros p; [reflexivity|]. cbn. rewrite H. apply IH.
Qed.

(** [_set_bodyhandler(hndl)] for a packet that holds lazy handler data or
    no handler at all, when the listeners leave the packet alone. *)
Lemma set_bodyhandler_Some E h p :
  (forall cb q, run_listener E cb q = q) ->
  is_None (_lazy_handler_data p) = false \/ _bodytypename p = None ->
  _set_bodyhandler E (Some h) p =
    (let name := lower (_class_name h) in
     let p1 := set_body_bytes None (set_bodytypename (Some name) p) in
     set_lazy_handler_data None
       (set_body_changed true
          (set_handler_attr
             (Some (name, set_lower_layer (Some (lower_view p1)) h)) p1)), Ok tt).
Proof.
  intros Hr Hc. unfold _set_bodyhandler. unfold_m.
  assert (negb (is_None (_bodytypename p)) && is_None (_lazy_handler_data p) = false)
    as -> by (destruct Hc as [->| ->]; [apply andb_false_r|reflexivity]).
  rewrite notify_trivial by exact Hr. reflexivity.
Qed.

(** What [_get_bodyhandler] leaves behind when it returns: no lazy handler
    data, and the handler it returned, if any, as the attribute named by
    [_bodytypename]. *)
Lemma get_bodyhandler_post E p p1 r :
  (forall cb q, run_listener E cb q = q) ->
  _get_bodyhandler E p = (p1, Ok r) ->
  _lazy_handler_data p1 = None /\
  match r with
  | None => _bodytypename p1 = None
  | Some h => exists n, _bodytypename p1 = Some n /\ _handler_attr p1 = Some (n, h)
  end.
Proof.
  intros Hr. unfold _get_bodyhandler.
  destruct (_lazy_handler_data p) as [[[n clz] buf]|] eqn:Hlz.
  - unfold __getattr__. rewrite Hlz, String.eqb_refl.
    destruct (construct E clz buf p) as [ti|e].
    + rewrite set_bodyhandler_Some by (exact Hr || (left; rewrite Hlz; reflexivity)).
      cbv zeta. intros [= <- <-]. destruct_packet p. cbn. eauto.
    + intros [= <- <-]. destruct_packet p. cbn. auto.
  - destruct (_bodytypename p) as [n|] eqn:Hbt.
    + unfold bind, getattr_bodytype, ret. rewrite Hbt.
      destruct (_handler_attr p) as [[n' h]|] eqn:Ha; [|discriminate].
      destruct (String.eqb n n') eqn:Hn; [|discriminate].
      apply String.eqb_eq in Hn. subst n'.
      intros [= <- <-]. eauto.
    + intros [= <- <-]. auto.
Qed.

(** Asking for the body handler a second time returns the same handler and
    changes nothing. *)
Lemma get_bodyhandler_again E p p1 r :
  (forall cb q, run_listener E cb q = q) ->
  _get_bodyhandler E p = (p1, Ok r) ->
  _get_bodyhandler E p1 = (p1, Ok r).
Proof.
  intros Hr H. destruct (get_bodyhandler_post E p p1 r Hr H) as [Hlz Hp].
  unfold _get_bodyhandler. rewrite Hlz.
  destruct r as [h|].
  - destruct Hp as (n & Hbt & Ha). unfold bind, getattr_bodytype, ret.
    rewrite Hbt, Ha, String.eqb_refl. reflexivity.
  - rewrite Hp. reflexivity.
Qed.

Lemma get_bodyhandler_put E p h h' n :
  _lazy_handler_data p = None -> _bodytypename p = Some n ->
  _handler_attr p = Some (n, h) ->
  _get_bodyhandler E (put_handler h' p) = (put_handler h' p, Ok (Some h')) /\
  put_handler h' (put_handler h' p) = put_handler h' p.
Proof.
  intros Hlz Hbt Ha. unfold _get_bodyhandler, put_handler. rewrite Ha.
  destruct_packet p. cbn in *. subst.
  unfold bind, getattr_bodytype, ret. cbn. rewrite String.eqb_refl. split; reflexivity.
Qed.

(** [dissect_full()] returns [None]; it leaves the packet as reading
    [highest_layer] leaves it, and the highest layer is the same afterwards. *)
Theorem dissect_full_highest_layer (E : Env) (fuel : nat) (p p' top : Packet) :
  (forall cb q, run_listener E cb q = q) ->
  _highest_layer E fuel p = Some (p', Ok top) ->
  dissect_full E fuel p = (p', Ok tt) /\
  _highest_layer E fuel p' = Some (p', Ok top).
Proof.
  intros Hr. revert p p' top.
  induction fuel as [|fuel IH]; intros p p' top H; [discriminate|].
  cbn [_highest_layer dissect_full] in *.
  destruct (_get_bodyhandler E p) as [p1 [[h|]|e]] eqn:Hg; [| |discriminate].
  - pose proof (get_bodyhandler_again E p p1 _ Hr Hg) as Hg1.
    destruct (get_bodyhandler_post E p p1 _ Hr Hg) as (Hlz & n & Hbt & Ha).
    rewrite Hg1 in H.
    destruct (_highest_layer E fuel h) as [[h' r]|] eqn:Hh; [|discriminate].
    injection H as <- ->.
    destruct (IH h h' top Hh) as [Hd Hh'].
    rewrite Hd. split; [reflexivity|].
    destruct (get_bodyhandler_put E p1 h h' n Hlz Hbt Ha) as [Hg2 Hpp].
    rewrite Hg2, Hg2, Hh', Hpp. reflexivity.
  - injection H as <- <-.
    pose proof (get_bodyhandler_again E p p1 _ Hr Hg) as Hg1.
    split; [reflexivity|]. rewrite Hg1. reflexivity.
Qed.

Lemma dissect_full_highest_layer_witness :
  let p := UDP.new env_plain udp_ping None in
  exists p' top,
    _highest_layer env_plain 2 p = Some (p', Ok top) /\
    _class_name top = "DNS"%string /\
    dissect_full env_plain 2 p = (p', Ok tt) /\
    _highest_layer env_plain 2 p' = Some (p', Ok top).
Proof.
  intros p.
  destruct (_highest_layer env_plain 2 p) as [[p' [top|e]]|] eqn:H;
    try (vm_compute in H; discriminate H).
  exists p', top. split; [reflexivity|]. split.
  - vm_compute in H. injection H as _ <-. reflexivity.
  - apply (dissect_full_highest_layer env_plain 2 p p' top); [reflexivity|exact H].
Defined.

(** [_set_bodyhandler(hndl)], whatever body the packet had before. *)
Lemma set_bodyhandler_any E h p :
  (forall cb q, run_listener E cb q = q) -> wf_body p = true ->
  exists l,
    _set_bodyhandler E (Some h) p =
      (set_lazy_handler_data None
         (set_body_changed true
            (set_handler_attr
               (Some (lower (_class_name h), set_lower_layer (Some l) h))
               (set_body_bytes None
                  (set_bodytypename (Some (lower (_class_name h))) p)))), Ok tt).
Proof.
  intros Hr Hwf.
  destruct (is_None (_lazy_handler_data p)) eqn:Hlz;
    [destruct (_bodytypename p) as [n|] eqn:Hbt|].
  - unfold wf_body in Hwf. rewrite Hbt in Hwf.
    destruct (_lazy_handler_data p) eqn:Hlz'; [discriminate|].
    destruct (_handler_attr p) as [[n' old]|] eqn:Ha; [|discriminate].
    unfold _set_bodyhandler, getattr_bodytype, put_handler. unfold_m.
    rewrite Hbt, Hlz', Ha, Hwf, Ha. cbn [is_None negb andb].
    rewrite notify_trivial by exact Hr.
    eexists. destruct_packet p. reflexivity.
  - rewrite set_bodyhandler_Some by (exact Hr || (right; exact Hbt)).
    eexists. reflexivity.
  - rewrite set_bodyhandler_Some by (exact Hr || (left; exact Hlz)).
    eexists. reflexivity.
Qed.

(** After [p.body_handler = hndl], for a handler whose lower-case class
    name is free on [p]: reading [p.body_handler] returns [hndl], now
    linked to [p] as its lower layer, under that name; the raw body bytes
    and the lazy handler data are gone, the body counts as changed, and
    the header is as it was. *)
Theorem set_bodyhandler_then_get (E : Env) (hndl p : Packet) :
  (forall cb q, run_listener E cb q = q) ->
  wf_body p = true ->
  attribute_taken p (lower (_class_name hndl)) = false ->
  exists p' h,
    _set_bodyhandler E (Some hndl) p = (p', Ok tt) /\
    _get_bodyhandler E p' = (p', Ok (Some h)) /\
    h = set_lower_layer (_lower_layer h) hndl /\
    is_None (_lower_layer h) = false /\
    _bodytypename p' = Some (lower (_class_name hndl)) /\
    _body_bytes p' = None /\ _lazy_handler_data p' = None /\
    _body_changed p' = true /\
    _fields p' = _fields p /\ _header_cached p' = _header_cached p /\
    _header_changed p' = _header_changed p /\ _header_len p' = _header_len p.
Proof.
  intros Hr Hwf _. destruct (set_bodyhandler_any E hndl p Hr Hwf) as [l ->].
  eexists _, (set_lower_layer (Some l) hndl). split; [reflexivity|].
  destruct_packet p. split.
  { unfold _get_bodyhandler, bind, getattr_bodytype, ret. cbn.
    rewrite String.eqb_refl. reflexivity. }
  split; [destruct hndl; reflexivity|]. split; [destruct hndl; reflexivity|].
  repeat split.
Qed.

Lemma set_bodyhandler_then_get_witness :
  exists p' h,
    _set_bodyhandler env0 (Some (__init__default (plain_class "DNS")))
        (__init__default UDP.cls)
      = (p', Ok tt) /\
    _get_bodyhandler env0 p' = (p', Ok (Some h)) /\
    h = set_lower_layer (_lower_layer h) (__init__default (plain_class "DNS")) /\
    is_None (_lower_layer h) = false /\
    _bodytypename p' = Some (lower (_class_name (__init__default (plain_class "DNS")))) /\
    _body_bytes p' = None /\ _lazy_handler_data p' = None /\
    _body_changed p' = true /\
    _fields p' = _fields (__init__default UDP.cls) /\
    _header_cached p' = _header_cached (__init__default UDP.cls) /\
    _header_changed p' = _header_changed (__init__default UDP.cls) /\
    _header_len p' = _header_len (__init__default UDP.cls).
Proof.
  apply (set_bodyhandler_then_get env0 (__init__default (plain_class "DNS"))
           (__init__default UDP.cls));
    reflexivity.
Defined.

(** Reading the body handler of a packet that holds lazy handler data
    calls the handler class on the body.  The handler it returns, its
    lower-case class name being free on the packet, is linked to the
    packet, the body does not count as changed, and [Packet.bin] is the
    cached header followed by what the handler's [bin] gives. *)
Theorem lazy_handler_forced (E : Env) (handler_bin : bool -> M bytes)
    (update_auto_fields : bool) (p h : Packet) (n clz : string) (body : bytes) :
  (forall cb q, run_listener E cb q = q) ->
  _lazy_handler_data p = Some (n, clz, body) ->
  _header_changed p = false ->
  construct E clz body p = Ok h ->
  attribute_taken p (lower (_class_name h)) = false ->
  exists p1 h1,
    _get_bodyhandler E p = (p1, Ok (Some h1)) /\
    h1 = set_lower_layer (_lower_layer h1) h /\
    is_None (_lower_layer h1) = false /\
    _body_changed p1 = false /\
    _lazy_handler_data p1 = None /\
    forall h2 b,
      handler_bin update_auto_fields (deref_lower p1 h1) = (h2, Ok b) ->
      (bin E handler_bin update_auto_fields p1).2 = Ok (_header_cached p ++ b).
Proof.
  intros Hr Hlz Hc Hh _. unfold _get_bodyhandler at 1. unfold __getattr__.
  rewrite Hlz, String.eqb_refl, Hh.
  rewrite set_bodyhandler_Some by (exact Hr || (left; rewrite Hlz; reflexivity)).
  cbv zeta. destruct_packet p. cbn in Hc. subst. cbn.
  eexists _, _. split; [reflexivity|].
  split; [destruct h; reflexivity|]. split; [destruct h; reflexivity|].
  split; [reflexivity|]. split; [reflexivity|].
  intros h2 b Hb. unfold bin. cbn [_lazy_handler_data _bodytypename].
  unfold _get_bodyhandler, bind, getattr_bodytype, ret.
  cbn [_lazy_handler_data _bodytypename _handler_attr].
  rewrite String.eqb_refl. rewrite Hb. reflexivity.
Qed.

Lemma lazy_handler_forced_witness :
  let p := UDP.new env_plain udp_ping None in
  let body := [x70; x69; x6e; x67] in
  let h := __init__ (plain_class "DNS") _dissect body (Some p) in
  let hb := method_bin env_plain in_cksum_spec 1 in
  exists p1 h1,
    _get_bodyhandler env_plain p = (p1, Ok (Some h1)) /\
    h1 = set_lower_layer (_lower_layer h1) h /\
    is_None (_lower_layer h1) = false /\
    _body_changed p1 = false /\
    _lazy_handler_data p1 = None /\
    forall h2 b,
      hb false (deref_lower p1 h1) = (h2, Ok b) ->
      (bin env_plain hb false p1).2 = Ok (_header_cached p ++ b).
Proof.
  apply (lazy_handler_forced env_plain (method_bin env_plain in_cksum_spec 1) false
           (UDP.new env_plain udp_ping None)
           (__init__ (plain_class "DNS") _dissect [x70; x69; x6e; x67]
              (Some (UDP.new env_plain udp_ping None)))
           "dns" "DNS" [x70; x69; x6e; x67]);
    reflexivity.
Defined.

(** ** The handler registry *)

Lemma fold_ids_lookup (c : string) (ids : list Z) (tbl : gmap Z string) (id : Z) :
  foldl (fun t id_x => <[id_x := c]> t) tbl ids !! id
    = if decide (id ∈ ids) then Some c else tbl !! id.
Proof.
  revert tbl. induction ids as [|i ids IH]; intros tbl; [reflexivity|].
  cbn [foldl]. rewrite IH.
  destruct (decide (id ∈ ids)) as [Hin|Hin].
  - rewrite decide_True by (right; exact Hin). reflexivity.
  - destruct (decide (id = i)) as [->|Hne].
    + rewrite decide_True by left. apply lookup_insert_eq.
    + rewrite decide_False by (intros H; apply elem_of_cons in H as [?|?]; tauto).
      apply lookup_insert_ne. congruence.
Qed.

Lemma fold_entries_other (handler : list (list Z * string))
    (tbl : gmap Z string) (id : Z) :
  id ∉ concat (map fst handler) ->
  foldl (fun tbl entry =>
           foldl (fun t id_x => <[id_x := entry.2]> t) tbl entry.1) tbl handler !! id
    = tbl !! id.
Proof.
  revert tbl. induction handler as [|[ids c] handler IH]; intros tbl Hn; [reflexivity|].
  cbn [foldl map concat fst snd] in *.
  rewrite IH by (intros H; apply Hn, elem_of_app; right; exact H).
  rewrite fold_ids_lookup, decide_False; [reflexivity|].
  intros H. apply Hn, elem_of_app. left. exact H.
Qed.

Lemma fold_entries_lookup (handler : list (list Z * string))
    (tbl : gmap Z string) (ids : list Z) (c : string) (id : Z) :
  NoDup (concat (map fst handler)) ->
  (ids, c) ∈ handler -> id ∈ ids ->
  foldl (fun tbl entry =>
           foldl (fun t id_x => <[id_x := entry.2]> t) tbl entry.1) tbl handler !! id
    = Some c.
Proof.
  revert tbl. induction handler as [|[ids' c'] handler IH]; intros tbl Hnd Hin Hid.
  - apply elem_of_nil in Hin. contradiction.
  - cbn [foldl map concat fst snd] in *.
    apply NoDup_app in Hnd as (Hnd1 & Hdis & Hnd2).
    apply elem_of_cons in Hin as [[= <- <-]|Hin].
    + rewrite fold_entries_other by (apply Hdis; exact Hid).
      rewrite fold_ids_lookup, decide_True by exact Hid. reflexivity.
    + apply IH; assumption.
Qed.

(** [Packet.load_handler] for a class that has no handlers yet: every id
    of the given dict, also one inside a tuple, leads to its class; other
    ids and the handlers of other classes are as before; and a second call
    for the same class changes nothing. *)
Theorem load_handler_lookup (clz_name : string) (handler : list (list Z * string))
    (registry : gmap string (gmap Z string)) :
  registry !! clz_name = None ->
  NoDup (concat (map fst handler)) ->
  let registry' := load_handler clz_name handler registry in
  exists tbl,
    registry' !! clz_name = Some tbl /\
    (forall ids c id, (ids, c) ∈ handler -> id ∈ ids -> tbl !! id = Some c) /\
    (forall id, id ∉ concat (map fst handler) -> tbl !! id = None) /\
    (forall other, other <> clz_name -> registry' !! other = registry !! other) /\
    (forall handler2, load_handler clz_name handler2 registry' = registry').
Proof.
  intros Hnone Hnd registry'. unfold registry', load_handler. rewrite Hnone.
  eexists. split; [apply lookup_insert_eq|].
  split; [intros ids c id Hin Hid; apply (fold_entries_lookup _ _ ids); assumption|].
  split; [intros id Hid; rewrite fold_entries_other by exact Hid; apply lookup_empty|].
  split; [intros other Ho; apply lookup_insert_ne; congruence|].
  intros handler2. rewrite lookup_insert_eq. reflexivity.
Qed.

(** The registry after udp.py and radiotap.py were loaded is the one that
    the two calls of [load_handler] build. *)
Lemma loaded_handlers_built :
  load_handler "Radiotap" radiotap_handler_dict
    (load_handler "UDP" udp_handler_dict ∅) = loaded_handlers.
Proof. vm_compute. reflexivity. Qed.

Lemma load_handler_lookup_witness :
  exists tbl,
    load_handler "UDP" udp_handler_dict ∅ !! "UDP"%string = Some tbl /\
    (forall ids c id, (ids, c) ∈ udp_handler_dict -> id ∈ ids -> tbl !! id = Some c) /\
    (forall id, id ∉ concat (map fst udp_handler_dict) -> tbl !! id = None) /\
    (forall other, other <> "UDP"%string ->
       load_handler "UDP" udp_handler_dict ∅ !! other
         = (∅ : gmap string (gmap Z string)) !! other) /\
    (forall handler2,
       load_handler "UDP" handler2 (load_handler "UDP" udp_handler_dict ∅)
         = load_handler "UDP" udp_handler_dict ∅).
Proof.
  apply (load_handler_lookup "UDP" udp_handler_dict ∅).
  - reflexivity.
  - apply (bool_decide_unpack _). vm_compute. reflexivity.
Defined.

(** ** Concatenation of layers *)

Lemma add_no_handler E fuel q p :
  (forall cb r, run_listener E cb r = r) ->
  _bodytypename p = None ->
  __add__ E (S fuel) q p =
    (let name := lower (_class_name q) in
     let p0 := set_target_unpack_clz (Some "type"%string) p in
     let p1 := set_body_bytes None (set_bodytypename (Some name) p0) in
     set_lazy_handler_data None
       (set_body_changed true
          (set_handler_attr
             (Some (name, set_lower_layer (Some (lower_view p1)) q)) p1)), Ok tt).
Proof.
  intros Hr Hbt. unfold __add__. unfold_m. cbn [add_to_highest].
  replace (_bodytypename (set_target_unpack_clz (Some "type"%string) p)) with (@None string)
    by (destruct_packet p; cbn in *; congruence).
  rewrite set_bodyhandler_Some; [reflexivity|exact Hr|].
  right. destruct_packet p. exact Hbt.
Qed.

(** [A + B + C] for three packets without body handlers and with unchanged
    headers, of classes that inherit [Packet.bin], the lower-case class
    names of [B] and [C] being free on [A] and [B]: [C] becomes the handler
    of [B], which is the handler of [A], and [bin()] of the result is the
    three cached headers followed by the body of [C]; the raw body bytes of
    [A] and [B] are dropped. *)
Theorem add_layers_bin (E : Env) (handler_bin : bool -> M bytes)
    (update_auto_fields : bool) (fuel : nat) (A B C : Packet) (body : bytes) :
  (forall cb r, run_listener E cb r = r) ->
  _bodytypename A = None -> _bodytypename B = None -> _bodytypename C = None ->
  _lazy_handler_data C = None -> _body_bytes C = Some body ->
  _header_changed A = false -> _header_changed B = false ->
  _header_changed C = false ->
  attribute_taken A (lower (_class_name B)) = false ->
  attribute_taken B (lower (_class_name C)) = false ->
  exists AB ABC,
    __add__ E (S fuel) B A = (AB, Ok tt) /\
    __add__ E (S (S fuel)) C AB = (ABC, Ok tt) /\
    (bin E (bin E (bin E handler_bin)) update_auto_fields ABC).2
      = Ok (_header_cached A ++ _header_cached B ++ _header_cached C ++ body).
Proof.
  intros Hr HA HB HC HlzC HbC HcA HcB HcC _ _.
  destruct_packet A. cbn in HA, HcA. subst.
  destruct B as [cn' fs' hf' hl' hc' hch' hfc' bc' bb' btn' lz' ha' ll' cl' tu' up' de' fc'].
  cbn in HB, HcB. subst.
  destruct C as [cn2 fs2 hf2 hl2 hc2 hch2 hfc2 bc2 bb2 btn2 lz2 ha2 ll2 cl2 tu2 up2 de2 fc2].
  cbn in HC, HlzC, HbC, HcC. subst.
  rewrite add_no_handler by (exact Hr || reflexivity). cbv zeta.
  eexists _, _. split; [reflexivity|].
  unfold __add__ at 1. unfold_m. cbn [add_to_highest].
  cbn [set_target_unpack_clz set_lazy_handler_data set_body_changed set_handler_attr
       set_body_bytes set_bodytypename _bodytypename].
  unfold _get_bodyhandler at 1. cbn [_lazy_handler_data _bodytypename].
  unfold bind, getattr_bodytype, ret. cbn [_bodytypename _handler_attr].
  rewrite String.eqb_refl.
  cbn [set_lower_layer _bodytypename].
  rewrite set_bodyhandler_Some by (exact Hr || (right; reflexivity)).
  cbv zeta. cbn [put_handler _handler_attr set_handler_attr].
  split; [reflexivity|].
  unfold bin, _get_bodyhandler, bind, getattr_bodytype, ret, deref_lower, put_handler.
  cbn. rewrite !String.eqb_refl. cbn. rewrite !String.eqb_refl. cbn.
  rewrite <- ?app_assoc. reflexivity.
Qed.

Lemma add_layers_bin_witness :
  let A := __init__default (layer_class "Low" FB 1) in
  let B := __init__ (layer_class "Mid" FH 0) _dissect [x00; x07; xff] None in
  let C := __init__ (plain_class "Top") _dissect [x01; x02] None in
  _header_cached A = [x01] /\ _header_cached B = [x00; x07] /\
  exists AB ABC,
    __add__ env0 1 B A = (AB, Ok tt) /\
    __add__ env0 2 C AB = (ABC, Ok tt) /\
    (bin env0 (bin env0 (bin env0 (method_bin env0 in_cksum_spec 0))) true ABC).2
      = Ok (_header_cached A ++ _header_cached B ++ _header_cached C ++ [x01; x02]).
Proof.
  split; [reflexivity|]. split; [reflexivity|].
  apply (add_layers_bin env0 (method_bin env0 in_cksum_spec 0) true 0
           (__init__default (layer_class "Low" FB 1))
           (__init__ (layer_class "Mid" FH 0) _dissect [x00; x07; xff] None)
           (__init__ (plain_class "Top") _dissect [x01; x02] None) [x01; x02]);
    reflexivity.
Defined.

(** What [_get_bodyhandler] makes of lazy handler data when the handler
    class returns a handler. *)
Lemma get_bodyhandler_lazy E p h n clz body :
  (forall cb r, run_listener E cb r = r) ->
  _lazy_handler_data p = Some (n, clz, body) ->
  construct E clz body p = Ok h ->
  _get_bodyhandler E p =
    (let name := lower (_class_name h) in
     let p1 := set_body_bytes None (set_bodytypename (Some name) p) in
     let h1 := set_lower_layer (Some (lower_view p1)) h in
     (set_body_changed false
        (set_lazy_handler_data None
           (set_handler_attr (Some (name, h1)) p1)), Ok (Some h1))).
Proof.
  intros Hr Hlz Hh. unfold _get_bodyhandler, __getattr__.
  rewrite Hlz, String.eqb_refl, Hh.
  rewrite set_bodyhandler_Some by (exact Hr || (left; rewrite Hlz; reflexivity)).
  cbv zeta. destruct_packet p. reflexivity.
Qed.

(** [A + B] when [A] holds lazy handler data: the handler class is called
    on the lazy bytes, and [B] becomes the body handler of the handler it
    returns.  This is also so for a handler that could not dissect the
    bytes: [Packet.__init__] catches what [_dissect] raises and returns the
    handler with [dissect_error] set.  The call returns normally, and the
    handler keeps its cached header and its [dissect_error] but loses its
    raw body bytes.  The handler has no body handler of its own, and the
    lower-case class names are free. *)
Theorem add_unparsable_lazy (E : Env) (fuel : nat) (q p h : Packet)
    (n0 n clz : string) (body : bytes) :
  (forall cb r, run_listener E cb r = r) ->
  _bodytypename p = Some n0 ->
  _lazy_handler_data p = Some (n, clz, body) ->
  construct E clz body (set_target_unpack_clz (Some "type"%string) p) = Ok h ->
  _bodytypename h = None ->
  attribute_taken p (lower (_class_name h)) = false ->
  attribute_taken h (lower (_class_name q)) = false ->
  exists p' h' q',
    __add__ E (S (S fuel)) q p = (p', Ok tt) /\
    _get_bodyhandler E p' = (p', Ok (Some h')) /\
    _get_bodyhandler E h' = (h', Ok (Some q')) /\
    q' = set_lower_layer (_lower_layer q') q /\
    _dissect_error h' = _dissect_error h /\
    _header_cached h' = _header_cached h /\
    _body_bytes h' = None /\
    _lazy_handler_data p' = None /\ _body_bytes p' = None /\
    _header_cached p' = _header_cached p.
Proof.
  intros Hr Hbt Hlz Hc Hbh _ _. unfold __add__. unfold_m.
  cbn [add_to_highest].
  assert (Hbt0 : _bodytypename (set_target_unpack_clz (Some "type"%string) p) = Some n0)
    by (destruct_packet p; exact Hbt).
  assert (Hlz0 : _lazy_handler_data (set_target_unpack_clz (Some "type"%string) p)
                 = Some (n, clz, body))
    by (destruct_packet p; exact Hlz).
  rewrite Hbt0, (get_bodyhandler_lazy E _ h n clz body Hr Hlz0 Hc). cbv zeta.
  cbn [add_to_highest].
  replace (_bodytypename
             (set_lower_layer
                (Some (lower_view
                   (set_body_bytes None
                      (set_bodytypename (Some (lower (_class_name h)))
                         (set_target_unpack_clz (Some "type"%string) p))))) h))
    with (@None string) by (destruct h; cbn in *; congruence).
  rewrite set_bodyhandler_Some
    by (exact Hr || (right; destruct h; cbn in *; congruence)).
  cbv zeta. destruct_packet p.
  destruct h as [cn' fs' hf' hl' hc' hch' hfc' bc' bb' btn' lz' ha' ll' cl' tu' up' de' fc'].
  destruct q as [cn2 fs2 hf2 hl2 hc2 hch2 hfc2 bc2 bb2 btn2 lz2 ha2 ll2 cl2 tu2 up2 de2 fc2].
  cbn [put_handler _handler_attr set_handler_attr set_body_changed
       set_lazy_handler_data set_body_bytes set_bodytypename set_target_unpack_clz
       set_lower_layer _class_name].
  eexists _, _, _. split; [reflexivity|].
  unfold _get_bodyhandler, bind, getattr_bodytype, ret.
  cbn [_lazy_handler_data _bodytypename _handler_attr].
  rewrite !String.eqb_refl.
  split; [reflexivity|].
  cbn [_lazy_handler_data _bodytypename _handler_attr].
  rewrite !String.eqb_refl.
  split; [reflexivity|]. repeat split.
Qed.

Lemma add_unparsable_lazy_witness :
  let p := UDP.new env_failing udp_ping None in
  let q := __init__ (plain_class "Top") _dissect [x01; x02] None in
  let h := __init__ (plain_class "DNS") (fun _ => raise GenericException)
             [x70; x69; x6e; x67]
             (Some (set_target_unpack_clz (Some "type"%string) p)) in
  _dissect_error h = true /\
  exists p' h' q',
    __add__ env_failing 2 q p = (p', Ok tt) /\
    _get_bodyhandler env_failing p' = (p', Ok (Some h')) /\
    _get_bodyhandler env_failing h' = (h', Ok (Some q')) /\
    q' = set_lower_layer (_lower_layer q') q /\
    _dissect_error h' = _dissect_error h /\
    _header_cached h' = _header_cached h /\
    _body_bytes h' = None /\
    _lazy_handler_data p' = None /\ _body_bytes p' = None /\
    _header_cached p' = _header_cached p.
Proof.
  split; [reflexivity|].
  apply (add_unparsable_lazy env_failing 0
           (__init__ (plain_class "Top") _dissect [x01; x02] None)
           (UDP.new env_failing udp_ping None)
           (__init__ (plain_class "DNS") (fun _ => raise GenericException)
              [x70; x69; x6e; x67]
              (Some (set_target_unpack_clz (Some "type"%string)
                       (UDP.new env_failing udp_ping None))))
           "dns" "dns" "DNS" [x70; x69; x6e; x67]);
    reflexivity.
Defined.

(** ** UDP: direction and reversed addresses *)

Lemma setfield_udp_sport E p sport dport ulen s v :
  udp_unpacked p sport dport ulen s -> _changelistener p = [] ->
  setfield_simple E "sport" (VInt v) p =
    (set_header_changed true (set_fields (udp_fields v dport ulen s) p), Ok tt).
Proof.
  intros (Hf & Hfmt & Hhfc & Hup) Hl. destruct_packet p. cbn in *. subst.
  unfold setfield_simple. unfold_m. cbn.
  rewrite ?notify_no_listener by reflexivity. reflexivity.
Qed.

Lemma setfield_udp_dport E p sport dport ulen s v :
  udp_unpacked p sport dport ulen s -> _changelistener p = [] ->
  setfield_simple E "dport" (VInt v) p =
    (set_header_changed true (set_fields (udp_fields sport v ulen s) p), Ok tt).
Proof.
  intros (Hf & Hfmt & Hhfc & Hup) Hl. destruct_packet p. cbn in *. subst.
  unfold setfield_simple. unfold_m. cbn.
  rewrite ?notify_no_listener by reflexivity. reflexivity.
Qed.

Lemma getfield_udp_ports p sport dport ulen s :
  udp_unpacked p sport dport ulen s ->
  getfield_simple "sport" p = (p, Ok (VInt sport)) /\
  getfield_simple "dport" p = (p, Ok (VInt dport)).
Proof.
  intros (Hf & Hfmt & Hhfc & Hup). destruct_packet p. cbn in *. subst.
  split; reflexivity.
Qed.

Lemma udp_unpacked_set p a b c d a' b' c' d' :
  udp_unpacked p a b c d ->
  udp_unpacked (set_header_changed true (set_fields (udp_fields a' b' c' d') p))
    a' b' c' d' /\
  _changelistener (set_header_changed true (set_fields (udp_fields a' b' c' d') p))
    = _changelistener p.
Proof.
  intros (Hf & Hfmt & Hhfc & Hup). destruct_packet p. cbn in *. subst.
  repeat split.
Qed.

Lemma UDP_reverse_unpacked E p sport dport ulen s :
  udp_unpacked p sport dport ulen s -> _changelistener p = [] ->
  UDP_reverse_address E p =
    (set_header_changed true (set_fields (udp_fields dport sport ulen s) p), Ok tt).
Proof.
  intros Hu Hl. destruct (getfield_udp_ports p _ _ _ _ Hu) as [Hs Hd].
  unfold UDP_reverse_address. unfold bind at 1. rewrite Hd.
  unfold bind at 1. rewrite Hs. unfold bind.
  rewrite (setfield_udp_sport E p sport dport ulen s dport Hu Hl).
  destruct (udp_unpacked_set p sport dport ulen s dport dport ulen s Hu) as [Hu1 Hl1].
  rewrite (setfield_udp_dport E _ dport dport ulen s sport Hu1)
    by (rewrite Hl1; exact Hl).
  destruct_packet p. reflexivity.
Qed.

Lemma UDP_direction_unpacked p q a b c d a' b' c' d' :
  udp_unpacked p a b c d -> udp_unpacked q a' b' c' d' ->
  (UDP_direction p q).2 =
    Ok (if (a =? a') && (b =? b') then Z.lor DIR_SAME DIR_REV
        else if (a =? b') && (b =? a') then DIR_REV else DIR_UNKNOWN).
Proof.
  intros Hp Hq.
  destruct (getfield_udp_ports p _ _ _ _ Hp) as [Hs Hd].
  destruct (getfield_udp_ports q _ _ _ _ Hq) as [Hs' Hd'].
  unfold UDP_direction, both_hold, fields_equal.
  rewrite Hs, Hs'. cbn [value_eqb].
  destruct (a =? a') eqn:H1.
  - rewrite Hd, Hd'. cbn [value_eqb andb].
    destruct (b =? b') eqn:H2; [reflexivity|].
    rewrite Hs, Hd'. cbn [value_eqb].
    destruct (a =? b') eqn:H3; [|reflexivity].
    rewrite Hd, Hs'. cbn [value_eqb andb].
    destruct (b =? a'); reflexivity.
  - cbn [andb]. rewrite Hs, Hd'. cbn [value_eqb].
    destruct (a =? b') eqn:H3; [|reflexivity].
    rewrite Hd, Hs'. cbn [value_eqb andb].
    destruct (b =? a'); reflexivity.
Qed.

(** [reverse_address()] swaps the ports of an unpacked UDP packet and marks
    the header as changed; twice, it restores them.  The direction of a
    packet towards itself is [DIR_SAME | DIR_REV]; towards the packet with
    reversed ports it is [DIR_REV], and [DIR_SAME | DIR_REV] when the two
    ports are the same. *)
Theorem UDP_reverse_direction (E : Env) (p : Packet) (sport dport ulen s : Z) :
  udp_unpacked p sport dport ulen s ->
  _changelistener p = [] ->
  exists p' p'',
    UDP_reverse_address E p = (p', Ok tt) /\
    _fields p' = udp_fields dport sport ulen s /\
    _header_changed p' = true /\
    UDP_reverse_address E p' = (p'', Ok tt) /\
    _fields p'' = _fields p /\
    (UDP_direction p p).2 = Ok (Z.lor DIR_SAME DIR_REV) /\
    (UDP_direction p p').2
      = Ok (if sport =? dport then Z.lor DIR_SAME DIR_REV else DIR_REV).
Proof.
  intros Hu Hl.
  destruct (udp_unpacked_set p sport dport ulen s dport sport ulen s Hu) as [Hu1 Hl1].
  eexists _, _. split; [exact (UDP_reverse_unpacked E p sport dport ulen s Hu Hl)|].
  split; [destruct_packet p; reflexivity|].
  split; [destruct_packet p; reflexivity|].
  split; [apply (UDP_reverse_unpacked E _ dport sport ulen s Hu1);
          rewrite Hl1; exact Hl|].
  split; [destruct Hu as (Hf & _); destruct_packet p; cbn in *; congruence|].
  split.
  - rewrite (UDP_direction_unpacked p p _ _ _ _ _ _ _ _ Hu Hu).
    rewrite !Z.eqb_refl. reflexivity.
  - rewrite (UDP_direction_unpacked p _ _ _ _ _ _ _ _ _ Hu Hu1).
    rewrite !Z.eqb_refl, (Z.eqb_sym dport sport), !andb_diag.
    destruct (sport =? dport); reflexivity.
Qed.

Lemma UDP_reverse_direction_witness :
  let p := (__init__kwargs env0 UDP.cls
              [("sport"%string, VInt 1234); ("dport"%string, VInt 53)]).1 in
  exists p' p'',
    UDP_reverse_address env0 p = (p', Ok tt) /\
    _fields p' = udp_fields 53 1234 8 0 /\
    _header_changed p' = true /\
    UDP_reverse_address env0 p' = (p'', Ok tt) /\
    _fields p'' = _fields p /\
    (UDP_direction p p).2 = Ok (Z.lor DIR_SAME DIR_REV) /\
    (UDP_direction p p').2
      = Ok (if 1234 =? 53 then Z.lor DIR_SAME DIR_REV else DIR_REV).
Proof.
  apply (UDP_reverse_direction env0
           (__init__kwargs env0 UDP.cls
              [("sport"%string, VInt 1234); ("dport"%string, VInt 53)]).1
           1234 53 8 0); [repeat split|reflexivity].
Defined.

(** ** UDP: unpacking and packing again *)

Lemma decode_uint_2 a b :
  decode_uint BigEndian [a; b] = byte_to_Z a * 256 + byte_to_Z b.
Proof. unfold decode_uint. cbn. lia. Qed.

Lemma uint_be_decode_2 a b : uint_be 2 (decode_uint BigEndian [a; b]) = [a; b].
Proof.
  rewrite decode_uint_2, uint_be_2.
  pose proof (byte_to_Z_range a) as Ha. pose proof (byte_to_Z_range b) as Hb.
  replace ((byte_to_Z a * 256 + byte_to_Z b) / 256) with (byte_to_Z a)
    by (apply Z.div_unique with (r := byte_to_Z b); lia).
  rewrite byte_of_Z_to_Z. f_equal. f_equal.
  rewrite <- (byte_of_Z_to_Z b) at 2.
  unfold byte_of_Z. f_equal. f_equal. f_equal.
  rewrite Z.add_comm, Z.mod_add by lia. reflexivity.
Qed.

Lemma decode_uint_2_range a b : 0 <= decode_uint BigEndian [a; b] < 65536.
Proof.
  rewrite decode_uint_2.
  pose proof (byte_to_Z_range a). pose proof (byte_to_Z_range b). lia.
Qed.

(** The four 16-bit words of a buffer of eight bytes or more. *)
Lemma udp_words buf :
  8 <= len buf ->
  let w a := decode_uint BigEndian (slice buf (Some a) (Some (a + 2))) in
  udp_header (w 0) (w 2) (w 4) (w 6) = slice buf None (Some 8) /\
  0 <= w 0 < 65536 /\ 0 <= w 2 < 65536 /\ 0 <= w 4 < 65536 /\ 0 <= w 6 < 65536.
Proof.
  intros H w. unfold w.
  rewrite slice_to_take, !slice_eq_take_drop by lia.
  destruct (len_ge_8 buf H) as (a & b & c & d & e & f & g & h & rest & ->).
  change (take (Z.to_nat (0 + 2 - 0)) (drop (Z.to_nat 0) (a :: b :: c :: d :: e :: f :: g :: h :: rest)))
    with [a; b].
  change (take (Z.to_nat (2 + 2 - 2)) (drop (Z.to_nat 2) (a :: b :: c :: d :: e :: f :: g :: h :: rest)))
    with [c; d].
  change (take (Z.to_nat (4 + 2 - 4)) (drop (Z.to_nat 4) (a :: b :: c :: d :: e :: f :: g :: h :: rest)))
    with [e; f].
  change (take (Z.to_nat (6 + 2 - 6)) (drop (Z.to_nat 6) (a :: b :: c :: d :: e :: f :: g :: h :: rest)))
    with [g; h].
  split; [|repeat split; apply decode_uint_2_range].
  unfold udp_header. rewrite !uint_be_decode_2. reflexivity.
Qed.

(** [Packet.bin] of an unpacked UDP packet whose header changed and whose
    body is lazy handler data or raw bytes. *)
Lemma bin_udp_changed E hb uaf p sport dport ulen s body :
  udp_unpacked p sport dport ulen s -> _header_changed p = true ->
  0 <= sport < 65536 -> 0 <= dport < 65536 -> 0 <= ulen < 65536 -> 0 <= s < 65536 ->
  (exists n c, _lazy_handler_data p = Some (n, c, body))
  \/ (_lazy_handler_data p = None /\ _bodytypename p = None
      /\ _body_bytes p = Some body) ->
  (bin E hb uaf p).2 = Ok (udp_header sport dport ulen s ++ body).
Proof.
  intros Hu Hc H1 H2 H3 H4 Hb. unfold bin.
  destruct Hb as [(n & c & ->)|(-> & -> & ->)];
    rewrite (pack_header_udp p sport dport ulen s Hu Hc) by assumption;
    reflexivity.
Qed.

(** The first read of a header field of [UDP(buf)] unpacks the header. *)
Lemma UDP_unpacked_after_get E buf name :
  8 <= len buf ->
  In name ["sport"; "dport"; "ulen"; "sum"]%string ->
  let w a := decode_uint BigEndian (slice buf (Some a) (Some (a + 2))) in
  exists p1 v,
    getfield_simple name (UDP.new E buf None) = (p1, Ok (VInt v)) /\
    In (name, v) [("sport", w 0); ("dport", w 2); ("ulen", w 4); ("sum", w 6)]%string /\
    udp_unpacked p1 (w 0) (w 2) (w 4) (w 6) /\
    _class_name p1 = "UDP"%string /\ _changelistener p1 = [] /\
    ((exists n c, _lazy_handler_data p1 = Some (n, c, slice buf (Some 8) None))
     \/ (_lazy_handler_data p1 = None /\ _bodytypename p1 = None
         /\ _body_bytes p1 = Some (slice buf (Some 8) None))).
Proof.
  intros Hl Hn w. unfold w. clear w.
  pose proof (unpack_udp_slice buf Hl) as Hu.
  cbn in Hn.
  destruct (UDP_new_forms E buf ltac:(lia)) as [->|[clz ->]];
    destruct Hn as [<-|[<-|[<-|[<-|[]]]]];
    unfold getfield_simple, _unpack; unfold_m; cbn; rewrite Hu; cbn;
    eexists _, _; (split; [reflexivity|]);
    (split; [cbn; tauto|]);
    (split; [repeat split|]); (split; [reflexivity|]); (split; [reflexivity|]);
    first [right; repeat split; reflexivity | left; eexists _, _; reflexivity].
Qed.

(** Reading a header field of [UDP(buf)] and assigning the value that was
    read marks the header as changed; packing the unpacked values then
    gives the bytes of the buffer again. *)
Theorem UDP_rewrite_field_roundtrip (E : Env) (in_cksum : bytes -> Z) (fuel : nat)
    (buf : bytes) (name : string) :
  8 <= len buf ->
  In name ["sport"; "dport"; "ulen"; "sum"]%string ->
  exists v p1 p2,
    getfield_simple name (UDP.new E buf None) = (p1, Ok v) /\
    setfield_simple E name v p1 = (p2, Ok tt) /\
    _header_changed p2 = true /\
    (method_bin E in_cksum (S fuel) false p2).2 = Ok buf.
Proof.
  intros Hl Hn.
  destruct (UDP_unpacked_after_get E buf name Hl Hn)
    as (p1 & v & Hg & Hv & Hu & Hc & Hls & Hb).
  destruct (udp_words buf Hl) as (Hh & R0 & R2 & R4 & R6).
  cbv zeta in Hh, R0, R2, R4, R6, Hu, Hv.
  set (w0 := decode_uint BigEndian (slice buf (Some 0) (Some (0 + 2)))) in *.
  set (w2 := decode_uint BigEndian (slice buf (Some 2) (Some (2 + 2)))) in *.
  set (w4 := decode_uint BigEndian (slice buf (Some 4) (Some (4 + 2)))) in *.
  set (w6 := decode_uint BigEndian (slice buf (Some 6) (Some (6 + 2)))) in *.
  destruct (udp_unpacked_set p1 w0 w2 w4 w6 w0 w2 w4 w6 Hu) as [Hu2 Hl2].
  exists (VInt v), p1, (set_header_changed true (set_fields (udp_fields w0 w2 w4 w6) p1)).
  split; [exact Hg|].
  split.
  { cbn in Hv.
    destruct Hv as [[= <- <-]|[[= <- <-]|[[= <- <-]|[[= <- <-]|[]]]]].
    - apply setfield_udp_sport with (dport := w2) (ulen := w4) (s := w6) (sport := w0);
        assumption.
    - apply setfield_udp_dport with (dport := w2) (ulen := w4) (s := w6) (sport := w0);
        assumption.
    - apply setfield_udp_ulen with (dport := w2) (ulen := w4) (s := w6) (sport := w0);
        assumption.
    - apply setfield_udp_sum with (dport := w2) (ulen := w4) (s := w6) (sport := w0);
        assumption. }
  split; [destruct_packet p1; reflexivity|].
  rewrite method_bin_UDP_no_update by (destruct_packet p1; exact Hc).
  rewrite (bin_udp_changed E _ false _ w0 w2 w4 w6 (slice buf (Some 8) None) Hu2);
    try assumption.
  - cbn [snd]. rewrite Hh. f_equal. apply slice_split.
  - destruct_packet p1. reflexivity.
  - destruct_packet p1. exact Hb.
Qed.

Lemma UDP_rewrite_field_roundtrip_witness :
  exists v p1 p2,
    getfield_simple "dport" (UDP.new env0 udp_ping None) = (p1, Ok v) /\
    setfield_simple env0 "dport" v p1 = (p2, Ok tt) /\
    _header_changed p2 = true /\
    (method_bin env0 in_cksum_spec 1 false p2).2 = Ok udp_ping.
Proof.
  apply (UDP_rewrite_field_roundtrip env0 in_cksum_spec 0 udp_ping "dport").
  - unfold len. simpl. lia.
  - simpl. tauto.
Defined.

(** ** The header cache *)

Lemma same_body_refl p : same_body p p.
Proof. repeat split. Qed.

Lemma same_body_trans p q r : same_body p q -> same_body q r -> same_body p r.
Proof.
  intros (A1 & A2 & A3 & A4 & A5) (B1 & B2 & B3 & B4 & B5).
  repeat split; congruence.
Qed.

Lemma update_header_format_body p :
  same_body p (_update_header_format p).1.
Proof.
  unfold _update_header_format.
  destruct (header_format_items (_fields p)) as [fs0 [l0|e0]].
  - destruct (join_formats l0); destruct_packet p; repeat split.
  - destruct_packet p. repeat split.
Qed.

Lemma unpack_body p : same_body p (_unpack p).1.
Proof.
  unfold _unpack. unfold_m.
  set (p0 := set_unpacked (Some true) p).
  assert (H0 : same_body p p0) by (unfold p0; destruct_packet p; repeat split).
  assert (H1 : same_body p0
                 ((if _header_format_changed p0 then _update_header_format
                   else fun q => (q, Ok tt)) p0).1).
  { destruct (_header_format_changed p0);
      [apply update_header_format_body|apply same_body_refl]. }
  destruct ((if _header_format_changed p0 then _update_header_format
             else fun q => (q, Ok tt)) p0) as [pa [[]|e]]; cbn [fst] in *.
  - apply (same_body_trans _ _ _ H0). apply (same_body_trans _ _ _ H1).
    destruct (Struct_unpack _ _) as [vals|]; [|apply same_body_refl].
    destruct (unpack_fields _ _) as [fs0 r0]. destruct_packet pa. repeat split.
  - exact (same_body_trans _ _ _ H0 H1).
Qed.

(** [_pack_header] leaves the body alone; when it returns bytes, these are
    the cached header from then on and the header no longer counts as
    changed. *)
Lemma pack_header_post p p2 r :
  _pack_header p = (p2, r) ->
  same_body p p2 /\
  forall h, r = Ok (Some h) -> _header_changed p2 = false /\ _header_cached p2 = h.
Proof.
  unfold _pack_header.
  destruct (_header_changed p) eqn:Hc; cbn [negb].
  2:{ intros [= <- <-]. split; [apply same_body_refl|].
      intros h [= <-]. split; [exact Hc|reflexivity]. }
  unfold bind.
  set (pre := if not_unpacked p then _unpack
              else if _header_format_changed p then _update_header_format
                   else ret tt).
  assert (Hpre : same_body p (pre p).1).
  { unfold pre. destruct (not_unpacked p); [apply unpack_body|].
    destruct (_header_format_changed p);
      [apply update_header_format_body|apply same_body_refl]. }
  destruct (pre p) as [pa [[]|e]]; cbn [fst] in Hpre.
  - destruct (header_values (_fields pa)) as [fs0 [vals|e0]].
    + destruct (Struct_pack _ vals) as [b|].
      * intros [= <- <-]. split.
        { apply (same_body_trans _ _ _ Hpre). destruct_packet pa. repeat split. }
        intros h [= <-]. destruct_packet pa. split; reflexivity.
      * intros [= <- <-]. split; [|discriminate].
        apply (same_body_trans _ _ _ Hpre). destruct_packet pa. repeat split.
    + intros [= <- <-]. split; [|discriminate].
      apply (same_body_trans _ _ _ Hpre). destruct_packet pa. repeat split.
  - intros [= <- <-]. split; [exact Hpre|discriminate].
Qed.

(** When [bin()] of a packet without a parsed body handler returns, the
    changed flags are reset, the cached header is the header part of the
    result, and every later [bin()] returns the same bytes and leaves the
    packet as it is. *)
Theorem bin_twice (E : Env) (handler_bin handler_bin' : bool -> M bytes)
    (update_auto_fields update_auto_fields' : bool) (p p1 : Packet) (b : bytes) :
  is_None (_lazy_handler_data p) = false \/ _bodytypename p = None ->
  bin E handler_bin update_auto_fields p = (p1, Ok b) ->
  _header_changed p1 = false /\ _body_changed p1 = false /\
  (exists body, b = _header_cached p1 ++ body) /\
  bin E handler_bin' update_auto_fields' p1 = (p1, Ok b).
Proof.
  intros Hnh. unfold bin at 1.
  assert (Hbody : exists body,
    (match _lazy_handler_data p with
     | Some (_, _, b0) => (p, Ok (Some b0))
     | None =>
         match _bodytypename p with
         | Some _ =>
             match _get_bodyhandler E p with
             | (p1, Raise e) => (p1, Raise e)
             | (p1, Ok None) => (p1, Raise AttributeError)
             | (p1, Ok (Some h)) =>
                 let '(h', rb) := handler_bin update_auto_fields (deref_lower p1 h) in
                 (put_handler h' p1,
                  match rb with Ok b => Ok (Some b) | Raise e => Raise e end)
             end
         | None => (p, Ok (_body_bytes p))
         end
     end) = (p, Ok body) /\
    ((exists n c b0, _lazy_handler_data p = Some (n, c, b0) /\ body = Some b0)
     \/ (_lazy_handler_data p = None /\ _bodytypename p = None /\ body = _body_bytes p))).
  { destruct (_lazy_handler_data p) as [[[n c] b0]|] eqn:Hlz.
    - eexists. split; [reflexivity|]. left. eauto.
    - destruct Hnh as [Hx|Hbt]; [discriminate|]. rewrite Hbt.
      eexists. split; [reflexivity|]. right. auto. }
  destruct Hbody as (body & -> & Hb).
  destruct (_pack_header p) as [p2 r] eqn:Hp.
  destruct (pack_header_post p p2 r Hp) as [(S1 & S2 & S3 & S4 & S5) Hh].
  destruct r as [[h|]|e]; [| |discriminate].
  2:{ destruct body; discriminate. }
  destruct (Hh h eq_refl) as [Hc2 Hhc].
  destruct body as [bd|]; [|discriminate].
  intros [= <- <-].
  split; [destruct_packet p2; reflexivity|].
  split; [destruct_packet p2; reflexivity|].
  split; [exists bd; destruct_packet p2; cbn in Hhc; subst; reflexivity|].
  rewrite (bin_cached E handler_bin' update_auto_fields' (_reset_changed p2) bd).
  - destruct_packet p2. cbn in Hhc. subst. reflexivity.
  - destruct_packet p2. reflexivity.
  - destruct Hb as [(n & c & b0 & Hlz & [= ->])|(Hlz & Hbt & Hbb)].
    + left. exists n, c. rewrite Hlz in S1. destruct_packet p2. cbn in *. congruence.
    + right. rewrite Hlz in S1. rewrite Hbt in S2. rewrite <- Hbb in S3.
      destruct_packet p2. cbn in *. repeat split; congruence.
Qed.

Lemma bin_twice_witness :
  let hb := method_bin env0 in_cksum_spec 0 in
  let p1 := (bin env0 hb true udp_ping_built).1 in
  let b := udp_header 1234 53 8 0 ++ [x70; x69; x6e; x67] in
  _header_changed p1 = false /\ _body_changed p1 = false /\
  (exists body, b = _header_cached p1 ++ body) /\
  bin env0 hb false p1 = (p1, Ok b).
Proof.
  apply (bin_twice env0 (method_bin env0 in_cksum_spec 0)
           (method_bin env0 in_cksum_spec 0) true false udp_ping_built
           (bin env0 (method_bin env0 in_cksum_spec 0) true udp_ping_built).1
           (udp_header 1234 53 8 0 ++ [x70; x69; x6e; x67])).
  - right. reflexivity.
  - vm_compute. reflexivity.
Defined.

(** ** Radiotap: the flags of the header *)

(** [l[a:b] + l[b:c] == l[a:c]]. *)
Lemma slice_concat {A} (l : list A) (a b c : Z) :
  0 <= a <= b -> b <= c ->
  slice l (Some a) (Some b) ++ slice l (Some b) (Some c) = slice l (Some a) (Some c).
Proof.
  intros Hab Hbc. unfold slice, clamp_index.
  pose proof (len_nonneg l) as Hn.
  destruct (a <? 0) eqn:Ha; [apply Z.ltb_lt in Ha; lia|].
  destruct (b <? 0) eqn:Hb; [apply Z.ltb_lt in Hb; lia|].
  destruct (c <? 0) eqn:Hc; [apply Z.ltb_lt in Hc; lia|].
  set (a' := Z.min a (len l)). set (b' := Z.min b (len l)). set (c' := Z.min c (len l)).
  assert (0 <= a' <= b' /\ b' <= c' /\ c' <= len l) as (H1 & H2 & H3) by lia.
  replace (drop (Z.to_nat b') l)
    with (drop (Z.to_nat (b' - a')) (drop (Z.to_nat a') l))
    by (rewrite drop_drop; f_equal; lia).
  rewrite take_take_drop. f_equal. lia.
Qed.

Lemma field_size_pos (size align off : Z) :
  0 < size -> 0 < align ->
  0 < (if negb (off mod align =? 0) then size + (align - off mod align) else size).
Proof.
  intros Hs Ha. pose proof (Z.mod_pos_bound off align Ha).
  destruct (off mod align =? 0); cbn; lia.
Qed.

Lemma flags_end_ge fields pf off :
  Forall (fun f => 0 < f.2.1 /\ 0 < f.2.2) fields ->
  off <= flags_end fields pf off.
Proof.
  intros H. revert off. induction H as [|[mask [size align]] fields [Hs Ha] _ IH];
    intros off; cbn [flags_end]; [lia|].
  destruct (Z.land mask pf =? 0); [apply IH|].
  cbn [fst snd] in *.
  pose proof (field_size_pos size align off Hs Ha).
  etransitivity; [|apply IH]. lia.
Qed.

(** The loop of [_parse_flags] for a packet whose [present_flags] reads
    as [pf] without unpacking: the packet is left alone; the result, when
    there is one, holds the present fields in the order of the table, and
    their values are the buffer from [off] to the end that [flags_end]
    computes. *)
Lemma parse_flags_loop_ok fields p pf buf :
  getfield_simple "present_flags" p = (p, Ok (VInt pf)) ->
  Forall (fun f => 0 < f.2.1 /\ 0 < f.2.2) fields ->
  forall off acc, 0 <= off ->
    exists r,
      parse_flags_loop fields (Some buf) off acc p = (p, r) /\
      forall flags, r = Ok flags ->
        map fst flags
          = map fst acc
            ++ List.filter (fun m => negb (Z.land m pf =? 0)) (map fst fields) /\
        concat (map snd flags)
          = concat (map snd acc)
            ++ slice buf (Some off) (Some (flags_end fields pf off)).
Proof.
  intros Hg H. induction H as [|[mask [size align]] fields [Hs Ha] Hall IH];
    intros off acc Hoff.
  - eexists. split; [reflexivity|]. intros flags [= <-].
    cbn [map List.filter flags_end]. rewrite !app_nil_r. split; [reflexivity|].
    unfold slice. rewrite Z.sub_diag. change (Z.to_nat 0) with 0%nat.
    rewrite take_0, app_nil_r. reflexivity.
  - cbn [fst snd] in Hs, Ha.
    cbn [parse_flags_loop flags_end map List.filter fst]. unfold bind at 1. rewrite Hg.
    destruct (Z.land mask pf =? 0) eqn:Hm; cbn [negb].
    + apply IH. exact Hoff.
    + set (size' := if negb (off mod align =? 0)
                    then size + (align - off mod align) else size).
      pose proof (field_size_pos size align off Hs Ha) as Hp. fold size' in Hp.
      destruct ((mask =? Radiotap.FLAGS_MASK)
                && negb (len (slice buf (Some off) (Some (off + size'))) =? 1)).
      * eexists. split; [reflexivity|]. discriminate.
      * destruct (IH (off + size')
                    (acc ++ [(mask, slice buf (Some off) (Some (off + size')))])
                    ltac:(lia)) as (r & -> & Hr).
        eexists. split; [reflexivity|]. intros flags Hf.
        destruct (Hr flags Hf) as [H1 H2]. split.
        { rewrite H1, map_app, <- app_assoc. reflexivity. }
        rewrite H2, map_app, concat_app, <- app_assoc. f_equal.
        cbn [map concat snd]. rewrite app_nil_r.
        apply slice_concat; [lia|].
        apply flags_end_ge. exact Hall.
Qed.

Lemma slice_from_0 {A} (l : list A) hi : slice l (Some 0) hi = slice l None hi.
Proof.
  unfold slice. replace (clamp_index (len l) 0) with 0; [reflexivity|].
  unfold clamp_index. change (0 <? 0) with false. cbv iota.
  pose proof (len_nonneg l). lia.
Qed.

Lemma RADIO_FIELDS_pos : Forall (fun f => 0 < f.2.1 /\ 0 < f.2.2) RADIO_FIELDS.
Proof. repeat constructor. Qed.

(** The table has eighteen entries: the loop and the end offset are not
    unfolded over it. *)
Opaque parse_flags_loop flags_end.

Lemma parse_flags_loop_prefix fields p p' pf buf flags :
  Forall (fun f => 0 < f.2.1 /\ 0 < f.2.2) fields ->
  getfield_simple "present_flags" p = (p, Ok (VInt pf)) ->
  parse_flags_loop fields (Some buf) 0 [] p = (p', Ok flags) ->
  p' = p /\
  map fst flags
    = List.filter (fun m => negb (Z.land m pf =? 0)) (map fst fields) /\
  FlagTriggerList_pack (mkTriggerList None None flags)
    = slice buf None (Some (flags_end fields pf 0)) /\
  (len buf <= flags_end fields pf 0 ->
   FlagTriggerList_pack (mkTriggerList None None flags) = buf).
Proof.
  intros Hpos Hg Hp.
  destruct (parse_flags_loop_ok fields p pf buf Hg Hpos 0 [] ltac:(lia))
    as (r & Hr & Hok).
  rewrite Hr in Hp. injection Hp as <- ->.
  destruct (Hok flags eq_refl) as [H1 H2]. clear Hr Hok.
  pose proof (flags_end_ge fields pf 0 Hpos) as Hge.
  generalize dependent (flags_end fields pf 0). intros fe H2 Hge.
  generalize dependent (List.filter (fun m => negb (Z.land m pf =? 0)) (map fst fields)).
  intros present H1.
  split; [reflexivity|]. split; [exact H1|].
  assert (H3 : FlagTriggerList_pack (mkTriggerList None None flags)
               = slice buf None (Some fe)).
  { unfold FlagTriggerList_pack. cbn [tl_items]. rewrite H2. apply slice_from_0. }
  split; [exact H3|].
  intros Hlen. rewrite H3.
  unfold slice, clamp_index.
  destruct (fe <? 0) eqn:Hn; [apply Z.ltb_lt in Hn; lia|].
  rewrite Z.min_r by lia. rewrite Z.sub_0_r, drop_0. apply take_ge. unfold len. lia.
Qed.

(** [_parse_flags(buf)] cuts the buffer into the fields that
    [present_flags] announces, in the order of [RADIO_FIELDS_MASKS]; joined as
    [FlagTriggerList._pack] joins them, the values are the buffer up to the
    end of the last field: bytes behind it are not part of any flag. *)
Theorem parse_flags_prefix (p p' : Packet) (pf : Z) (buf : bytes)
    (flags : list (Z * bytes)) :
  getfield_simple "present_flags" p = (p, Ok (VInt pf)) ->
  _parse_flags (Some buf) p = (p', Ok flags) ->
  p' = p /\
  map fst flags
    = List.filter (fun m => negb (Z.land m pf =? 0)) (map fst RADIO_FIELDS) /\
  FlagTriggerList_pack (mkTriggerList None None flags)
    = slice buf None (Some (flags_end RADIO_FIELDS pf 0)) /\
  (len buf <= flags_end RADIO_FIELDS pf 0 ->
   FlagTriggerList_pack (mkTriggerList None None flags) = buf).
Proof.
  intros Hg Hp.
  exact (parse_flags_loop_prefix RADIO_FIELDS p p' pf buf flags
           RADIO_FIELDS_pos Hg Hp).
Qed.

Lemma parse_flags_prefix_witness :
  let flags := [(Radiotap.TSFT_MASK, [x10; x00; x00; x00; x00; x00; x00; x00]);
                (Radiotap.FLAGS_MASK, [x10])] in
  radiotap_tsft_flags = radiotap_tsft_flags /\
  map fst flags
    = List.filter (fun m => negb (Z.land m 0x03000000 =? 0)) (map fst RADIO_FIELDS) /\
  FlagTriggerList_pack (mkTriggerList None None flags)
    = slice tsft_flags_area None (Some (flags_end RADIO_FIELDS 0x03000000 0)) /\
  (len tsft_flags_area <= flags_end RADIO_FIELDS 0x03000000 0 ->
   FlagTriggerList_pack (mkTriggerList None None flags) = tsft_flags_area).
Proof.
  intros flags.
  assert (H1 : getfield_simple "present_flags" radiotap_tsft_flags
               = (radiotap_tsft_flags, Ok (VInt 0x03000000)))
    by (vm_compute; reflexivity).
  assert (H2 : _parse_flags (Some tsft_flags_area) radiotap_tsft_flags
               = (radiotap_tsft_flags, Ok flags))
    by (vm_compute; reflexivity).
  exact (parse_flags_prefix radiotap_tsft_flags radiotap_tsft_flags 0x03000000
           tsft_flags_area flags H1 H2).
Defined.
